(** * Townhall rezoning tracker: extraction and reconciliation pipeline

    A shallow embedding of the scraping pipeline (PDF text source, PIN
    extractor, calendar parser, GIS resolver, JSON storage and the run
    orchestrator) together with the properties stated about it.

    Conventions of the embedding
    - a Python [str] is a [string]; one [ascii] stands for one character,
      so [String.length] is [len] and [String.le] is the comparison used
      by [sorted] and by [<=] on strings;
    - a Python [set] of strings is a [gset string], a [dict] with string
      keys is a [gmap string _];
    - code that can raise returns a [result]; [try_except] is the
      [try: ... except Exception: ...] statement;
    - library and network calls (the regular-expression engine, the PDF
      backends, [strptime], the GIS service, file writes) are fields of
      an environment record or a type-class method. *)

From Stdlib Require Import String Ascii List Bool ZArith Lia.
From stdpp Require Import base option list sorting gmap sets strings pretty.

Local Open Scope string_scope.

(** * Part I: the embedding *)

(** ** Python values shared by all modules *)

Module Py.

(** The exception classes the modelled code raises or catches.  All of
    them derive from [Exception]. *)
Inductive exn : Type :=
| FileNotFoundError
| AttributeError
| ReError
| ValueError
| ValidationError
| OSError
| HTTPError
| JSONDecodeError
| KeyError
| IndexError
| Exception (msg : string).

Inductive result (A : Type) : Type :=
| Ok (a : A)
| Raise (e : exn).
Arguments Ok {A} a.
Arguments Raise {A} e.

Definition bind {A B} (m : result A) (f : A → result B) : result B :=
  match m with
  | Ok a => f a
  | Raise e => Raise e
  end.

(** [try: body  except Exception as e: handler e] *)
Definition try_except {A} (body : result A) (handler : exn → result A)
  : result A :=
  match body with
  | Ok a => Ok a
  | Raise e => handler e
  end.

Definition raises {A} (m : result A) : Prop :=
  match m with
  | Ok _ => False
  | Raise _ => True
  end.

Fixpoint mapM {A B} (f : A → result B) (l : list A) : result (list B) :=
  match l with
  | [] => Ok []
  | x :: l' =>
      bind (f x) (fun y => bind (mapM f l') (fun ys => Ok (y :: ys)))
  end.

(** Truthiness of a string and of an optional string ([None] and the
    empty string are falsy). *)
Definition truthy (s : string) : bool :=
  match s with
  | EmptyString => false
  | String _ _ => true
  end.

Definition truthy_opt (o : option string) : bool :=
  match o with
  | None => false
  | Some s => truthy s
  end.

(** [s.replace(old, new)] for a one-character [old]. *)
Fixpoint replace (old : ascii) (new : string) (s : string) : string :=
  match s with
  | EmptyString => EmptyString
  | String c s' =>
      if Ascii.eqb c old then new ++ replace old new s'
      else String c (replace old new s')
  end.

(** [sep.join(parts)] *)
Fixpoint join (sep : string) (parts : list string) : string :=
  match parts with
  | [] => ""
  | [p] => p
  | p :: ps => p ++ sep ++ join sep ps
  end.

(** [sorted(list(s))] for a set of strings. *)
Definition sorted (s : gset string) : list string :=
  merge_sort String.le (elements s).

(** [s.lower()] on characters below 256. *)
Definition lower_char (c : ascii) : ascii :=
  let n := nat_of_ascii c in
  if ((65 <=? n) && (n <=? 90)
      || (192 <=? n) && (n <=? 222) && negb (n =? 215))%nat
  then ascii_of_nat (n + 32)
  else c.

Fixpoint lower (s : string) : string :=
  match s with
  | EmptyString => EmptyString
  | String c s' => String (lower_char c) (lower s')
  end.

(** [sub in s] *)
Fixpoint contains (sub s : string) : bool :=
  String.prefix sub s
  || match s with
     | EmptyString => false
     | String _ s' => contains sub s'
     end.

(** Character membership, [c in s]. *)
Fixpoint contains_char (c : ascii) (s : string) : bool :=
  match s with
  | EmptyString => false
  | String d s' => Ascii.eqb d c || contains_char c s'
  end.

End Py.

Import Py.

Global Instance result_ret : MRet result := fun _ a => Ok a.
Global Instance result_bind : MBind result := fun _ _ f m => bind m f.

(** ** utils/pdf_parser.py *)

Module PdfParser.

Inductive backend : Type := Pdfplumber | PyPDF2.

(** The file system and the two PDF libraries as seen by the parser.
    [pdfplumber_pages p] is the outcome of opening [p] with pdfplumber
    and calling [extract_text] on every page, in page order: either
    the page texts ([None] where the library returns [None]) or the
    exception raised on the way.  [pypdf2_pages] is the same for
    PyPDF2, and [pypdf2_metadata] is the reader's [metadata]
    attribute.  [st_size] and [path_name] are [Path.stat().st_size]
    and [Path.name], read on files that exist. *)
Record env : Type := {
  path_exists : string → bool;
  PDFPLUMBER_AVAILABLE : bool;
  PYPDF2_AVAILABLE : bool;
  pdfplumber_pages : string → result (list (option string));
  pypdf2_pages : string → result (list (option string));
  st_size : string → N;
  path_name : string → string;
  pypdf2_metadata : string → result (option (gmap string string));
}.

(** The dictionary returned by [parse_pdf].  [size_kb] keeps the
    quotient [st_size / 1024] as a fraction. *)
Record pdf_result : Type := {
  text : string;
  page_count : nat;
  size_kb : N * N;
  metadata : gmap string string;
}.

(** Computations that may raise and that record which backends they
    invoked, in call order. *)
Definition M (A : Type) : Type := (list backend * result A)%type.

Definition ret {A} (a : A) : M A := ([], Ok a).

Definition mbind {A B} (m : M A) (f : A → M B) : M B :=
  match m with
  | (tr, Ok a) => let '(tr', r) := f a in ((tr ++ tr')%list, r)
  | (tr, Raise e) => (tr, Raise e)
  end.

Definition raise {A} (e : exn) : M A := ([], Raise e).

(** Run backend [b]: the call is recorded, its outcome returned. *)
Definition invoke {A} (b : backend) (r : result A) : M A := ([b], r).

Definition trace {A} (m : M A) : list backend := fst m.
Definition outcome {A} (m : M A) : result A := snd m.

Definition nl : string := String "010"%char EmptyString.

(** The loop over [enumerate(pages, 1)] filling [text_parts]. *)
Fixpoint text_parts (page_num : nat) (pages : list (option string))
  : list string :=
  match pages with
  | [] => []
  | page_text :: rest =>
      let later := text_parts (S page_num) rest in
      if truthy_opt page_text
      then (nl ++ "--- Page " ++ pretty page_num ++ " ---" ++ nl)
             :: default "" page_text :: later
      else later
  end.

(** The common body of the two backend functions: page count and
    joined text parts, or [("", 0)] when the library raised. *)
Definition extract_pages (lib : result (list (option string)))
  : result (string * nat) :=
  try_except
    (pages ← lib;
     Ok (join nl (text_parts 1 pages), length pages))
    (fun _ => Ok ("", 0)).

Definition _parse_with_pdfplumber (E : env) (pdf_path : string)
  : result (string * nat) :=
  extract_pages (pdfplumber_pages E pdf_path).

Definition _parse_with_pypdf2 (E : env) (pdf_path : string)
  : result (string * nat) :=
  extract_pages (pypdf2_pages E pdf_path).

Definition _extract_metadata (E : env) (pdf_path : string)
  : result (gmap string string) :=
  let metadata : gmap string string :=
    {[ "filename" := path_name E pdf_path ]} in
  if negb (PYPDF2_AVAILABLE E) then Ok metadata
  else
    try_except
      (md ← pypdf2_metadata E pdf_path;
       match md with
       | Some d =>
           if decide (d = ∅) then Ok metadata
           else
             Ok (<["creator" := default "" (d !! "/Creator")]>
                 (<["subject" := default "" (d !! "/Subject")]>
                  (<["author" := default "" (d !! "/Author")]>
                   (<["title" := default "" (d !! "/Title")]> metadata))))
       | None => Ok metadata
       end)
      (fun _ => Ok metadata).

Definition parse_pdf (E : env) (pdf_path : string) : M pdf_result :=
  if negb (path_exists E pdf_path) then raise FileNotFoundError
  else
    (* the enclosing [try ... except Exception as e: ...; raise] logs
       and re-raises, so it is the identity on outcomes *)
    mbind
      (if PDFPLUMBER_AVAILABLE E
       then invoke Pdfplumber (_parse_with_pdfplumber E pdf_path)
       else if PYPDF2_AVAILABLE E
       then invoke PyPDF2 (_parse_with_pypdf2 E pdf_path)
       else raise (Exception
         "No PDF parsing library available. Install pdfplumber or PyPDF2"))
      (fun '(text_content, page_count) =>
    mbind
      (if (String.length text_content <? 100)%nat
            && PYPDF2_AVAILABLE E && PDFPLUMBER_AVAILABLE E
       then invoke PyPDF2 (_parse_with_pypdf2 E pdf_path)
       else ret (text_content, page_count))
      (fun '(text_content, page_count) =>
    mbind ([], _extract_metadata E pdf_path)
      (fun metadata =>
    ret {| text := text_content;
           page_count := page_count;
           size_kb := (st_size E pdf_path, 1024%N);
           metadata := metadata |}))).

End PdfParser.

(** ** utils/pin_extractor.py *)

Module PinExtractor.

(** One element of the list returned by [re.findall]: a string when
    the pattern has at most one group, a tuple of strings when it has
    several. *)
Inductive re_match : Type :=
| MStr (s : string)
| MTuple (groups : list string).

(** The regular-expression library: [re_findall p text] is
    [re.findall(p, text, re.IGNORECASE)], which raises [re.error] on
    a pattern that does not compile.  [DEFAULT_PATTERNS] is the class
    attribute of [PINExtractor]. *)
Class RegexLib (pattern : Type) : Type := {
  re_findall : pattern → string → result (list re_match);
  DEFAULT_PATTERNS : list pattern;
}.

(** The documents on disk: the parser's view plus directory listing,
    [glob_pdf d] being [list(Path(d).glob("*.pdf"))]. *)
Record fs_env : Type := {
  pdf_env :> PdfParser.env;
  dir_exists : string → bool;
  glob_pdf : string → result (list string);
}.

Section Extractor.
Context {pattern : Type} `{RegexLib pattern}.

Record PINExtractor : Type := { patterns : list pattern }.

(** [self.patterns = patterns or self.DEFAULT_PATTERNS] *)
Definition __init__ (ps : option (list pattern)) : PINExtractor :=
  match ps with
  | Some (p :: ps') => {| patterns := p :: ps' |}
  | Some [] | None => {| patterns := DEFAULT_PATTERNS |}
  end.

(** [m.replace('-', '')]; a tuple has no [replace] attribute. *)
Definition normalize (m : re_match) : result string :=
  match m with
  | MStr s => Ok (replace "-" "" s)
  | MTuple _ => Raise AttributeError
  end.

(** The loop [for pattern in self.patterns] updating [pins]. *)
Fixpoint scan_patterns (ps : list pattern) (text : string)
    (pins : gset string) : result (gset string) :=
  match ps with
  | [] => Ok pins
  | pat :: ps' =>
      matches ← re_findall pat text;
      match matches with
      | [] => scan_patterns ps' text pins
      | _ :: _ =>
          normalized ← mapM normalize matches;
          scan_patterns ps' text (pins ∪ list_to_set normalized)
      end
  end.

(** The part of [extract_from_pdf] that follows text extraction. *)
Definition extract_from_text (self : PINExtractor) (text : string)
  : result (list string) :=
  pins ← scan_patterns (patterns self) text ∅;
  Ok (sorted pins).

Definition extract_from_pdf (E : fs_env) (self : PINExtractor)
    (pdf_path : string) : result (list string) :=
  try_except
    (if negb (PdfParser.path_exists E pdf_path) then Ok []
     else
       result ← PdfParser.outcome (PdfParser.parse_pdf E pdf_path);
       let text := PdfParser.text result in
       if negb (truthy text) then Ok []
       else extract_from_text self text)
    (fun _ => Ok []).

(** The loop [for pdf in pdfs: all_pins.update(extract_from_pdf(pdf))]. *)
Fixpoint collect (E : fs_env) (self : PINExtractor)
    (pdf_paths : list string) (all_pins : gset string)
  : result (gset string) :=
  match pdf_paths with
  | [] => Ok all_pins
  | pdf_path :: rest =>
      pins ← extract_from_pdf E self pdf_path;
      collect E self rest (all_pins ∪ list_to_set pins)
  end.

Definition extract_from_directory (E : fs_env) (self : PINExtractor)
    (directory : string) : result (list string) :=
  try_except
    (if negb (dir_exists E directory) then Ok []
     else
       pdf_files ← glob_pdf E directory;
       match pdf_files with
       | [] => Ok []
       | _ :: _ =>
           all_pins ← collect E self pdf_files ∅;
           Ok (sorted all_pins)
       end)
    (fun _ => Ok []).

Definition extract_batch (E : fs_env) (self : PINExtractor)
    (pdf_paths : list string) : result (list string) :=
  all_pins ← collect E self pdf_paths ∅;
  Ok (sorted all_pins).

End Extractor.

End PinExtractor.

(** ** The regular expressions of [DEFAULT_PATTERNS]

    A backtracking matcher for the fragment of Python's [re] syntax the
    default patterns use (literals, classes, sequence, ordered
    alternation, greedy repetition, capturing groups), with
    [re.IGNORECASE]: an instance of the library interface above on which
    the extractor can be run. *)

Module Re.
Import PinExtractor.

Inductive regex : Type :=
| Eps
| Chr (c : ascii)
| Cls (f : ascii → bool)
| Seq (r1 r2 : regex)
| Alt (r1 r2 : regex)
| Star (r : regex)
| Group (i : nat) (r : regex).

Definition captures : Type := list (nat * string).

Fixpoint take (n : nat) (s : string) : string :=
  match n, s with
  | S n', String c s' => String c (take n' s')
  | _, _ => EmptyString
  end.

(** [matcher r s caps k]: match [r] at the head of [s], then hand the
    rest of the input and the captures to [k]; alternatives are tried
    in priority order until [k] accepts. *)
Fixpoint matcher {R} (r : regex) (s : string) (caps : captures)
    (k : string → captures → option R) : option R :=
  match r with
  | Eps => k s caps
  | Chr c =>
      match s with
      | String d s' =>
          if Ascii.eqb (lower_char d) (lower_char c) then k s' caps
          else None
      | EmptyString => None
      end
  | Cls f =>
      match s with
      | String d s' => if f d then k s' caps else None
      | EmptyString => None
      end
  | Seq r1 r2 =>
      matcher r1 s caps (fun s' caps' => matcher r2 s' caps' k)
  | Alt r1 r2 =>
      match matcher r1 s caps k with
      | Some x => Some x
      | None => matcher r2 s caps k
      end
  | Star r' =>
      (fix loop (n : nat) (s : string) (caps : captures) : option R :=
         match n with
         | 0 => k s caps
         | S n' =>
             match matcher r' s caps
                     (fun s' caps' =>
                        if (String.length s' <? String.length s)%nat
                        then loop n' s' caps'
                        else None) with
             | Some x => Some x
             | None => k s caps
             end
         end) (S (String.length s)) s caps
  | Group i r' =>
      matcher r' s caps
        (fun s' caps' =>
           k s' ((i, take (String.length s - String.length s') s)
                   :: caps'))
  end.

Fixpoint groups (r : regex) : nat :=
  match r with
  | Eps | Chr _ | Cls _ => 0
  | Seq r1 r2 | Alt r1 r2 => groups r1 + groups r2
  | Star r' => groups r'
  | Group _ r' => S (groups r')
  end.

Definition capture (caps : captures) (i : nat) : string :=
  match List.find (fun ic => (ic.1 =? i)%nat) caps with
  | Some ic => ic.2
  | None => ""
  end.

(** The list item [findall] produces for one match. *)
Definition item (r : regex) (s rest : string) (caps : captures)
  : re_match :=
  match groups r with
  | 0 => MStr (take (String.length s - String.length rest) s)
  | 1 => MStr (capture caps 1)
  | n => MTuple (List.map (capture caps) (seq 1 n))
  end.

Definition tail (s : string) : string :=
  match s with
  | EmptyString => EmptyString
  | String _ s' => s'
  end.

(** Scan left to right for non-overlapping matches. *)
Fixpoint findall_from (fuel : nat) (r : regex) (s : string)
  : list re_match :=
  match fuel with
  | 0 => []
  | S fuel' =>
      match matcher r s [] (fun rest caps => Some (rest, caps)) with
      | Some (rest, caps) =>
          item r s rest caps
            :: (if (String.length rest <? String.length s)%nat
                then findall_from fuel' r rest
                else match s with
                     | EmptyString => []
                     | String _ s' => findall_from fuel' r s'
                     end)
      | None =>
          match s with
          | EmptyString => []
          | String _ s' => findall_from fuel' r s'
          end
      end
  end.

Definition findall (r : regex) (text : string) : list re_match :=
  findall_from (S (String.length text)) r text.

(** Pattern syntax. *)
Fixpoint lit (s : string) : regex :=
  match s with
  | EmptyString => Eps
  | String c EmptyString => Chr c
  | String c s' => Seq (Chr c) (lit s')
  end.

Definition plus (r : regex) : regex := Seq r (Star r).
Definition opt (r : regex) : regex := Alt r Eps.

Fixpoint rep (n : nat) (r : regex) : regex :=
  match n with
  | 0 => Eps
  | 1 => r
  | S n' => Seq r (rep n' r)
  end.

Fixpoint cat (rs : list regex) : regex :=
  match rs with
  | [] => Eps
  | [r] => r
  | r :: rs' => Seq r (cat rs')
  end.

(** [\s] and [\d] on characters below 256. *)
Definition is_space (c : ascii) : bool :=
  let n := nat_of_ascii c in
  ((9 <=? n) && (n <=? 13) || (28 <=? n) && (n <=? 32)
   || (n =? 133) || (n =? 160))%nat.

Definition is_digit (c : ascii) : bool :=
  let n := nat_of_ascii c in ((48 <=? n) && (n <=? 57))%nat.

Definition ws : regex := Cls is_space.
Definition digit : regex := Cls is_digit.

Definition one_of (cs : string) (f : ascii → bool) : regex :=
  Cls (fun c => contains_char c cs || f c).

Definition DEFAULT_PATTERNS : list regex :=
  [ (* TAX\s+PARCEL\s*(?:NO\.?|NUMBER|#)?[:\s]*(\d{8}) *)
    cat [lit "TAX"; plus ws; lit "PARCEL"; Star ws;
         opt (Alt (Seq (lit "NO") (opt (Chr ".")))
                (Alt (lit "NUMBER") (Chr "#")));
         Star (one_of ":" is_space); Group 1 (rep 8 digit)];
    (* TAX\s+PARCEL\s+NO\.?\s+(\d{3}-\d{3}-\d{2}) *)
    cat [lit "TAX"; plus ws; lit "PARCEL"; plus ws; lit "NO";
         opt (Chr "."); plus ws;
         Group 1 (cat [rep 3 digit; Chr "-"; rep 3 digit; Chr "-";
                       rep 2 digit])];
    (* PID\s*[#:\s]+(\d{8}) *)
    cat [lit "PID"; Star ws; plus (one_of "#:" is_space);
         Group 1 (rep 8 digit)];
    (* PARCEL\s+ID[:\s]*(\d{8}) *)
    cat [lit "PARCEL"; plus ws; lit "ID"; Star (one_of ":" is_space);
         Group 1 (rep 8 digit)];
    (* TCA[:\s]*(\d{8}) *)
    cat [lit "TCA"; Star (one_of ":" is_space); Group 1 (rep 8 digit)] ].

Global Instance python_re : RegexLib regex := {|
  re_findall := fun r text => Ok (findall r text);
  PinExtractor.DEFAULT_PATTERNS := DEFAULT_PATTERNS;
|}.

End Re.

(** ** agents/charlottenc_legistar/models.py

    The [petition_id], [meeting_id] and [scraped_at] fields, drawn from
    [uuid4()] and the clock, carry no information the pipeline reads
    and are left out. *)

Module Models.

Record Petition : Type := {
  file_number : string;
  petition_number : option string;
  location : option string;
  address : option string;
  current_zoning : option string;
  proposed_zoning : option string;
  petitioner : option string;
  status : option string;
  action : option string;
  vote_result : option string;
  legislation_url : option string;
  pins : option (list string);
}.

Record Meeting : Type := {
  meeting_type : string;
  meeting_date : string;
  meeting_time : option string;
  meeting_location : option string;
  meeting_details_url : string;
  agenda_url : option string;
  petitions : list Petition;
}.

Record ScraperStats : Type := {
  total_meetings : nat;
  total_petitions : nat;
  zoning_meetings : nat;
  petitions_with_pins : nat;
  total_pins : nat;
  last_scrape_time : option string;
}.

(** [ScraperStats()] *)
Definition default_stats : ScraperStats :=
  {| total_meetings := 0;
     total_petitions := 0;
     zoning_meetings := 0;
     petitions_with_pins := 0;
     total_pins := 0;
     last_scrape_time := None |}.

(** The constructor call of [Meeting] in [_parse_calendar_row]:
    pydantic rejects [None] for the required [meeting_details_url]. *)
Definition new_Meeting (meeting_type meeting_date : string)
    (meeting_time location : option string)
    (meeting_details_url agenda_url : option string) : result Meeting :=
  match meeting_details_url with
  | None => Raise ValidationError
  | Some url =>
      Ok {| meeting_type := meeting_type;
            meeting_date := meeting_date;
            meeting_time := meeting_time;
            meeting_location := location;
            meeting_details_url := url;
            agenda_url := agenda_url;
            petitions := [] |}
  end.

End Models.

(** ** agents/charlottenc_legistar/scraper.py: calendar parsing *)

Module Scraper.
Import Models.

(** [datetime.strptime] and [strftime]: [strptime s fmt] is [None]
    when the call raises [ValueError], the only exception it raises on
    string arguments. *)
Class DatetimeLib (datetime : Type) : Type := {
  strptime : string → string → option datetime;
  strftime : datetime → string → string;
}.

(** What the parser reads of a [<td>] cell: its stripped text, its
    first [<a>] (text and [href] attribute) and its first [<span>]. *)
Record anchor : Type := { a_text : string; href : option string }.

Record cell : Type := {
  cell_text : string;
  cell_a : option anchor;
  cell_span : option string;
}.

(** [url.lstrip('/')] *)
Fixpoint lstrip (c : ascii) (s : string) : string :=
  match s with
  | EmptyString => EmptyString
  | String d s' => if Ascii.eqb d c then lstrip c s' else s
  end.

Definition _make_absolute_url (base_url : string) (url : option string)
  : option string :=
  match url with
  | None => None
  | Some u =>
      if negb (truthy u) || String.eqb u "#" then None
      else if String.prefix "http" u then Some u
      else Some (base_url ++ "/" ++ lstrip "/" u)
  end.

Definition date_formats : list string :=
  ["%m/%d/%Y"; "%Y-%m-%d"; "%B %d, %Y"].

Section Calendar.
Context {datetime : Type} `{DatetimeLib datetime}.

(** The loop [for fmt in [...]] of [_parse_date]. *)
Fixpoint try_formats (date_str : string) (fmts : list string)
  : option string :=
  match fmts with
  | [] => None
  | fmt :: rest =>
      match strptime date_str fmt with
      | Some dt => Some (strftime dt "%Y-%m-%d")
      | None => try_formats date_str rest
      end
  end.

Definition _parse_date (date_str : string) : result (option string) :=
  try_except (Ok (try_formats date_str date_formats))
             (fun _ => Ok None).

(** [cells[i]] *)
Definition getitem (cells : list cell) (i : nat) : result cell :=
  match cells !! i with
  | Some c => Ok c
  | None => Raise IndexError
  end.

Definition text_via (link : option string) (c : cell) : string :=
  match link with
  | Some t => t
  | None => cell_text c
  end.

Definition _parse_calendar_row (base_url : string) (cells : list cell)
  : result (option Meeting) :=
  if (length cells <? 5)%nat then Ok None
  else
    try_except
      (c0 ← getitem cells 0;
       let meeting_type := text_via (a_text <$> cell_a c0) c0 in
       c1 ← getitem cells 1;
       meeting_date ← _parse_date (cell_text c1);
       if negb (truthy_opt meeting_date) then Ok None
       else
         c3 ← getitem cells 3;
         let meeting_time := text_via (cell_span c3) c3 in
         c4 ← getitem cells 4;
         let location := cell_text c4 in
         meeting_details_link ←
           (if (5 <? length cells)%nat
            then c5 ← getitem cells 5; Ok (cell_a c5)
            else Ok None);
         match meeting_details_link with
         | None => Ok None
         | Some link =>
             let meeting_details_url :=
               _make_absolute_url base_url (href link) in
             agenda_link ←
               (if (6 <? length cells)%nat
                then c6 ← getitem cells 6; Ok (cell_a c6)
                else Ok None);
             let agenda_url :=
               match agenda_link with
               | Some a => _make_absolute_url base_url (href a)
               | None => None
               end in
             m ← new_Meeting meeting_type (default "" meeting_date)
                   (Some meeting_time) (Some location)
                   meeting_details_url agenda_url;
             Ok (Some m)
         end)
      (fun _ => Ok None).

(** The row loop of [fetch_calendar]. *)
Fixpoint parse_rows (base_url : string) (rows : list (list cell))
  : result (list Meeting) :=
  match rows with
  | [] => Ok []
  | row :: rest =>
      meeting ← _parse_calendar_row base_url row;
      meetings ← parse_rows base_url rest;
      Ok (match meeting with
          | Some m => m :: meetings
          | None => meetings
          end)
  end.

End Calendar.

(** [a >= b] on strings *)
Definition str_ge (a b : string) : bool := String.leb b a.

Definition _filter_by_date (meetings : list Meeting)
    (start_date end_date : option string) : list Meeting :=
  let filtered := meetings in
  let filtered :=
    if truthy_opt start_date
    then List.filter
           (fun m => str_ge (meeting_date m) (default "" start_date))
           filtered
    else filtered in
  let filtered :=
    if truthy_opt end_date
    then List.filter
           (fun m => String.leb (meeting_date m) (default "" end_date))
           filtered
    else filtered in
  filtered.

End Scraper.

(** ** utils/gis_client.py and agents/charlottenc_legistar/gis_fetcher.py *)

Module GIS.
Import Models.

(** JSON values carried by GeoJSON documents; arrays and nested
    objects, which the fetcher never looks into, keep their text. *)
Inductive json : Type :=
| JNull
| JBool (b : bool)
| JNum (z : Z)
| JStr (s : string)
| JNested (raw : string).

(** The [properties] member of a feature as the service sent it: it
    may be missing, may be a JSON object, or may be some other JSON
    value (GeoJSON allows [null]). *)
Inductive props : Type :=
| PropsMissing
| PropsValue (v : json)
| PropsObject (d : gmap string json).

Record feature : Type := {
  properties : props;
  geometry : json;
}.

Record FeatureCollection : Type := { features : list feature }.

(** The parcel service: [gis_query n pid] is the outcome of the
    request number [n] (counted from 0) of the session, made for
    [PID='pid']: the exception raised by the request, by
    [raise_for_status] or by the JSON decoder, or the [features]
    array of the decoded reply (empty when the key is absent). *)
Record gis_env : Type := {
  gis_query : nat → string → result (list feature);
}.

(** [MecklenburgGISClient.get_parcel_by_pid] *)
Definition get_parcel_by_pid (E : gis_env) (n : nat) (pid : string)
  : result (option feature) :=
  try_except
    (data_features ← gis_query E n pid;
     match data_features with
     | [] => Ok None
     | feature :: _ =>
         (* the log line reads [feature['properties']] *)
         match properties feature with
         | PropsMissing => Raise KeyError
         | _ => Ok (Some feature)
         end
     end)
    (fun _ => Ok None).

Definition of_opt (o : option string) : json :=
  match o with
  | Some s => JStr s
  | None => JNull
  end.

(** [petition.petition_number or petition.file_number] *)
Definition petition_label (petition : Petition) : string :=
  if truthy_opt (petition_number petition)
  then default "" (petition_number petition)
  else file_number petition.

(** The dictionary passed to [parcel['properties'].update]. *)
Definition petition_metadata (petition : Petition)
    (meeting_date meeting_type : string) : list (string * json) :=
  [ ("petition_number", JStr (petition_label petition));
    ("file_number", JStr (file_number petition));
    ("location", of_opt (location petition));
    ("status", of_opt (status petition));
    ("current_zoning", of_opt (current_zoning petition));
    ("proposed_zoning", of_opt (proposed_zoning petition));
    ("petitioner", of_opt (petitioner petition));
    ("meeting_date", JStr meeting_date);
    ("meeting_type", JStr meeting_type) ].

(** [d.update(kvs)] *)
Definition dict_update (d : gmap string json) (kvs : list (string * json))
  : gmap string json :=
  fold_left (fun acc kv => <[kv.1 := kv.2]> acc) kvs d.

(** [parcel['properties'].update({...})]: only a dictionary has an
    [update] method taking a dictionary. *)
Definition add_petition_metadata (parcel : feature) (petition : Petition)
    (meeting_date meeting_type : string) : result feature :=
  match properties parcel with
  | PropsObject d =>
      Ok {| properties :=
              PropsObject
                (dict_update d
                   (petition_metadata petition meeting_date meeting_type));
            geometry := geometry parcel |}
  | PropsMissing => Raise KeyError
  | PropsValue _ => Raise AttributeError
  end.

(** The local variables of [fetch_parcels_for_petitions], with the
    number of requests the session has made so far. *)
Record fetch_state : Type := {
  requests : nat;
  all_features : list feature;
  total_parcels : nat;
  total_found : nat;
}.

Definition has_pins (p : Petition) : bool :=
  match pins p with
  | Some (_ :: _) => true
  | _ => false
  end.

(** The body of [for pin in pins]. *)
Definition fetch_pin (E : gis_env) (petition : Petition)
    (meeting_date meeting_type : string) (st : fetch_state) (pin : string)
  : result fetch_state :=
  let total_parcels := S (total_parcels st) in
  parcel ← get_parcel_by_pid E (requests st) pin;
  match parcel with
  | Some parcel =>
      parcel' ← add_petition_metadata parcel petition
                  meeting_date meeting_type;
      Ok {| requests := S (requests st);
            all_features := (all_features st ++ [parcel'])%list;
            total_parcels := total_parcels;
            total_found := S (total_found st) |}
  | None =>
      Ok {| requests := S (requests st);
            all_features := all_features st;
            total_parcels := total_parcels;
            total_found := total_found st |}
  end.

Fixpoint fetch_pins (E : gis_env) (petition : Petition)
    (meeting_date meeting_type : string) (st : fetch_state)
    (pins : list string) : result fetch_state :=
  match pins with
  | [] => Ok st
  | pin :: rest =>
      st' ← fetch_pin E petition meeting_date meeting_type st pin;
      fetch_pins E petition meeting_date meeting_type st' rest
  end.

(** The loop [for petition in petitions_with_pins]. *)
Fixpoint fetch_loop (E : gis_env) (meeting_date meeting_type : string)
    (st : fetch_state) (petitions_with_pins : list Petition)
  : result fetch_state :=
  match petitions_with_pins with
  | [] => Ok st
  | petition :: rest =>
      st' ← fetch_pins E petition meeting_date meeting_type st
              (default [] (pins petition));
      fetch_loop E meeting_date meeting_type st' rest
  end.

Definition _empty_geojson : FeatureCollection := {| features := [] |}.

(** [fetch_parcels_for_petitions], started when the session has made
    [n0] requests; the final loop state is returned next to the
    FeatureCollection because the counters only reach the log. *)
Definition fetch_parcels_for_petitions (E : gis_env) (n0 : nat)
    (petitions : list Petition) (meeting_date meeting_type : string)
  : result (FeatureCollection * fetch_state) :=
  let init := {| requests := n0; all_features := [];
                 total_parcels := 0; total_found := 0 |} in
  let petitions_with_pins := List.filter has_pins petitions in
  match petitions_with_pins with
  | [] => Ok (_empty_geojson, init)
  | _ :: _ =>
      st ← fetch_loop E meeting_date meeting_type init petitions_with_pins;
      Ok ({| features := all_features st |}, st)
  end.

(** [fetch_parcels_for_all_meetings] *)
Fixpoint fetch_meetings (E : gis_env) (n0 : nat) (meetings : list Meeting)
    (all_features : list feature) : result (list feature) :=
  match meetings with
  | [] => Ok all_features
  | meeting :: rest =>
      r ← fetch_parcels_for_petitions E n0 (petitions meeting)
             (meeting_date meeting) (meeting_type meeting);
      fetch_meetings E (requests r.2) rest
        (all_features ++ features r.1)%list
  end.

Definition fetch_parcels_for_all_meetings (E : gis_env)
    (meetings : list Meeting) : result FeatureCollection :=
  all_features ← fetch_meetings E 0 meetings [];
  Ok {| features := all_features |}.

End GIS.

(** ** agents/charlottenc_legistar/storage.py *)

Module Storage.
Import Models.

(** A petition as [save_petitions] stores it, with the meeting
    context folded in. *)
Record petition_dict : Type := {
  petition : Petition;
  pd_meeting_date : string;
  pd_meeting_type : string;
}.

(** What a file under the data directory holds: one of the four JSON
    documents the storage writes, or text that [json.load] rejects. *)
Inductive document : Type :=
| MeetingsDoc (meetings : list Meeting) (last_updated : string)
    (total_count : nat)
| PetitionsDoc (petitions : list petition_dict) (last_updated : string)
    (total_count : nat)
| StatsDoc (stats : ScraperStats)
| ParcelsDoc (geojson : GIS.FeatureCollection)
| Garbage (raw : string).

Abbreviation files := (gmap string document).

(** The environment of the storage.  [write_ok p] tells whether
    [open(p, 'w')] and the [json.dump] into it both go through.  When
    they do not, [write_error p] is the exception raised and
    [left_behind p] is what the failure leaves in the file: [None]
    when [open] itself failed, so that the file is as it was, and
    [Some raw] when [open] had truncated the file and the dump
    stopped after writing [raw], a text that is not a JSON document.
    A run writes each file once, so the path names the write.
    [now] is [datetime.now().isoformat()]. *)
Record io_env : Type := {
  write_ok : string → bool;
  write_error : string → exn;
  left_behind : string → option string;
  now : string;
}.

(** File-system computations that may raise; the files written before
    an exception stay written. *)
Definition IO (A : Type) : Type := files → files * result A.

Definition io_ret {A} (a : A) : IO A := fun fs => (fs, Ok a).

Definition io_raise {A} (e : exn) : IO A := fun fs => (fs, Raise e).

Definition io_bind {A B} (m : IO A) (f : A → IO B) : IO B :=
  fun fs =>
    match m fs with
    | (fs', Ok a) => f a fs'
    | (fs', Raise e) => (fs', Raise e)
    end.

Definition io_try {A} (body : IO A) (handler : exn → IO A) : IO A :=
  fun fs =>
    match body fs with
    | (fs', Ok a) => (fs', Ok a)
    | (fs', Raise e) => handler e fs'
    end.

Definition io_lift {A} (r : result A) : IO A := fun fs => (fs, r).

(** The files after a write to [path] that failed. *)
Definition after_failure (E : io_env) (path : string) (fs : files)
  : files :=
  match left_behind E path with
  | Some raw => <[path := Garbage raw]> fs
  | None => fs
  end.

(** [with open(path, 'w') as f: json.dump(doc, f)] *)
Definition write_json (E : io_env) (path : string) (doc : document)
  : IO unit :=
  fun fs =>
    if write_ok E path then (<[path := doc]> fs, Ok tt)
    else (after_failure E path fs, Raise (write_error E path)).

Record Storage : Type := { data_dir : string }.

Definition meetings_file (self : Storage) : string :=
  data_dir self ++ "/meetings.json".
Definition petitions_file (self : Storage) : string :=
  data_dir self ++ "/petitions.json".
Definition stats_file (self : Storage) : string :=
  data_dir self ++ "/stats.json".
Definition parcels_file (self : Storage) : string :=
  data_dir self ++ "/parcels.geojson".

Definition all_petitions (meetings : list Meeting) : list petition_dict :=
  flat_map
    (fun meeting =>
       List.map
         (fun p => {| petition := p;
                      pd_meeting_date := meeting_date meeting;
                      pd_meeting_type := meeting_type meeting |})
         (petitions meeting))
    meetings.

Definition save_meetings (E : io_env) (self : Storage)
    (meetings : list Meeting) : IO unit :=
  write_json E (meetings_file self)
    (MeetingsDoc meetings (now E) (length meetings)).

Definition save_petitions (E : io_env) (self : Storage)
    (meetings : list Meeting) : IO unit :=
  let all := all_petitions meetings in
  write_json E (petitions_file self)
    (PetitionsDoc all (now E) (length all)).

Definition sum_list (l : list nat) : nat := fold_right Nat.add 0 l.

Definition compute_stats (E : io_env) (meetings : list Meeting)
  : ScraperStats :=
  let every_petition := flat_map petitions meetings in
  {| total_meetings := length meetings;
     total_petitions :=
       sum_list (List.map (fun m => length (petitions m)) meetings);
     zoning_meetings :=
       length (List.filter
                 (fun m => contains "zoning" (lower (meeting_type m)))
                 meetings);
     petitions_with_pins :=
       length (List.filter GIS.has_pins every_petition);
     total_pins :=
       sum_list (List.map (fun p => length (default [] (pins p)))
                   (List.filter GIS.has_pins every_petition));
     last_scrape_time := Some (now E) |}.

Definition save_stats (E : io_env) (self : Storage)
    (meetings : list Meeting) : IO unit :=
  write_json E (stats_file self) (StatsDoc (compute_stats E meetings)).

Definition save_parcels_geojson (E : io_env) (self : Storage)
    (geojson : GIS.FeatureCollection) : IO unit :=
  write_json E (parcels_file self) (ParcelsDoc geojson).

Definition load_meetings (self : Storage) : IO (list Meeting) :=
  fun fs =>
    match fs !! meetings_file self with
    | None => (fs, Ok [])
    | Some (MeetingsDoc meetings _ _) => (fs, Ok meetings)
    | Some (Garbage _) => (fs, Raise JSONDecodeError)
    | Some _ => (fs, Raise KeyError)
    end.

Definition load_petitions (self : Storage) : IO (list petition_dict) :=
  fun fs =>
    match fs !! petitions_file self with
    | None => (fs, Ok [])
    | Some (PetitionsDoc petitions _ _) => (fs, Ok petitions)
    | Some (Garbage _) => (fs, Raise JSONDecodeError)
    | Some _ => (fs, Raise KeyError)
    end.

(** The pydantic constructor of [ScraperStats] ignores keys that are
    not fields of the model, so a document of another kind yields the
    defaults. *)
Definition get_stats (self : Storage) : IO ScraperStats :=
  fun fs =>
    match fs !! stats_file self with
    | None => (fs, Ok default_stats)
    | Some (StatsDoc stats) => (fs, Ok stats)
    | Some (Garbage _) => (fs, Raise JSONDecodeError)
    | Some _ => (fs, Ok default_stats)
    end.

Definition load_parcels_geojson (self : Storage) : IO document :=
  fun fs =>
    match fs !! parcels_file self with
    | None => (fs, Ok (ParcelsDoc {| GIS.features := [] |}))
    | Some (Garbage _) => (fs, Raise JSONDecodeError)
    | Some doc => (fs, Ok doc)
    end.

End Storage.

(** ** main.py: the run orchestrator *)

Module Orchestrator.
Import Models Storage.

(** The collaborators of one run: the outcome of [_scrape_meetings],
    the effect of [_process_petitions] on the meetings (it fills in
    the PINs in place) or the exception it lets through, the parcel
    service and the storage environment. *)
Record run_env : Type := {
  scrape_meetings : result (list Meeting);
  process_petitions : list Meeting → result (list Meeting);
  gis : GIS.gis_env;
  io : io_env;
}.

(** [_fetch_parcel_geometry]: the value left in
    [self._parcel_geojson]. *)
Definition _fetch_parcel_geometry (E : run_env) (meetings : list Meeting)
  : GIS.FeatureCollection :=
  match GIS.fetch_parcels_for_all_meetings (gis E) meetings with
  | Ok geojson => geojson
  | Raise _ => {| GIS.features := [] |}
  end.

Definition _save_data (E : run_env) (self : Storage)
    (_parcel_geojson : option GIS.FeatureCollection)
    (meetings : list Meeting) : IO unit :=
  io_try
    (io_bind (save_meetings (io E) self meetings) (fun _ =>
     io_bind (save_petitions (io E) self meetings) (fun _ =>
     io_bind (match _parcel_geojson with
              | Some geojson => save_parcels_geojson (io E) self geojson
              | None => io_ret tt
              end) (fun _ =>
     save_stats (io E) self meetings))))
    (fun e => io_raise e).

(** [_print_summary] reads the statistics and the petitions back. *)
Definition _print_summary (self : Storage) : IO unit :=
  io_bind (get_stats self) (fun _ =>
  io_bind (load_petitions self) (fun _ =>
  io_ret tt)).

Definition run (E : run_env) (self : Storage) : IO bool :=
  io_try
    (io_bind (io_lift (scrape_meetings E)) (fun meetings =>
     match meetings with
     | [] => io_ret false
     | _ :: _ =>
         io_bind (io_lift (process_petitions E meetings)) (fun meetings =>
         let _parcel_geojson := _fetch_parcel_geometry E meetings in
         io_bind (_save_data E self (Some _parcel_geojson) meetings)
           (fun _ =>
         io_bind (_print_summary self) (fun _ =>
         io_ret true)))
     end))
    (fun _ => io_ret false).

(** [sys.exit(0 if success else 1)] in [main]. *)
Definition exit_status (success : bool) : Z :=
  if success then 0%Z else 1%Z.

End Orchestrator.

(** ** The three date formats of [_parse_date]

    [datetime.strptime] turns the format into a regular expression,
    matches it against the head of the string with [re.IGNORECASE],
    rejects unconverted trailing data and builds the date from the
    groups, rejecting days that do not exist; [strftime] prints the
    year in decimal and the month and the day on two digits.  This
    is an instance of the library interface for the three formats the
    scraper uses. *)

Module Datetime.
Import Re.

Record datetime : Type := { year : nat; month : nat; day : nat }.

Definition range (lo hi : ascii) : regex :=
  Cls (fun c => (nat_of_ascii lo <=? nat_of_ascii c)%nat
                && (nat_of_ascii c <=? nat_of_ascii hi)%nat).

(** [%m]: [1[0-2]|0[1-9]|[1-9]] *)
Definition re_m : regex :=
  Alt (Seq (Chr "1") (range "0" "2"))
    (Alt (Seq (Chr "0") (range "1" "9")) (range "1" "9")).

(** [%d]: [3[0-1]|[1-2]\d|0[1-9]|[1-9]| [1-9]] *)
Definition re_d : regex :=
  Alt (Seq (Chr "3") (range "0" "1"))
    (Alt (Seq (range "1" "2") digit)
       (Alt (Seq (Chr "0") (range "1" "9"))
          (Alt (range "1" "9") (Seq (Chr " ") (range "1" "9"))))).

(** [%Y]: [\d\d\d\d] *)
Definition re_Y : regex := rep 4 digit.

Definition month_names : list string :=
  [ "january"; "february"; "march"; "april"; "may"; "june"; "july";
    "august"; "september"; "october"; "november"; "december" ].

(** [%B]: the month names, longest first. *)
Definition re_B : regex :=
  fold_right Alt (lit "may")
    (List.map lit
       [ "september"; "february"; "november"; "december"; "january";
         "october"; "august"; "march"; "april"; "june"; "july" ]).

(** The regular expression of a format; groups 1, 2 and 3 are the
    year, the month and the day. *)
Definition format_regex (fmt : string) : option regex :=
  if String.eqb fmt "%m/%d/%Y"
  then Some (cat [Group 2 re_m; Chr "/"; Group 3 re_d; Chr "/";
                  Group 1 re_Y])
  else if String.eqb fmt "%Y-%m-%d"
  then Some (cat [Group 1 re_Y; Chr "-"; Group 2 re_m; Chr "-";
                  Group 3 re_d])
  else if String.eqb fmt "%B %d, %Y"
  then Some (cat [Group 2 re_B; plus ws; Group 3 re_d; Chr ",";
                  plus ws; Group 1 re_Y])
  else None.

(** [int(s)] on a group of digits, a leading space allowed. *)
Fixpoint to_nat (acc : nat) (s : string) : nat :=
  match s with
  | EmptyString => acc
  | String c s' =>
      if is_digit c then to_nat (10 * acc + (nat_of_ascii c - 48)) s'
      else to_nat acc s'
  end.

Fixpoint index_of (name : string) (names : list string) (i : nat)
  : option nat :=
  match names with
  | [] => None
  | n :: rest =>
      if String.eqb n name then Some i else index_of name rest (S i)
  end.

Definition month_of (group : string) : nat :=
  match index_of (lower group) month_names 1 with
  | Some i => i
  | None => to_nat 0 group
  end.

Definition is_leap (y : nat) : bool :=
  ((y mod 4 =? 0) && (negb (y mod 100 =? 0) || (y mod 400 =? 0)))%nat.

Definition days_in_month (y m : nat) : nat :=
  match m with
  | 2 => if is_leap y then 29 else 28
  | 4 | 6 | 9 | 11 => 30
  | _ => 31
  end.

Definition strptime (date_string fmt : string) : option datetime :=
  match format_regex fmt with
  | None => None
  | Some r =>
      match matcher r date_string [] (fun rest caps => Some (rest, caps))
      with
      | Some (EmptyString, caps) =>
          let y := to_nat 0 (capture caps 1) in
          let m := month_of (capture caps 2) in
          let d := to_nat 0 (capture caps 3) in
          if ((1 <=? y) && (1 <=? m) && (m <=? 12)
              && (1 <=? d) && (d <=? days_in_month y m))%nat
          then Some {| year := y; month := m; day := d |}
          else None
      | _ => None
      end
  end.

Definition digit_char (n : nat) : ascii := ascii_of_nat (48 + n mod 10).

Definition two_digits (n : nat) : string :=
  String (digit_char (n / 10)) (String (digit_char n) EmptyString).

(** [dt.strftime(fmt)] for the one format the scraper prints: [%Y] is
    the year in decimal as the C library of Linux prints it, without
    padding, so that a year below 1000 has fewer than four digits
    (later versions of CPython pad it themselves; the two agree from
    the year 1000 on); [%m] and [%d] are padded to two digits.  Any
    other format is returned as it is. *)
Definition strftime (dt : datetime) (fmt : string) : string :=
  if String.eqb fmt "%Y-%m-%d"
  then pretty (year dt) ++ "-"
       ++ two_digits (month dt) ++ "-" ++ two_digits (day dt)
  else fmt.

Global Instance python_datetime : Scraper.DatetimeLib datetime := {|
  Scraper.strptime := strptime;
  Scraper.strftime := strftime;
|}.

End Datetime.

(** ** Vocabulary of the statements *)

Module Spec.
Import PinExtractor.

(** Dropping the exception carried by a failure. *)
Definition to_option {A} (r : result A) : option A :=
  match r with
  | Ok a => Some a
  | Raise _ => None
  end.

(** The two backends of the text source, seen uniformly. *)
Definition available (E : PdfParser.env) (b : PdfParser.backend) : bool :=
  match b with
  | PdfParser.Pdfplumber => PdfParser.PDFPLUMBER_AVAILABLE E
  | PdfParser.PyPDF2 => PdfParser.PYPDF2_AVAILABLE E
  end.

Definition library_pages (E : PdfParser.env) (b : PdfParser.backend)
    (path : string) : result (list (option string)) :=
  match b with
  | PdfParser.Pdfplumber => PdfParser.pdfplumber_pages E path
  | PdfParser.PyPDF2 => PdfParser.pypdf2_pages E path
  end.

Definition run_backend (E : PdfParser.env) (b : PdfParser.backend)
    (path : string) : result (string * nat) :=
  match b with
  | PdfParser.Pdfplumber => PdfParser._parse_with_pdfplumber E path
  | PdfParser.PyPDF2 => PdfParser._parse_with_pypdf2 E path
  end.

(** The text and page count a backend function returns. *)
Definition backend_output (E : PdfParser.env) (b : PdfParser.backend)
    (path : string) : string * nat :=
  match run_backend E b path with
  | Ok tn => tn
  | Raise _ => ("", 0)
  end.

(** Calendar dates and their [YYYY-MM-DD] rendering. *)
Record date : Type := { year : nat; month : nat; day : nat }.

Definition digit_value (c : ascii) : nat := nat_of_ascii c - 48.

(** Reading the ten characters of a [YYYY-MM-DD] string. *)
Definition parse_iso (s : string) : date :=
  match s with
  | String y3 (String y2 (String y1 (String y0 (String _
      (String m1 (String m0 (String _ (String d1 (String d0 _))))))))) =>
      {| year := 1000 * digit_value y3 + 100 * digit_value y2
                 + 10 * digit_value y1 + digit_value y0;
         month := 10 * digit_value m1 + digit_value m0;
         day := 10 * digit_value d1 + digit_value d0 |}
  | _ => {| year := 0; month := 0; day := 0 |}
  end.

(** [s] has the form [dddd-dd-dd], the format [main] checks the
    date arguments against. *)
Definition is_iso (s : string) : bool :=
  match s with
  | String y3 (String y2 (String y1 (String y0 (String s1
      (String m1 (String m0 (String s2 (String d1 (String d0
        EmptyString))))))))) =>
      forallb Re.is_digit [y3; y2; y1; y0; m1; m0; d1; d0]
      && Ascii.eqb s1 "-" && Ascii.eqb s2 "-"
  | _ => false
  end.

(** Chronological order. *)
Definition date_leb (a b : date) : bool :=
  ((year a <? year b)
   || (year a =? year b)
      && ((month a <? month b)
          || (month a =? month b) && (day a <=? day b)))%nat.

(** [d] lies between the bounds that are given, both inclusive. *)
Definition within (lo hi : option date) (d : date) : bool :=
  match lo with
  | Some l => date_leb l d
  | None => true
  end
  && match hi with
     | Some h => date_leb d h
     | None => true
     end.

(** The bound test of the date filter, on the date strings. *)
Definition in_string_range (start_date end_date : option string)
    (m : Models.Meeting) : bool :=
  (if truthy_opt start_date
   then String.leb (default "" start_date) (Models.meeting_date m)
   else true)
  && (if truthy_opt end_date
      then String.leb (Models.meeting_date m) (default "" end_date)
      else true).

(** The meeting date lies between the bounds that are given, both
    inclusive, for the order on strings. *)
Definition in_bounds (start_date end_date : option string)
    (m : Models.Meeting) : bool :=
  match start_date with
  | Some s => String.leb s (Models.meeting_date m)
  | None => true
  end
  && match end_date with
     | Some e => String.leb (Models.meeting_date m) e
     | None => true
     end.

Section Rows.
Import Scraper.
Context {datetime : Type} `{DatetimeLib datetime}.

(** [fmt] is the first of [fmts] that parses [date_str], to [dt]. *)
Definition first_format (date_str : string) (fmts : list string)
    (fmt : string) (dt : datetime) : Prop :=
  ∃ before after,
    fmts = (before ++ fmt :: after)%list ∧
    Forall (fun f => strptime date_str f = None) before ∧
    strptime date_str fmt = Some dt.

(** The date column is parsed by one of the known formats. *)
Definition parseable (date_str : string) : Prop :=
  ∃ fmt dt, first_format date_str date_formats fmt dt ∧
            truthy (strftime dt "%Y-%m-%d") = true.

(** The link of the sixth column, when there is one. *)
Definition details_link (cells : list cell) : option anchor :=
  match cells !! 5 with
  | Some c => cell_a c
  | None => None
  end.

(** The conditions under which a row becomes a meeting. *)
Definition row_accepted (base_url : string) (cells : list cell)
  : Prop :=
  (5 ≤ length cells)%nat ∧
  (∃ c1, cells !! 1 = Some c1 ∧ parseable (cell_text c1)) ∧
  ∃ link, details_link cells = Some link ∧
          is_Some (_make_absolute_url base_url (href link)).

(** The meeting a row contributes to the page, if any. *)
Definition row_meeting (base_url : string) (cells : list cell)
  : option Models.Meeting :=
  match _parse_calendar_row base_url cells with
  | Ok r => r
  | Raise _ => None
  end.

End Rows.

(** The lookups a call of the GIS fetcher makes, in order: one per
    identifier of each petition that has identifiers. *)
Definition jobs (petitions : list Models.Petition)
  : list (Models.Petition * string) :=
  flat_map
    (fun p => List.map (fun pin => (p, pin)) (default [] (Models.pins p)))
    (List.filter GIS.has_pins petitions).

(** What the lookup made as request number [n] for the identifier of
    [job] contributes: the matched parcel with the petition metadata
    merged in, or nothing. *)
Definition job_feature (E : GIS.gis_env) (meeting_date meeting_type : string)
    (n : nat) (job : Models.Petition * string) : option GIS.feature :=
  match GIS.get_parcel_by_pid E n job.2 with
  | Ok (Some parcel) =>
      to_option
        (GIS.add_petition_metadata parcel job.1 meeting_date meeting_type)
  | _ => None
  end.

(** Each lookup contributes its own feature or none, whatever the
    other lookups return. *)
Fixpoint job_features (E : GIS.gis_env) (meeting_date meeting_type : string)
    (n : nat) (js : list (Models.Petition * string)) : list GIS.feature :=
  match js with
  | [] => []
  | job :: rest =>
      (match job_feature E meeting_date meeting_type n job with
       | Some f => [f]
       | None => []
       end ++ job_features E meeting_date meeting_type (S n) rest)%list
  end.

(** Every parcel matched by the lookups of [js], numbered from [n],
    carries a JSON object as its properties. *)
Fixpoint object_properties (E : GIS.gis_env) (n : nat)
    (js : list (Models.Petition * string)) : Prop :=
  match js with
  | [] => True
  | job :: rest =>
      (∀ parcel, GIS.get_parcel_by_pid E n job.2 = Ok (Some parcel) →
                 ∃ d, GIS.properties parcel = GIS.PropsObject d)
      ∧ object_properties E (S n) rest
  end.

(** The four artifacts of a run, in the order [_save_data] writes
    them, each with the file it goes to. *)
Definition artifacts (E : Storage.io_env) (self : Storage.Storage)
    (geojson : GIS.FeatureCollection) (meetings : list Models.Meeting)
  : list (string * Storage.document) :=
  [ (Storage.meetings_file self,
     Storage.MeetingsDoc meetings (Storage.now E) (length meetings));
    (Storage.petitions_file self,
     Storage.PetitionsDoc (Storage.all_petitions meetings) (Storage.now E)
       (length (Storage.all_petitions meetings)));
    (Storage.parcels_file self, Storage.ParcelsDoc geojson);
    (Storage.stats_file self,
     Storage.StatsDoc (Storage.compute_stats E meetings)) ].

(** The files after the documents of [docs] have been written. *)
Definition written (docs : list (string * Storage.document))
    (fs : gmap string Storage.document) : gmap string Storage.document :=
  fold_left (fun acc pd => <[pd.1 := pd.2]> acc) docs fs.

Section Patterns.
Context {pattern : Type} `{RegexLib pattern}.

(** The identifiers one pattern contributes on a text. *)
Definition pattern_pins (pat : pattern) (text : string)
  : result (gset string) :=
  matches ← re_findall pat text;
  normalized ← mapM normalize matches;
  Ok (list_to_set normalized).

(** [x] is the hyphen-free form of a group some pattern of [ps]
    matched in [text]. *)
Definition normalized_match (ps : list pattern) (text x : string)
  : Prop :=
  ∃ pat matches s,
    pat ∈ ps ∧ re_findall pat text = Ok matches ∧
    MStr s ∈ matches ∧ x = replace "-" "" s.

(** The document at [path] is there and the text source returns
    a result for it. *)
Definition parses (E : fs_env) (path : string) : bool :=
  PdfParser.path_exists E path
  && match PdfParser.outcome (PdfParser.parse_pdf E path) with
     | Ok _ => true
     | Raise _ => false
     end.

(** The document fails to parse: it is not there, or every backend
    the text source invokes for it raises (none being available
    included). *)
Definition fails_to_parse (E : fs_env) (path : string) : bool :=
  negb (PdfParser.path_exists E path)
  || forallb
       (fun b => match library_pages E b path with
                 | Ok _ => false
                 | Raise _ => true
                 end)
       (PdfParser.trace (PdfParser.parse_pdf E path)).

(** The identifiers extracted from one document. *)
Definition document_pins (E : fs_env) (self : PINExtractor)
    (path : string) : gset string :=
  match extract_from_pdf E self path with
  | Ok l => list_to_set l
  | Raise _ => ∅
  end.

(** The union of the identifiers of the documents that parse. *)
Definition union_of_parsed (E : fs_env) (self : PINExtractor)
    (paths : list string) : gset string :=
  ⋃ (List.map (document_pins E self) (List.filter (parses E) paths)).

(** The union of the identifiers of the documents that do not fail
    to parse. *)
Definition union_of_readable (E : fs_env) (self : PINExtractor)
    (paths : list string) : gset string :=
  ⋃ (List.map (document_pins E self)
       (List.filter (fun path => negb (fails_to_parse E path)) paths)).

End Patterns.

End Spec.

(** ** Sample inputs *)

Module Sample.

Definition staff_report_page : string :=
  "REZONING PETITION 2025-142: the site is TAX PARCEL NO. 123-053-10 "
  ++ "together with Tax Parcel: 12517402; PID #17903240, "
  ++ "parcel id: 16911107 (TCA 16911107), about 4.2 acres.".

Definition scan_fallback_page : string :=
  "Petition 2025-150 concerns the corner lot recorded in the county "
  ++ "register under PARCEL ID: 22310197 and the adjoining strip.".

Definition pages_pdfplumber (p : string)
  : result (list (option string)) :=
  if String.eqb p "data/pdfs/attachments/2025-142/staff_report.pdf"
  then Ok [Some staff_report_page; None]
  else if String.eqb p "data/pdfs/attachments/2025-142/scan.pdf"
  then Ok [Some "PID"]
  else Raise (Exception "not a PDF").

Definition pages_pypdf2 (p : string) : result (list (option string)) :=
  if String.eqb p "data/pdfs/attachments/2025-142/staff_report.pdf"
  then Ok [Some staff_report_page; Some ""]
  else if String.eqb p "data/pdfs/attachments/2025-142/scan.pdf"
  then Ok [Some scan_fallback_page]
  else Raise (Exception "not a PDF").

Definition on_disk : list string :=
  [ "data/pdfs/attachments/2025-142/staff_report.pdf";
    "data/pdfs/attachments/2025-142/scan.pdf";
    "data/pdfs/attachments/2025-142/corrupt.pdf" ].

Definition pdfs (plumber pypdf2 : bool) : PdfParser.env :=
  {| PdfParser.path_exists :=
       fun p => bool_decide (p ∈ on_disk);
     PdfParser.PDFPLUMBER_AVAILABLE := plumber;
     PdfParser.PYPDF2_AVAILABLE := pypdf2;
     PdfParser.pdfplumber_pages := pages_pdfplumber;
     PdfParser.pypdf2_pages := pages_pypdf2;
     PdfParser.st_size := fun _ => 20480%N;
     PdfParser.path_name := fun p => p;
     PdfParser.pypdf2_metadata := fun _ => Ok None |}.

(** What the text source returns for the staff report, and the
    identifiers the default patterns find in it. *)
Definition staff_report_result : PdfParser.pdf_result :=
  {| PdfParser.text :=
       PdfParser.nl ++ "--- Page 1 ---" ++ PdfParser.nl ++ PdfParser.nl
       ++ staff_report_page;
     PdfParser.page_count := 2;
     PdfParser.size_kb := (20480%N, 1024%N);
     PdfParser.metadata :=
       {[ "filename" :=
            "data/pdfs/attachments/2025-142/staff_report.pdf" ]} |}.

Definition staff_report_pins : gset string :=
  list_to_set ["12305310"; "12517402"; "16911107"; "17903240"].

Definition disk : PinExtractor.fs_env :=
  {| PinExtractor.pdf_env := pdfs true true;
     PinExtractor.dir_exists :=
       fun d => String.eqb d "data/pdfs/attachments/2025-142";
     PinExtractor.glob_pdf :=
       fun d =>
         if String.eqb d "data/pdfs/attachments/2025-142"
         then Ok on_disk else Ok [] |}.

(** A calendar entry of the zoning committee on a given day. *)
Definition meeting_on (d : string) : Models.Meeting :=
  {| Models.meeting_type := "Zoning Committee";
     Models.meeting_date := d;
     Models.meeting_time := Some "5:00 PM";
     Models.meeting_location := Some "Council Chamber";
     Models.meeting_details_url :=
       "https://charlottenc.legistar.com/MeetingDetail.aspx?ID=1";
     Models.agenda_url := None;
     Models.petitions := [] |}.

Definition january : list Models.Meeting :=
  List.map meeting_on
    ["2026-01-05"; "2026-01-10"; "2026-01-15"; "2026-01-20";
     "2026-01-25"; "2026-01-31"].

(** Calendar rows: a complete one, one that stops after the
    location column, and one whose date is not a date. *)
Definition td (t : string) : Scraper.cell :=
  {| Scraper.cell_text := t;
     Scraper.cell_a := None;
     Scraper.cell_span := None |}.

Definition td_link (t url : string) : Scraper.cell :=
  {| Scraper.cell_text := t;
     Scraper.cell_a :=
       Some {| Scraper.a_text := t; Scraper.href := Some url |};
     Scraper.cell_span := None |}.

Definition five_columns (d : string) : list Scraper.cell :=
  [ td_link "Zoning Committee" "DepartmentDetail.aspx?ID=7";
    td d; td ""; td "5:00 PM"; td "Council Chamber" ].

Definition full_row (d : string) : list Scraper.cell :=
  (five_columns d
     ++ [ td_link "Meeting details" "MeetingDetail.aspx?ID=1";
          td "Not available" ])%list.

Definition base : string := "https://charlottenc.legistar.com".

(** The parcel service: one parcel on record, one identifier
    without a match, every other request failing. *)
Definition parcel_22310197 : GIS.feature :=
  {| GIS.properties :=
       GIS.PropsObject
         (<["PID" := GIS.JStr "22310197"]>
          (<["NC_PIN" := GIS.JStr "4447181490"]>
           (<["status" := GIS.JStr "ACTIVE"]> ∅)));
     GIS.geometry :=
       GIS.JNested "Polygon [[-80.84, 35.22], [-80.84, 35.23]]" |}.

Definition parcels : GIS.gis_env :=
  {| GIS.gis_query :=
       fun _ pid =>
         if String.eqb pid "22310197" then Ok [parcel_22310197]
         else if String.eqb pid "00000000" then Ok []
         else Raise HTTPError |}.

(** The same service with one more parcel, "11111111", which it
    returns with [null] as its properties. *)
Definition parcels_with_null : GIS.gis_env :=
  {| GIS.gis_query :=
       fun n pid =>
         if String.eqb pid "11111111"
         then Ok [{| GIS.properties := GIS.PropsValue GIS.JNull;
                     GIS.geometry := GIS.JNull |}]
         else GIS.gis_query parcels n pid |}.

Definition petition_of (number : option string) (pins : list string)
  : Models.Petition :=
  {| Models.file_number := "15-25343";
     Models.petition_number := number;
     Models.location := Some "123 Main St";
     Models.address := None;
     Models.current_zoning := Some "R-3";
     Models.proposed_zoning := Some "UR-2";
     Models.petitioner := Some "Acme Homes";
     Models.status := Some "Approved";
     Models.action := None;
     Models.vote_result := None;
     Models.legislation_url := None;
     Models.pins := Some pins |}.

(** A run for Charlotte: the scrape finds the January meetings (or
    none), every write succeeds except those listed in [read_only]. *)
Definition charlotte : Storage.Storage :=
  {| Storage.data_dir := "data/charlotte_nc" |}.

Definition run_with (found : list Models.Meeting)
    (read_only : list string) : Orchestrator.run_env :=
  {| Orchestrator.scrape_meetings := Ok found;
     Orchestrator.process_petitions := fun ms => Ok ms;
     Orchestrator.gis := parcels;
     Orchestrator.io :=
       {| Storage.write_ok := fun p => negb (bool_decide (p ∈ read_only));
          Storage.write_error := fun _ => OSError;
          Storage.left_behind := fun _ => None;
          Storage.now := "2026-01-31T06:00:00" |} |}.

(** The same run on a disk that fills up while the geometry is
    written: the file is left with the start of the document. *)
Definition run_on_full_disk (found : list Models.Meeting)
  : Orchestrator.run_env :=
  {| Orchestrator.scrape_meetings := Ok found;
     Orchestrator.process_petitions := fun ms => Ok ms;
     Orchestrator.gis := parcels;
     Orchestrator.io :=
       {| Storage.write_ok :=
            fun p => negb (String.eqb p (Storage.parcels_file charlotte));
          Storage.write_error := fun _ => OSError;
          Storage.left_behind := fun _ => Some "{";
          Storage.now := "2026-01-31T06:00:00" |} |}.

End Sample.

(** * Part I, continued: the rest of the pipeline *)

(** ** Vocabulary of the further statements *)

Module Props.

(** The environment [E] with the metadata reader replaced. *)
Definition with_metadata (E : PdfParser.env)
    (md : string → result (option (gmap string string))) : PdfParser.env :=
  {| PdfParser.path_exists := PdfParser.path_exists E;
     PdfParser.PDFPLUMBER_AVAILABLE := PdfParser.PDFPLUMBER_AVAILABLE E;
     PdfParser.PYPDF2_AVAILABLE := PdfParser.PYPDF2_AVAILABLE E;
     PdfParser.pdfplumber_pages := PdfParser.pdfplumber_pages E;
     PdfParser.pypdf2_pages := PdfParser.pypdf2_pages E;
     PdfParser.st_size := PdfParser.st_size E;
     PdfParser.path_name := PdfParser.path_name E;
     PdfParser.pypdf2_metadata := md |}.

(** What [parse_pdf] returns apart from the metadata. *)
Definition content (r : result PdfParser.pdf_result)
  : option (string * nat * (N * N)) :=
  match r with
  | Ok d => Some (PdfParser.text d, PdfParser.page_count d,
                  PdfParser.size_kb d)
  | Raise _ => None
  end.

(** What the four load operations return on given files. *)
Definition loads (self : Storage.Storage)
    (fs : gmap string Storage.document)
  : result (list Models.Meeting) * result (list Storage.petition_dict)
    * result Models.ScraperStats * result Storage.document :=
  ((Storage.load_meetings self fs).2, (Storage.load_petitions self fs).2,
   (Storage.get_stats self fs).2, (Storage.load_parcels_geojson self fs).2).

(** The lookups of [fetch_parcels_for_all_meetings], in order. *)
Definition identifiers (meetings : list Models.Meeting)
  : list (Models.Petition * string) :=
  flat_map (fun m => Spec.jobs (Models.petitions m)) meetings.

(** The feature [f] carries, as properties, a JSON object holding the
    nine metadata entries of [petition] heard at [meeting]. *)
Definition tagged (meeting : Models.Meeting) (petition : Models.Petition)
    (f : GIS.feature) : Prop :=
  ∃ d, GIS.properties f = GIS.PropsObject d ∧
       ∀ k v, (k, v) ∈ GIS.petition_metadata petition
                         (Models.meeting_date meeting)
                         (Models.meeting_type meeting) →
              d !! k = Some v.

(** Some reply of the parcel service leads with a parcel whose
    [properties] member is not a JSON object. *)
Definition bad_reply (E : GIS.gis_env) : Prop :=
  ∃ n pin parcel rest v,
    GIS.gis_query E n pin = Ok (parcel :: rest) ∧
    GIS.properties parcel = GIS.PropsValue v.

(** An identifier of eight characters, all of them digits [0-9]. *)
Fixpoint all_digits (s : string) : bool :=
  match s with
  | EmptyString => true
  | String c s' => Re.is_digit c && all_digits s'
  end.

Definition parcel_number (s : string) : bool :=
  (String.length s =? 8)%nat && all_digits s.

End Props.

(** ** utils/gis_client.py: several parcels *)

Module GisClient.
Import GIS.



End GisClient.

(** ** main.py: the counts of [_print_summary] *)

Module Summary.
Import Models Storage.

(** [sum(1 for p in petitions if p.get('pins'))] *)
Definition petitions_with_pins_of (petitions : list petition_dict) : nat :=
  length (List.filter (fun p => GIS.has_pins (petition p)) petitions).

(** [sum(len(p.get('pins') or []) for p in petitions)] *)
Definition total_pins_of (petitions : list petition_dict) : nat :=
  sum_list
    (List.map (fun p => length (default [] (pins (petition p)))) petitions).

(** The statistics record and the two counts the summary prints. *)
Definition summary (self : Storage) : IO (ScraperStats * nat * nat) :=
  io_bind (get_stats self) (fun stats =>
  io_bind (load_petitions self) (fun petitions =>
  io_ret (stats, petitions_with_pins_of petitions,
          total_pins_of petitions))).

End Summary.

(** ** scraper.py: the scraper's own identifier extraction *)

Module ScraperPins.
Import PinExtractor.

Section Extraction.
Context {pattern : Type} `{!RegexLib pattern}.

(** [str(Path(a) / b)] *)
Variable joinpath : string → string → string.

(** The loop [for pattern in patterns] of [extract_pins_from_pdfs]:
    [pins] is updated pattern by pattern, so what was added before an
    exception stays in the set. *)
Fixpoint update_pins (ps : list pattern) (text : string)
    (pins : gset string) : gset string * result unit :=
  match ps with
  | [] => (pins, Ok tt)
  | pat :: ps' =>
      match re_findall pat text with
      | Ok [] => update_pins ps' text pins
      | Ok matches =>
          match mapM normalize matches with
          | Ok normalized =>
              update_pins ps' text (pins ∪ list_to_set normalized)
          | Raise e => (pins, Raise e)
          end
      | Raise e => (pins, Raise e)
      end
  end.

(** The body of [for pdf_file in pdf_files], with its
    [except Exception: continue].  The list literal [patterns] of the
    method holds the same five expressions as
    [PINExtractor.DEFAULT_PATTERNS]. *)
Definition scan_pdf (E : fs_env) (pins : gset string) (pdf_file : string)
  : gset string :=
  match PdfParser.outcome (PdfParser.parse_pdf E pdf_file) with
  | Ok result =>
      let text := PdfParser.text result in
      if negb (truthy text) then pins
      else (update_pins DEFAULT_PATTERNS text pins).1
  | Raise _ => pins
  end.

Definition extract_pins_from_pdfs (E : fs_env)
    (petition_number download_dir : string) : list string :=
  let petition_dir := joinpath download_dir petition_number in
  if negb (dir_exists E petition_dir) then []
  else
    match glob_pdf E petition_dir with
    | Ok [] => []
    | Ok pdf_files => sorted (fold_left (scan_pdf E) pdf_files ∅)
    | Raise _ => []
    end.

End Extraction.

End ScraperPins.

(** ** What the expressions can match

    An over-approximation of the words an expression matches
    (repetition is left unconstrained), the condition that every
    group numbered [i0] only captures words of a given kind, and the
    test that group [i0] takes part in every match. *)

Module ReShape.
Import Re.

Fixpoint shape (r : regex) (w : string) : Prop :=
  match r with
  | Eps => w = ""
  | Chr c => ∃ d, w = String d "" ∧ lower_char d = lower_char c
  | Cls f => ∃ d, w = String d "" ∧ f d = true
  | Seq r1 r2 => ∃ w1 w2, w = w1 ++ w2 ∧ shape r1 w1 ∧ shape r2 w2
  | Alt r1 r2 => shape r1 w ∨ shape r2 w
  | Star _ => True
  | Group _ r' => shape r' w
  end.

Fixpoint group_words (Q : string → Prop) (i0 : nat) (r : regex) : Prop :=
  match r with
  | Eps | Chr _ | Cls _ => True
  | Seq r1 r2 | Alt r1 r2 => group_words Q i0 r1 ∧ group_words Q i0 r2
  | Star r' => group_words Q i0 r'
  | Group i r' =>
      (i = i0 → ∀ w, shape r' w → Q w) ∧ group_words Q i0 r'
  end.

Fixpoint must (i0 : nat) (r : regex) : bool :=
  match r with
  | Eps | Chr _ | Cls _ | Star _ => false
  | Seq r1 r2 => must i0 r1 || must i0 r2
  | Alt r1 r2 => must i0 r1 && must i0 r2
  | Group i r' => (i =? i0)%nat || must i0 r'
  end.

(** What the group of a default pattern may capture: a word whose
    hyphen-free form is a parcel number. *)
Definition captured_form (w : string) : Prop :=
  Props.parcel_number (replace "-" "" w) = true.

(** The loop of the matcher on a repetition, with the matcher of the
    repeated expression as [m]. *)
Definition star_loop {R}
    (m : string → captures → (string → captures → option R) → option R)
    (k : string → captures → option R)
  : nat → string → captures → option R :=
  fix loop (n : nat) (s : string) (caps : captures) : option R :=
    match n with
    | 0 => k s caps
    | S n' =>
        match m s caps
                (fun s' caps' =>
                   if (String.length s' <? String.length s)%nat
                   then loop n' s' caps'
                   else None) with
        | Some x => Some x
        | None => k s caps
        end
    end.

End ReShape.

(** ** scraper.py: meeting details and the full scrape *)

Module Crawl.
Import Models Scraper.

(** The Legistar site as the scraper reads it.  [get_calendar] is the
    outcome of requesting the calendar page and selecting its meeting
    rows, each row being its list of cells: the rows, or the
    exception raised by the request or by [raise_for_status].
    [get_meeting_details url] is the same for a meeting page, [None]
    standing for a page without agenda table.  [get_legislation_text
    url] is the text of a legislation page. *)
Record web : Type := {
  get_calendar : result (list (list cell));
  get_meeting_details : string → result (option (list (list cell)));
  get_legislation_text : string → result string;
}.

(** [re.search(pattern, text, flags)] followed by [group(1)]:
    [re_search pattern text ignorecase] is [None] when there is no
    match. *)
Class SearchLib : Type := {
  re_search : string → string → bool → option string;
}.

(** [s.strip()] on characters below 256. *)
Fixpoint lstrip_ws (s : string) : string :=
  match s with
  | EmptyString => EmptyString
  | String c s' => if Re.is_space c then lstrip_ws s' else s
  end.

Fixpoint rstrip_ws (s : string) : string :=
  match s with
  | EmptyString => EmptyString
  | String c s' =>
      match rstrip_ws s' with
      | EmptyString => if Re.is_space c then EmptyString
                       else String c EmptyString
      | r => String c r
      end
  end.

Definition strip (s : string) : string := lstrip_ws (rstrip_ws s).

(** [any(keyword in s.lower() for keyword in keywords)] *)
Definition any_keyword (keywords : list string) (s : string) : bool :=
  existsb (fun keyword => contains keyword (lower s)) keywords.

Section Crawler.
Context {datetime : Type} `{!DatetimeLib datetime} `{!SearchLib}.
Variable E : web.
Variable base_url : string.

Definition fetch_calendar (start_date end_date : option string)
  : result (list Meeting) :=
  meeting_rows ← get_calendar E;
  meetings ← parse_rows base_url meeting_rows;
  Ok (if truthy_opt start_date || truthy_opt end_date
      then _filter_by_date meetings start_date end_date
      else meetings).

(** A match overwrites the field, no match leaves it. *)
Definition updated (found current : option string) : option string :=
  match found with
  | Some group => Some (strip group)
  | None => current
  end.

Definition _fetch_petition_details (petition : Petition) : Petition :=
  let fetched :=
    match legislation_url petition with
    | Some url => get_legislation_text E url
    | None => Raise (Exception "request without URL")
    end in
  match fetched with
  | Ok page_text =>
      {| file_number := file_number petition;
         petition_number := petition_number petition;
         location :=
           updated
             (re_search "Location:\s*([^\n]+?)(?:\s*\(|$)" page_text true)
             (location petition);
         address := address petition;
         current_zoning :=
           updated (re_search "Current\s+Zoning:\s*([^\n]+)" page_text true)
             (current_zoning petition);
         proposed_zoning :=
           updated (re_search "Proposed\s+Zoning:\s*([^\n]+)" page_text true)
             (proposed_zoning petition);
         petitioner := petitioner petition;
         status :=
           updated (re_search "Status:\s*([^\n]+)" page_text false)
             (status petition);
         action := action petition;
         vote_result := vote_result petition;
         legislation_url := legislation_url petition;
         pins := pins petition |}
  | Raise _ => petition
  end.

Definition _parse_agenda_item (cells : list cell)
  : result (option Petition) :=
  if (length cells <? 6)%nat then Ok None
  else
    try_except
      (c0 ← getitem cells 0;
       match cell_a c0 with
       | None => Ok None
       | Some file_link =>
           let file_number := a_text file_link in
           let legislation_url :=
             _make_absolute_url base_url (href file_link) in
           title ←
             (if (5 <? length cells)%nat
              then c5 ← getitem cells 5; Ok (Some (cell_text c5))
              else Ok None);
           if negb (truthy_opt title)
              || negb (any_keyword ["rezoning"; "petition"]
                         (default "" title))
           then Ok None
           else
             action ←
               (if (6 <? length cells)%nat
                then c6 ← getitem cells 6; Ok (Some (cell_text c6))
                else Ok None);
             let petition_number :=
               re_search "(\d{4}-\d+)" (default "" title) false in
             let petitioner :=
               strip <$> re_search "by\s+(.+?)$" (default "" title) true in
             let petition :=
               {| file_number := file_number;
                  petition_number := petition_number;
                  location := None;
                  address := None;
                  current_zoning := None;
                  proposed_zoning := None;
                  petitioner := petitioner;
                  status := None;
                  action := action;
                  vote_result := None;
                  legislation_url := legislation_url;
                  pins := None |} in
             Ok (Some (_fetch_petition_details petition))
       end)
      (fun _ => Ok None).

(** The row loop of [fetch_meeting_details]. *)
Fixpoint parse_items (rows : list (list cell)) : result (list Petition) :=
  match rows with
  | [] => Ok []
  | row :: rest =>
      petition ← _parse_agenda_item row;
      petitions ← parse_items rest;
      Ok (match petition with
          | Some p => p :: petitions
          | None => petitions
          end)
  end.

Definition fetch_meeting_details (meeting : Meeting) : result Meeting :=
  agenda_table ← get_meeting_details E (meeting_details_url meeting);
  match agenda_table with
  | None => Ok meeting
  | Some rows =>
      petitions ← parse_items rows;
      Ok {| meeting_type := meeting_type meeting;
            meeting_date := meeting_date meeting;
            meeting_time := meeting_time meeting;
            meeting_location := meeting_location meeting;
            meeting_details_url := meeting_details_url meeting;
            agenda_url := agenda_url meeting;
            petitions := petitions |}
  end.

(** The loop of [scrape_all] over the meetings, with its
    [except Exception: continue]. *)
Fixpoint fetch_details (meetings : list Meeting) : list Meeting :=
  match meetings with
  | [] => []
  | meeting :: rest =>
      match fetch_meeting_details meeting with
      | Ok detailed_meeting => detailed_meeting :: fetch_details rest
      | Raise _ => fetch_details rest
      end
  end.

Definition zoning_keywords : list string :=
  ["zoning"; "rezoning"; "planning"].

Definition scrape_all (filter_zoning : bool)
    (start_date end_date : option string) : result (list Meeting) :=
  meetings ← fetch_calendar start_date end_date;
  let meetings :=
    if filter_zoning
    then List.filter
           (fun m => any_keyword zoning_keywords (meeting_type m))
           meetings
    else meetings in
  Ok (fetch_details meetings).

End Crawler.

End Crawl.

(** ** scraper.py: attachments *)

Module Attachments.
Import Scraper.

(** [\w] on characters below 256: letters, digits of any kind and the
    underscore. *)
Definition is_word (c : ascii) : bool :=
  let n := nat_of_ascii c in
  ((48 <=? n) && (n <=? 57) || (65 <=? n) && (n <=? 90) || (n =? 95)
   || (97 <=? n) && (n <=? 122) || (n =? 170) || (n =? 178) || (n =? 179)
   || (n =? 181) || (n =? 185) || (n =? 186) || (188 <=? n) && (n <=? 190)
   || (192 <=? n) && (n <=? 214) || (216 <=? n) && (n <=? 246)
   || (248 <=? n) && (n <=? 255))%nat.

(** [re.sub(r'[^\w\-.]', '_', name)] *)
Definition safe_char (c : ascii) : ascii :=
  if is_word c || Ascii.eqb c "-" || Ascii.eqb c "." then c else "_"%char.

Fixpoint sub_unsafe (name : string) : string :=
  match name with
  | EmptyString => EmptyString
  | String c name' => String (safe_char c) (sub_unsafe name')
  end.

(** [s.endswith(suffix)] *)
Fixpoint endswith (suffix s : string) : bool :=
  String.eqb suffix s
  || match s with
     | EmptyString => false
     | String _ s' => endswith suffix s'
     end.

(** The file name under which an attachment is saved. *)
Definition safe_filename (name : string) : string :=
  let safe_name := sub_unsafe name in
  if negb (endswith ".pdf" (lower safe_name)) then safe_name ++ ".pdf"
  else safe_name.

Record attachment : Type := { name : string; url : string }.

(** [_extract_attachments]: [table] is the list of the [a] elements
    with an [href] found in the attachments table, each with its
    stripped text and its [href], or [None] when the page has no such
    table. *)
Definition _extract_attachments (base_url : string)
    (table : option (list (string * string))) : list attachment :=
  match table with
  | None => []
  | Some attachment_links =>
      omap
        (fun link : string * string =>
           let '(name, href) := link in
           if contains "View.ashx" href
           then match _make_absolute_url base_url (Some href) with
                | Some full_url => Some {| name := name; url := full_url |}
                | None => None
                end
           else None)
        attachment_links
  end.

(** The site and the disk as the download sees them.
    [get_attachment_links url] is the outcome of requesting the
    legislation page: the exception of the request or of
    [raise_for_status], or the links of its attachments table.
    [mkdir d] is [Path(d).mkdir(parents=True, exist_ok=True)], and
    [save i url path] is the download number [i] (counted from 1):
    the request for [url], [raise_for_status] and the write of the
    content to [path]. *)
Record downloads : Type := {
  get_attachment_links : string → result (option (list (string * string)));
  mkdir : string → result unit;
  save : nat → string → string → result unit;
}.

Section Download.
Variable E : downloads.
Variable base_url : string.

(** [str(Path(a) / b)] *)
Variable joinpath : string → string → string.

(** The loop [for i, attachment in enumerate(attachments, 1)] with
    its [except Exception: continue]. *)
Fixpoint download_each (petition_dir : string) (i : nat)
    (attachments : list attachment) : list string :=
  match attachments with
  | [] => []
  | attachment :: rest =>
      let file_path := joinpath petition_dir (safe_filename (name attachment)) in
      match save E i (url attachment) file_path with
      | Ok _ => file_path :: download_each petition_dir (S i) rest
      | Raise _ => download_each petition_dir (S i) rest
      end
  end.

Definition download_petition_attachments
    (petition_number legislation_url download_dir : string)
  : list string :=
  match get_attachment_links E legislation_url with
  | Ok table =>
      match _extract_attachments base_url table with
      | [] => []
      | attachments =>
          let petition_dir := joinpath download_dir petition_number in
          match mkdir E petition_dir with
          | Ok _ => download_each petition_dir 1 attachments
          | Raise _ => []
          end
      end
  | Raise _ => []
  end.

End Download.

End Attachments.

(** ** main.py: petition processing *)

Module Pipeline.
Import Models PinExtractor Attachments.

Section Processing.
Context {pattern : Type} `{!RegexLib pattern}.

(** The site as the download sees it, and the disk as the extractor
    finds it when the petition counted as number [i] is scanned. *)
Variable E : downloads.
Variable disk_at : nat → fs_env.
Variable base_url : string.

(** [str(Path(a) / b)] *)
Variable joinpath : string → string → string.

(** The body of [for petition in meeting.petitions], [total_petitions]
    being the value of the counter after its increment.  The petition
    object is updated in place; [self.pin_extractor] is
    [PINExtractor()]. *)
Definition process_petition (total_petitions : nat) (petition : Petition)
  : Petition :=
  if negb (truthy_opt (petition_number petition))
     || negb (truthy_opt (legislation_url petition))
  then petition
  else
    let number := default "" (petition_number petition) in
    let downloaded_files :=
      download_petition_attachments E base_url joinpath number
        (default "" (legislation_url petition)) "data/pdfs/attachments" in
    match downloaded_files with
    | [] => petition
    | _ :: _ =>
        let pdf_dir := joinpath "data/pdfs/attachments" number in
        match extract_from_directory (disk_at total_petitions)
                (__init__ None) pdf_dir with
        | Ok (pin :: pins') =>
            {| file_number := file_number petition;
               petition_number := petition_number petition;
               location := location petition;
               address := address petition;
               current_zoning := current_zoning petition;
               proposed_zoning := proposed_zoning petition;
               petitioner := petitioner petition;
               status := status petition;
               action := action petition;
               vote_result := vote_result petition;
               legislation_url := legislation_url petition;
               pins := Some (pin :: pins') |}
        | Ok [] => petition
        | Raise _ => petition
        end
    end.

Fixpoint process_each (total_petitions : nat) (petitions : list Petition)
  : list Petition :=
  match petitions with
  | [] => []
  | petition :: rest =>
      process_petition (S total_petitions) petition
        :: process_each (S total_petitions) rest
  end.

Fixpoint process_meetings (total_petitions : nat) (meetings : list Meeting)
  : list Meeting :=
  match meetings with
  | [] => []
  | meeting :: rest =>
      {| meeting_type := meeting_type meeting;
         meeting_date := meeting_date meeting;
         meeting_time := meeting_time meeting;
         meeting_location := meeting_location meeting;
         meeting_details_url := meeting_details_url meeting;
         agenda_url := agenda_url meeting;
         petitions := process_each total_petitions (petitions meeting) |}
        :: process_meetings
             (total_petitions + length (petitions meeting)) rest
  end.

(** [_process_petitions]: the meetings as the loop leaves them.
    Entering and leaving the scraper context is taken not to raise;
    everything else that can raise is inside the inner [try]. *)
Definition _process_petitions (meetings : list Meeting)
  : result (list Meeting) :=
  Ok (process_meetings 0 meetings).

End Processing.

End Pipeline.

(** ** config.py *)

Module Config.

Record CountyConfig : Type := {
  name : string;
  state : string;
  base_url : string;
  calendar_url : string;
  data_dir : string;
  gis_api_url : option string;
  enabled : bool;
}.

Global Instance CountyConfig_eq_dec : EqDecision CountyConfig.
Proof. solve_decision. Defined.

(** [CountyConfig.__init__] *)
Definition new_CountyConfig (name state base_url calendar_path : string)
    (data_dir gis_api_url : option string) (enabled : bool)
  : CountyConfig :=
  {| name := name;
     state := state;
     base_url := base_url;
     calendar_url := base_url ++ calendar_path;
     data_dir :=
       if truthy_opt data_dir then default "" data_dir
       else "data/" ++ replace " " "_" (lower name);
     gis_api_url := gis_api_url;
     enabled := enabled |}.

Definition charlotte_nc : CountyConfig :=
  new_CountyConfig "Charlotte Mecklenburg" "NC"
    "https://charlottenc.legistar.com" "/Calendar.aspx"
    (Some "data/charlotte_nc")
    (Some ("https://gis.charlottenc.gov/arcgis/rest/services/"
           ++ "CountyData/Parcels/MapServer/0"))
    true.

Definition durham_nc : CountyConfig :=
  new_CountyConfig "Durham" "NC"
    "https://durhamnc.legistar.com" "/Calendar.aspx"
    (Some "data/durham_nc")
    (Some ("https://durhamnc.gov/arcgis/rest/services/"
           ++ "PublicUtility/Parcels/MapServer/0"))
    true.

Definition COUNTIES : list (string * CountyConfig) :=
  [("charlotte_nc", charlotte_nc); ("durham_nc", durham_nc)].

Definition get_enabled_counties : list CountyConfig :=
  List.filter enabled (List.map snd COUNTIES).

Definition get_county (county_id : string) : result CountyConfig :=
  match List.find (fun kv => String.eqb kv.1 county_id) COUNTIES with
  | Some kv => Ok kv.2
  | None => Raise ValueError
  end.

End Config.

(** ** main.py: the command line *)

Module Main.
Import Config.

(** The parsed arguments; [--log-level] only configures logging. *)
Record args : Type := {
  county : option string;
  list : bool;
  stats : bool;
  date : option string;
  start_date : option string;
  end_date : option string;
}.

(** How [main] ends: [sys.exit(status)], or a plain return. *)
Inductive ending : Type :=
| Exit (status : Z)
| Return.

(** One run of an orchestrator: the county and the date bounds. *)
Definition call : Type := (string * option string * option string)%type.

(** [storage_mkdir d] is the creation of the data directory in
    [Storage.__init__]; [orchestrator_run c] is what [run()] returns
    for the call [c], which never raises. *)
Record main_env : Type := {
  storage_mkdir : string → result unit;
  orchestrator_run : call → bool;
}.

(** [re.match(r'^\d{4}-\d{2}-\d{2}$', s)] on a string of characters
    below 256, where [\d] matches the digits [0-9] only: [$] also
    matches before a newline that ends the string. *)
Definition date_pattern_matches (s : string) : bool :=
  match s with
  | String y3 (String y2 (String y1 (String y0 (String s1
      (String m1 (String m0 (String s2 (String d1 (String d0
        rest))))))))) =>
      forallb Re.is_digit [y3; y2; y1; y0; m1; m0; d1; d0]
      && Ascii.eqb s1 "-" && Ascii.eqb s2 "-"
      && (String.eqb rest "" || String.eqb rest PdfParser.nl)
  | _ => false
  end.

Section CommandLine.
Variable E : main_env.

(** [TownhallOrchestrator(county_id, ...)] *)
Definition construct (county_id : string) : result unit :=
  county_config ← get_county county_id;
  storage_mkdir E (data_dir county_config).

(** [run_county]; the calls of [run()] it makes are recorded. *)
Definition run_county (county_id : string)
    (start_date end_date : option string) : Datatypes.list call * bool :=
  match construct county_id with
  | Ok _ =>
      ([(county_id, start_date, end_date)],
       orchestrator_run E (county_id, start_date, end_date))
  | Raise _ => ([], false)
  end.

(** [results[county_id] = success] on a dictionary kept in insertion
    order. *)
Fixpoint dict_set (results : Datatypes.list (string * bool))
    (county_id : string) (success : bool)
  : Datatypes.list (string * bool) :=
  match results with
  | [] => [(county_id, success)]
  | (k, v) :: rest =>
      if String.eqb k county_id then (k, success) :: rest
      else (k, v) :: dict_set rest county_id success
  end.

(** The loop of [run_all_counties], with the runs made so far. *)
Fixpoint run_each (enabled_counties : Datatypes.list CountyConfig)
    (results : Datatypes.list (string * bool))
  : Datatypes.list call * result (Datatypes.list (string * bool)) :=
  match enabled_counties with
  | [] => ([], Ok results)
  | county :: rest =>
      match List.filter (fun kv => bool_decide (kv.2 = county)) COUNTIES with
      | [] => ([], Raise IndexError)
      | kv :: _ =>
          let county_id := kv.1 in
          let '(calls, success) := run_county county_id None None in
          let '(later, r) :=
            run_each rest (dict_set results county_id success) in
          ((calls ++ later)%list, r)
      end
  end.

Definition run_all_counties
  : Datatypes.list call * result (Datatypes.list (string * bool)) :=
  match get_enabled_counties with
  | [] => ([], Ok [])
  | enabled_counties => run_each enabled_counties []
  end.

(** [main] after argument parsing: the runs it makes and how it
    ends.  [Storage] defines no [load_stats], so the call of it in
    the [--stats] branch raises [AttributeError]. *)
Definition main (a : args) : Datatypes.list call * ending :=
  let dates :=
    if truthy_opt (date a)
    then if truthy_opt (start_date a) || truthy_opt (end_date a)
         then None
         else Some (date a, date a)
    else Some (start_date a, end_date a) in
  match dates with
  | None => ([], Exit 1)
  | Some (start_date, end_date) =>
      if truthy_opt start_date
         && negb (date_pattern_matches (default "" start_date))
      then ([], Exit 1)
      else if truthy_opt end_date
              && negb (date_pattern_matches (default "" end_date))
      then ([], Exit 1)
      else if list a then ([], Return)
      else if stats a then
        if negb (truthy_opt (county a)) then ([], Exit 1)
        else
          match (_ ← construct (default "" (county a));
                 _ ← @Raise unit AttributeError;
                 Ok Return) with
          | Ok o => ([], o)
          | Raise FileNotFoundError => ([], Exit 1)
          | Raise _ => ([], Exit 1)
          end
      else if truthy_opt (county a) then
        let '(calls, success) :=
          run_county (default "" (county a)) start_date end_date in
        (calls, Exit (if success then 0 else 1))
      else
        match run_all_counties with
        | (calls, Ok results) =>
            (calls, Exit (if forallb snd results then 0 else 1))
        | (calls, Raise _) => (calls, Exit 1)
        end
  end.

End CommandLine.

End Main.

(** ** Vocabulary of the statements on the command line *)

Module MainProps.

(** The date bounds [main] settles on, when it accepts the date
    arguments. *)
Definition bounds (a : Main.args) : option (option string * option string) :=
  let dates :=
    if truthy_opt (Main.date a)
    then if truthy_opt (Main.start_date a) || truthy_opt (Main.end_date a)
         then None
         else Some (Main.date a, Main.date a)
    else Some (Main.start_date a, Main.end_date a) in
  match dates with
  | Some (s, e) =>
      if (negb (truthy_opt s) || Main.date_pattern_matches (default "" s))
         && (negb (truthy_opt e) || Main.date_pattern_matches (default "" e))
      then Some (s, e)
      else None
  | None => None
  end.

(** The runs a scraping invocation asks for: the county given with
    the bounds, or every configured county without bounds. *)
Definition targets (a : Main.args) (s e : option string)
  : list Main.call :=
  if truthy_opt (Main.county a)
  then [(default "" (Main.county a), s, e)]
  else [("charlotte_nc", None, None); ("durham_nc", None, None)].

(** The orchestrator of the run can be constructed. *)
Definition constructible (E : Main.main_env) (c : Main.call) : bool :=
  match Main.construct E c.1.1 with
  | Ok _ => true
  | Raise _ => false
  end.

(** The run can be set up and reports success. *)
Definition succeeds (E : Main.main_env) (c : Main.call) : bool :=
  match Main.construct E c.1.1 with
  | Ok _ => Main.orchestrator_run E c
  | Raise _ => false
  end.

End MainProps.

(** ** Vocabulary of the statements on the scrape *)

Module CrawlProps.
Import Models Scraper Crawl.

(** The two meetings agree on everything but their petitions. *)
Definition same_meeting (m m' : Meeting) : Prop :=
  meeting_type m = meeting_type m' ∧
  meeting_date m = meeting_date m' ∧
  meeting_time m = meeting_time m' ∧
  meeting_location m = meeting_location m' ∧
  meeting_details_url m = meeting_details_url m' ∧
  agenda_url m = agenda_url m'.

(** The request for the details page of the meeting goes through. *)
Definition details_ok (E : web) (m : Meeting) : bool :=
  match get_meeting_details E (meeting_details_url m) with
  | Ok _ => true
  | Raise _ => false
  end.

(** The meetings of the calendar that a scrape keeps. *)
Definition kept (E : web) (filter_zoning : bool)
    (start_date end_date : option string) (m : Meeting) : bool :=
  Spec.in_string_range start_date end_date m
  && (negb filter_zoning
      || contains "zoning" (lower (meeting_type m))
      || contains "planning" (lower (meeting_type m)))
  && details_ok E m.

(** No petition of the meeting has identifiers. *)
Definition without_pins (m : Meeting) : Prop :=
  Forall (fun p => pins p = None) (petitions m).

(** The two petitions agree on everything but their identifiers. *)
Definition same_petition (p p' : Petition) : Prop :=
  file_number p = file_number p' ∧
  petition_number p = petition_number p' ∧
  location p = location p' ∧
  address p = address p' ∧
  current_zoning p = current_zoning p' ∧
  proposed_zoning p = proposed_zoning p' ∧
  petitioner p = petitioner p' ∧
  status p = status p' ∧
  action p = action p' ∧
  vote_result p = vote_result p' ∧
  legislation_url p = legislation_url p'.

End CrawlProps.

(** ** Further sample data *)

Module Fixtures.

(** A hearing with one petition that names two parcels. *)
Definition hearing : Models.Meeting :=
  {| Models.meeting_type := "Zoning Committee";
     Models.meeting_date := "2026-01-20";
     Models.meeting_time := Some "5:00 PM";
     Models.meeting_location := Some "Council Chamber";
     Models.meeting_details_url :=
       "https://charlottenc.legistar.com/MeetingDetail.aspx?ID=1";
     Models.agenda_url := None;
     Models.petitions :=
       [Sample.petition_of (Some "2025-142") ["22310197"; "00000000"]] |}.

(** A parcel service whose parcels carry [null] as properties. *)
Definition null_properties : GIS.gis_env :=
  {| GIS.gis_query :=
       fun _ _ => Ok [{| GIS.properties := GIS.PropsValue GIS.JNull;
                         GIS.geometry := GIS.JNull |}] |}.

(** An agenda row of a meeting page and the legislation page its
    file link leads to. *)
Definition agenda_title : string :=
  "Rezoning Petition: 2025-142 by Acme Homes".

Definition agenda_row : list Scraper.cell :=
  [ Sample.td_link "15-25343" "LegislationDetail.aspx?ID=7";
    Sample.td "1"; Sample.td "31."; Sample.td "Zoning"; Sample.td "";
    Sample.td agenda_title; Sample.td "Approve" ].

Definition legislation_text : string :=
  "File #: 15-25343" ++ PdfParser.nl
  ++ "Status: Approved" ++ PdfParser.nl
  ++ "Location: 123 Main St (Council District 1)" ++ PdfParser.nl
  ++ "Current Zoning: R-3" ++ PdfParser.nl
  ++ "Proposed Zoning: UR-2".

(** What [re.search] finds in the sample title and on the sample
    page, for the patterns of the scraper. *)
Definition search_table : list (string * string * string) :=
  [ ("(\d{4}-\d+)", agenda_title, "2025-142");
    ("by\s+(.+?)$", agenda_title, "Acme Homes");
    ("Status:\s*([^\n]+)", legislation_text, "Approved");
    ("Location:\s*([^\n]+?)(?:\s*\(|$)", legislation_text, "123 Main St");
    ("Current\s+Zoning:\s*([^\n]+)", legislation_text, "R-3");
    ("Proposed\s+Zoning:\s*([^\n]+)", legislation_text, "UR-2") ].

Definition sample_search : Crawl.SearchLib :=
  {| Crawl.re_search :=
       fun pattern text _ =>
         snd <$> List.find
                   (fun entry => String.eqb entry.1.1 pattern
                                 && String.eqb entry.1.2 text)
                   search_table |}.

(** A site with one meeting on its calendar. *)
Definition site : Crawl.web :=
  {| Crawl.get_calendar := Ok [Sample.full_row "1/20/2026"];
     Crawl.get_meeting_details :=
       fun url =>
         if String.eqb url
              "https://charlottenc.legistar.com/MeetingDetail.aspx?ID=1"
         then Ok (Some [agenda_row])
         else Raise HTTPError;
     Crawl.get_legislation_text := fun _ => Ok legislation_text |}.

(** The petition of the sample agenda row. *)
Definition agenda_petition : Models.Petition :=
  {| Models.file_number := "15-25343";
     Models.petition_number := Some "2025-142";
     Models.location := Some "123 Main St";
     Models.address := None;
     Models.current_zoning := Some "R-3";
     Models.proposed_zoning := Some "UR-2";
     Models.petitioner := Some "Acme Homes";
     Models.status := Some "Approved";
     Models.action := Some "Approve";
     Models.vote_result := None;
     Models.legislation_url :=
       Some "https://charlottenc.legistar.com/LegislationDetail.aspx?ID=7";
     Models.pins := None |}.

(** The attachments table of the sample legislation page: two
    documents and a link that is not a document; the download of the
    second document fails. *)
Definition attachment_links : list (string * string) :=
  [ ("Staff Analysis", "View.ashx?M=F&ID=1");
    ("Site Plan", "View.ashx?M=F&ID=2");
    ("Petition history", "History.aspx?ID=7") ].

Definition attachment_site : Attachments.downloads :=
  {| Attachments.get_attachment_links := fun _ => Ok (Some attachment_links);
     Attachments.mkdir := fun _ => Ok tt;
     Attachments.save :=
       fun i _ _ => if (i =? 2)%nat then Raise HTTPError else Ok tt |}.

(** The meeting the sample site yields, as scraped and as processed. *)
Definition scraped_hearing : Models.Meeting :=
  {| Models.meeting_type := "Zoning Committee";
     Models.meeting_date := "2026-01-20";
     Models.meeting_time := Some "5:00 PM";
     Models.meeting_location := Some "Council Chamber";
     Models.meeting_details_url :=
       "https://charlottenc.legistar.com/MeetingDetail.aspx?ID=1";
     Models.agenda_url := None;
     Models.petitions := [agenda_petition] |}.

Definition processed_petition : Models.Petition :=
  {| Models.file_number := "15-25343";
     Models.petition_number := Some "2025-142";
     Models.location := Some "123 Main St";
     Models.address := None;
     Models.current_zoning := Some "R-3";
     Models.proposed_zoning := Some "UR-2";
     Models.petitioner := Some "Acme Homes";
     Models.status := Some "Approved";
     Models.action := Some "Approve";
     Models.vote_result := None;
     Models.legislation_url :=
       Some "https://charlottenc.legistar.com/LegislationDetail.aspx?ID=7";
     Models.pins :=
       Some ["12305310"; "12517402"; "16911107"; "17903240"; "22310197"] |}.

Definition processed_hearing : Models.Meeting :=
  {| Models.meeting_type := "Zoning Committee";
     Models.meeting_date := "2026-01-20";
     Models.meeting_time := Some "5:00 PM";
     Models.meeting_location := Some "Council Chamber";
     Models.meeting_details_url :=
       "https://charlottenc.legistar.com/MeetingDetail.aspx?ID=1";
     Models.agenda_url := None;
     Models.petitions := [processed_petition] |}.

End Fixtures.

(** * Part II: properties *)

Import Spec.

(** One step of a computation in [result]. *)
Ltac py_step := cbn [mbind result_bind bind try_except negb].

(** ** The embedding on sample inputs *)

Example text_parts_numbers_pages :
  PdfParser.text_parts 1 [Some "first"; None; Some ""; Some "fourth"]
  = [ PdfParser.nl ++ "--- Page 1 ---" ++ PdfParser.nl; "first";
      PdfParser.nl ++ "--- Page 4 ---" ++ PdfParser.nl; "fourth" ].
Proof. vm_compute. reflexivity. Qed.

Example default_patterns_on_report :
  List.map (fun r => Re.findall r Sample.staff_report_page)
    Re.DEFAULT_PATTERNS
  = [ [PinExtractor.MStr "12517402"]; [PinExtractor.MStr "123-053-10"];
      [PinExtractor.MStr "17903240"]; [PinExtractor.MStr "16911107"];
      [PinExtractor.MStr "16911107"] ].
Proof. vm_compute. reflexivity. Qed.

Example two_groups_give_tuples :
  Re.findall
    (Re.cat [Re.Group 1 (Re.rep 3 Re.digit); Re.Chr "-";
             Re.Group 2 (Re.rep 3 Re.digit)])
    "lots 123-053 and 200-117"
  = [ PinExtractor.MTuple ["123"; "053"];
      PinExtractor.MTuple ["200"; "117"] ].
Proof. vm_compute. reflexivity. Qed.

Example parse_date_formats :
  List.map (Scraper._parse_date (datetime := Datetime.datetime))
    [ "1/20/2026"; "2026-01-20"; "January 20, 2026"; "february  29, 2024";
      "2/30/2026"; "Jan 20, 2026"; "2026-1-5x"; "" ]
  = [ Ok (Some "2026-01-20"); Ok (Some "2026-01-20");
      Ok (Some "2026-01-20"); Ok (Some "2024-02-29");
      Ok None; Ok None; Ok None; Ok None ].
Proof. vm_compute. reflexivity. Qed.

Example make_absolute_url_cases :
  List.map (Scraper._make_absolute_url Sample.base)
    [ None; Some ""; Some "#"; Some "https://example.org/a";
      Some "/MeetingDetail.aspx?ID=1"; Some "View.ashx?M=A" ]
  = [ None; None; None; Some "https://example.org/a";
      Some "https://charlottenc.legistar.com/MeetingDetail.aspx?ID=1";
      Some "https://charlottenc.legistar.com/View.ashx?M=A" ].
Proof. vm_compute. reflexivity. Qed.

Example zoning_keyword :
  List.map (fun t => contains "zoning" (lower t))
    [ "Zoning Committee"; "City Council REZONING Hearing"; "Budget" ]
  = [ true; true; false ].
Proof. vm_compute. reflexivity. Qed.

Example string_order_is_python_order :
  sorted (list_to_set ["b"; "a-"; "a"; "B"; "a0"; "a"])
  = ["B"; "a"; "a-"; "a0"; "b"].
Proof. vm_compute. reflexivity. Qed.

(** ** Strings, sets and sorting *)

Section PyFacts.

Lemma replace_hyphen_free (s : string) :
  contains_char "-" (replace "-" "" s) = false.
Proof.
  induction s as [|c s IH]; simpl; [done|].
  destruct (Ascii.eqb c "-") eqn:Hc; simpl; [done|].
  by rewrite Hc, IH.
Qed.

Lemma replace_canonical (s : string) :
  contains_char "-" s = false → replace "-" "" s = s.
Proof.
  induction s as [|c s IH]; simpl; [done|].
  intros [Hc Hs]%orb_false_iff. rewrite Hc. by rewrite IH.
Qed.

Lemma sorted_StronglySorted (S : gset string) :
  StronglySorted String.le (sorted S).
Proof. apply StronglySorted_merge_sort; apply _. Qed.

Lemma sorted_Permutation (S : gset string) : sorted S ≡ₚ elements S.
Proof. apply merge_sort_Permutation. Qed.

Lemma sorted_NoDup (S : gset string) : NoDup (sorted S).
Proof. rewrite sorted_Permutation. apply NoDup_elements. Qed.

Lemma elem_of_sorted (x : string) (S : gset string) :
  x ∈ sorted S ↔ x ∈ S.
Proof. rewrite sorted_Permutation. apply elem_of_elements. Qed.

(** Whatever order the set is listed in and whichever sorting
    algorithm is run, the sorted list is the same. *)
Lemma sorted_unique (S : gset string) (l : list string) :
  Sorted String.le l → l ≡ₚ elements S → l = sorted S.
Proof.
  intros Hl Hp. apply (Sorted_unique String.le); [done| |].
  - apply Sorted_merge_sort; apply _.
  - by rewrite sorted_Permutation.
Qed.

Lemma sorted_empty : sorted ∅ = [].
Proof.
  apply Permutation_nil_r. rewrite sorted_Permutation.
  by rewrite elements_empty.
Qed.

End PyFacts.

(** ** The identifier extractor *)

Section ExtractorFacts.
Import PinExtractor.
Context {pattern : Type} `{!RegexLib pattern}.

Lemma scan_patterns_cons pat ps text pins :
  scan_patterns (pat :: ps) text pins =
    (s ← pattern_pins pat text; scan_patterns ps text (pins ∪ s)).
Proof.
  simpl. unfold pattern_pins.
  destruct (re_findall pat text) as [[|m ms]|e]; simpl.
  - by rewrite (right_id_L ∅ (∪)).
  - by destruct (bind (normalize m) _).
  - done.
Qed.

Lemma scan_patterns_perm ps ps' text :
  ps ≡ₚ ps' →
  ∀ pins, to_option (scan_patterns ps text pins)
          = to_option (scan_patterns ps' text pins).
Proof.
  induction 1 as [|pat ps ps' _ IH|p q ps|ps1 ps2 ps3 _ IH1 _ IH2];
    intros pins.
  - done.
  - rewrite !scan_patterns_cons.
    destruct (pattern_pins pat text); simpl; [apply IH|done].
  - rewrite (scan_patterns_cons q), (scan_patterns_cons p).
    destruct (pattern_pins p text) as [sp|] eqn:Hp,
             (pattern_pins q text) as [sq|] eqn:Hq; py_step;
      rewrite ?scan_patterns_cons, ?Hp, ?Hq; py_step; try done.
    by rewrite <- !(assoc_L (∪)), (comm_L (∪) sq sp).
  - by rewrite IH1.
Qed.

Lemma mapM_normalize matches normalized :
  mapM normalize matches = Ok normalized →
  ∀ x, x ∈ normalized
       ↔ ∃ s, MStr s ∈ matches ∧ x = replace "-" "" s.
Proof.
  revert normalized. induction matches as [|m ms IH]; intros normalized; simpl.
  - intros [= <-] x. split; [by intros ?%elem_of_nil|].
    by intros (s & ?%elem_of_nil & _).
  - destruct m as [s|g]; simpl; [|done].
    destruct (mapM normalize ms) as [ys|]; simpl; [|done].
    intros [= <-] x. rewrite elem_of_cons, (IH ys eq_refl). split.
    + intros [->|(s' & Hs' & ->)]; [exists s|exists s']; split; try done.
      * apply elem_of_cons; by left.
      * apply elem_of_cons; by right.
    + intros (s' & [[= ->]|Hs']%elem_of_cons & ->); [by left|right; eauto].
Qed.

Lemma pattern_pins_elem pat text s :
  pattern_pins pat text = Ok s →
  ∀ x, x ∈ s ↔ normalized_match [pat] text x.
Proof.
  unfold pattern_pins, normalized_match.
  destruct (re_findall pat text) as [matches|] eqn:Hf; simpl; [|done].
  destruct (mapM normalize matches) as [normalized|] eqn:Hn; simpl; [|done].
  intros [= <-] x. rewrite elem_of_list_to_set, (mapM_normalize _ _ Hn).
  split.
  - intros (s & Hs & ->). exists pat, matches, s.
    split_and!; try done. apply list_elem_of_singleton; done.
  - intros (pat' & ms & s & ->%list_elem_of_singleton & Hms & Hs & ->).
    rewrite Hf in Hms. injection Hms as <-. eauto.
Qed.

Lemma normalized_match_cons pat ps text x :
  normalized_match (pat :: ps) text x ↔
  normalized_match [pat] text x ∨ normalized_match ps text x.
Proof.
  unfold normalized_match. split.
  - intros (p & ms & s & [->|Hp]%elem_of_cons & ?).
    + left. exists pat, ms, s. split; [apply list_elem_of_singleton; done|done].
    + right. exists p, ms, s. done.
  - intros [(p & ms & s & ->%list_elem_of_singleton & ?)
           |(p & ms & s & Hp & ?)].
    + exists pat, ms, s. split; [apply elem_of_cons; by left|done].
    + exists p, ms, s. split; [apply elem_of_cons; by right|done].
Qed.

Lemma scan_patterns_elem ps text pins S :
  scan_patterns ps text pins = Ok S →
  ∀ x, x ∈ S ↔ x ∈ pins ∨ normalized_match ps text x.
Proof.
  revert pins. induction ps as [|pat ps IH]; intros pins.
  - intros [= <-] x. split; [by left|].
    intros [?|(p & ? & ? & ?%elem_of_nil & _)]; done.
  - rewrite scan_patterns_cons.
    destruct (pattern_pins pat text) as [s|] eqn:Hp; py_step; [|done].
    intros HS x. rewrite (IH _ HS), normalized_match_cons, elem_of_union.
    rewrite (pattern_pins_elem _ _ _ Hp). tauto.
Qed.

Lemma extract_from_pdf_eq (E : fs_env) (self : PINExtractor)
    (pdf_path : string) :
  extract_from_pdf E self pdf_path =
    Ok (if PdfParser.path_exists E pdf_path then
          match PdfParser.outcome (PdfParser.parse_pdf E pdf_path) with
          | Ok r =>
              if truthy (PdfParser.text r) then
                match scan_patterns (patterns self) (PdfParser.text r) ∅
                with
                | Ok found => sorted found
                | Raise _ => []
                end
              else []
          | Raise _ => []
          end
        else []).
Proof.
  unfold extract_from_pdf, extract_from_text.
  destruct (PdfParser.path_exists E pdf_path); simpl; [|done].
  destruct (PdfParser.outcome _) as [r|]; simpl; [|done].
  destruct (truthy (PdfParser.text r)); simpl; [|done].
  by destruct (scan_patterns _ _ _).
Qed.

Lemma init_patterns_perm (ps ps' : list pattern) :
  ps ≡ₚ ps' →
  patterns (__init__ (Some ps)) ≡ₚ patterns (__init__ (Some ps')).
Proof.
  intros Hp. destruct ps as [|p ps], ps' as [|p' ps']; simpl; try done.
  - by apply Permutation_nil_cons in Hp.
  - symmetry in Hp. by apply Permutation_nil_cons in Hp.
Qed.

Ltac nothing_found :=
  exists []; split_and!;
  [done|constructor|constructor|by intros ? ?%elem_of_nil].

(** C1.  For every text source, pattern list and document, the
    extractor returns a list that is sorted for the lexicographic
    order and free of duplicates; each of its elements is hyphen-free
    and is the hyphen-free form of a group matched by one of the
    patterns; when no pattern fails, every matched group is present in
    that form; permuting the pattern list leaves the result unchanged;
    ["123-053-10"] is normalized to ["12305310"], and a group without
    hyphens is kept as it is. *)
Theorem extract_from_pdf_canonical (E : fs_env) (ps ps' : list pattern)
    (pdf_path : string) :
  let self := __init__ (Some ps) in
  (∃ l, extract_from_pdf E self pdf_path = Ok l ∧
        StronglySorted String.le l ∧ NoDup l ∧
        ∀ x, x ∈ l →
          contains_char "-" x = false ∧
          ∃ r, PdfParser.outcome (PdfParser.parse_pdf E pdf_path) = Ok r ∧
               normalized_match (patterns self) (PdfParser.text r) x) ∧
  (∀ r found,
      PdfParser.path_exists E pdf_path = true →
      PdfParser.outcome (PdfParser.parse_pdf E pdf_path) = Ok r →
      truthy (PdfParser.text r) = true →
      scan_patterns (patterns self) (PdfParser.text r) ∅ = Ok found →
      extract_from_pdf E self pdf_path = Ok (sorted found) ∧
      ∀ x, normalized_match (patterns self) (PdfParser.text r) x →
           x ∈ sorted found) ∧
  (ps ≡ₚ ps' →
   extract_from_pdf E (__init__ (Some ps')) pdf_path
   = extract_from_pdf E self pdf_path) ∧
  replace "-" "" "123-053-10" = "12305310" ∧
  (∀ s, contains_char "-" s = false → replace "-" "" s = s).
Proof.
  intros self. split_and!.
  - rewrite extract_from_pdf_eq.
    destruct (PdfParser.path_exists E pdf_path); [|nothing_found].
    destruct (PdfParser.outcome _) as [r|]; [|nothing_found].
    destruct (truthy (PdfParser.text r)); [|nothing_found].
    destruct (scan_patterns _ _ _) as [found|] eqn:Hfound;
      [|nothing_found].
    exists (sorted found). split_and!;
      [done|apply sorted_StronglySorted|apply sorted_NoDup|].
    intros x Hx%elem_of_sorted.
    apply (scan_patterns_elem _ _ _ _ Hfound) in Hx as [?%elem_of_empty|Hx];
      [done|].
    split; [|by exists r].
    destruct Hx as (? & ? & s & _ & _ & _ & ->). apply replace_hyphen_free.
  - intros r found Hex Hr Ht Hfound.
    rewrite extract_from_pdf_eq, Hex, Hr, Ht, Hfound.
    split; [done|]. intros x Hx. apply elem_of_sorted.
    apply (scan_patterns_elem _ _ _ _ Hfound). by right.
  - intros Hp. rewrite !extract_from_pdf_eq.
    destruct (PdfParser.path_exists E pdf_path); [|done].
    destruct (PdfParser.outcome _) as [r|]; [|done].
    destruct (truthy (PdfParser.text r)); [|done].
    pose proof (scan_patterns_perm _ _ (PdfParser.text r)
                  (init_patterns_perm _ _ Hp) ∅) as Heq.
    fold self in Heq.
    destruct (scan_patterns (patterns self) _ _),
             (scan_patterns (patterns (__init__ (Some ps'))) _ _);
      simpl in Heq; congruence.
  - done.
  - apply replace_canonical.
Qed.

End ExtractorFacts.

Lemma extract_from_pdf_canonical_witness :
  let path := "data/pdfs/attachments/2025-142/staff_report.pdf" in
  PinExtractor.extract_from_pdf Sample.disk
    (PinExtractor.__init__ (Some (rev Re.DEFAULT_PATTERNS))) path
  = PinExtractor.extract_from_pdf Sample.disk
      (PinExtractor.__init__ (Some Re.DEFAULT_PATTERNS)) path
  ∧ PinExtractor.extract_from_pdf Sample.disk
      (PinExtractor.__init__ (Some Re.DEFAULT_PATTERNS)) path
    = Ok (sorted Sample.staff_report_pins)
  ∧ sorted Sample.staff_report_pins
    = ["12305310"; "12517402"; "16911107"; "17903240"]
  ∧ "12305310" ∈ sorted Sample.staff_report_pins.
Proof.
  intros path.
  destruct (extract_from_pdf_canonical Sample.disk Re.DEFAULT_PATTERNS
              (rev Re.DEFAULT_PATTERNS) path) as (_ & Hall & Hperm & _).
  destruct (Hall Sample.staff_report_result Sample.staff_report_pins)
    as [Hex Hin]; [vm_compute; reflexivity..|].
  split_and!.
  - apply Hperm. apply Permutation_rev.
  - exact Hex.
  - vm_compute. reflexivity.
  - apply Hin.
    exists (nth 1 Re.DEFAULT_PATTERNS Re.Eps),
      [PinExtractor.MStr "123-053-10"], "123-053-10".
    split_and!; [|vm_compute; reflexivity| |reflexivity].
    + apply elem_of_cons; right. apply elem_of_cons; left. reflexivity.
    + apply elem_of_cons; left. reflexivity.
Defined.

(** ** Extraction over a collection of documents *)

Section CollectionFacts.
Import PinExtractor.
Context {pattern : Type} `{!RegexLib pattern}.

Lemma extract_from_pdf_total (E : fs_env) (self : PINExtractor)
    (path : string) :
  ∃ l, extract_from_pdf E self path = Ok l ∧
       (parses E path = false → l = []).
Proof.
  rewrite extract_from_pdf_eq. eexists; split; [done|].
  unfold parses.
  destruct (PdfParser.path_exists E path); [|done].
  by destruct (PdfParser.outcome _).
Qed.

Lemma document_pins_failed (E : fs_env) (self : PINExtractor)
    (path : string) :
  parses E path = false → document_pins E self path = ∅.
Proof.
  intros Hf. unfold document_pins.
  destruct (extract_from_pdf_total E self path) as (l & -> & Hl).
  by rewrite (Hl Hf).
Qed.

Lemma collect_eq (E : fs_env) (self : PINExtractor) (paths : list string)
    (all_pins : gset string) :
  collect E self paths all_pins
  = Ok (all_pins ∪ union_of_parsed E self paths).
Proof.
  unfold union_of_parsed.
  revert all_pins. induction paths as [|p paths IH]; intros all_pins.
  - simpl. by rewrite (right_id_L ∅ (∪)).
  - cbn [collect List.filter].
    pose proof (document_pins_failed E self p) as Hfail.
    destruct (extract_from_pdf_total E self p) as (l & Hl & _).
    rewrite Hl. cbn [mbind result_bind bind]. rewrite IH.
    assert (document_pins E self p = list_to_set l) as Hdoc
      by (unfold document_pins; by rewrite Hl).
    destruct (parses E p); simpl.
    + by rewrite Hdoc, (assoc_L (∪)).
    + rewrite <- Hdoc, (Hfail eq_refl). by rewrite (right_id_L ∅ (∪)).
Qed.

End CollectionFacts.


(** ** The document text source *)

Section PdfParserFacts.
Import PdfParser.

Lemma run_backend_ok (E : env) (b : backend) (path : string) :
  run_backend E b path = Ok (backend_output E b path).
Proof.
  unfold backend_output.
  destruct b; simpl; unfold _parse_with_pdfplumber, _parse_with_pypdf2;
    by destruct (pdfplumber_pages E path), (pypdf2_pages E path).
Qed.

Lemma backend_output_raises (E : env) (b : backend) (path : string) :
  raises (library_pages E b path) → backend_output E b path = ("", 0).
Proof.
  unfold backend_output.
  destruct b; simpl; unfold _parse_with_pdfplumber, _parse_with_pypdf2;
    by destruct (pdfplumber_pages E path), (pypdf2_pages E path).
Qed.

Lemma _extract_metadata_ok (E : env) (path : string) :
  ∃ md, _extract_metadata E path = Ok md.
Proof.
  unfold _extract_metadata.
  destruct (PYPDF2_AVAILABLE E); simpl; [|by eexists].
  destruct (pypdf2_metadata E path) as [[d|]|]; simpl; try by eexists.
  destruct (decide (d = ∅)); by eexists.
Qed.

(** The text source on an existing file, by availability of the
    backends. *)
Lemma parse_pdf_existing (E : env) (path : string) :
  path_exists E path = true →
  let primary := backend_output E Pdfplumber path in
  let fallback := backend_output E PyPDF2 path in
  match PDFPLUMBER_AVAILABLE E, PYPDF2_AVAILABLE E with
  | true, true =>
      trace (parse_pdf E path)
      = Pdfplumber ::
          (if (String.length primary.1 <? 100)%nat then [PyPDF2] else [])
      ∧ ∃ r, outcome (parse_pdf E path) = Ok r ∧
             (text r, page_count r)
             = if (String.length primary.1 <? 100)%nat
               then fallback else primary
  | true, false =>
      trace (parse_pdf E path) = [Pdfplumber]
      ∧ ∃ r, outcome (parse_pdf E path) = Ok r ∧
             (text r, page_count r) = primary
  | false, true =>
      trace (parse_pdf E path) = [PyPDF2]
      ∧ ∃ r, outcome (parse_pdf E path) = Ok r ∧
             (text r, page_count r) = fallback
  | false, false =>
      trace (parse_pdf E path) = []
      ∧ ∃ msg, outcome (parse_pdf E path) = Raise (Exception msg)
  end.
Proof.
  intros Hex primary fallback. unfold parse_pdf. rewrite Hex. cbn [negb].
  pose proof (run_backend_ok E Pdfplumber path) as Hp.
  pose proof (run_backend_ok E PyPDF2 path) as Hf.
  cbn [run_backend] in Hp, Hf. fold primary in Hp. fold fallback in Hf.
  destruct (_extract_metadata_ok E path) as (md & Hmd).
  destruct (PDFPLUMBER_AVAILABLE E), (PYPDF2_AVAILABLE E);
    rewrite ?Hp, ?Hf; unfold invoke, raise, ret; cbn [mbind].
  - destruct primary as [t1 n1]. cbn [fst].
    destruct (String.length t1 <? 100)%nat; cbn [andb];
      rewrite ?Hf; rewrite ?Hmd; [destruct fallback as [t2 n2]|];
      cbn; (split; [done|eexists; split; done]).
  - destruct primary as [t1 n1]. rewrite andb_false_r, andb_false_l.
    rewrite Hmd. cbn. split; [done|eexists; split; done].
  - destruct fallback as [t2 n2]. rewrite andb_false_r.
    rewrite Hmd. cbn. split; [done|eexists; split; done].
  - cbn. split; [done|by eexists].
Qed.

(** The outcomes of [parse_pdf] by cases: [FileNotFoundError] exactly
    when the path does not exist; on an existing path, a failure
    exactly when no backend is available, and then the extraction
    error; with a backend available, a result, whose text is empty as
    soon as every available backend raises or yields empty text. *)
Lemma parse_pdf_failures (E : env) (path : string) :
  (outcome (parse_pdf E path) = Raise FileNotFoundError
   ↔ path_exists E path = false) ∧
  (path_exists E path = true →
     (raises (outcome (parse_pdf E path)) ↔ ∀ b, available E b = false) ∧
     ((∀ b, available E b = false) →
      ∃ msg, outcome (parse_pdf E path) = Raise (Exception msg)) ∧
     ((∃ b, available E b = true) →
      ∃ r, outcome (parse_pdf E path) = Ok r ∧
        ((∀ b, available E b = true → raises (library_pages E b path)) →
         text r = "" ∧ page_count r = 0) ∧
        ((∀ b, available E b = true → (backend_output E b path).1 = "") →
         text r = ""))).
Proof.
  split.
  - split.
    + intros Hr. destruct (path_exists E path) eqn:Hex; [|done].
      pose proof (parse_pdf_existing E path Hex) as H.
      destruct (PDFPLUMBER_AVAILABLE E), (PYPDF2_AVAILABLE E);
        destruct H as (_ & x & Hx); rewrite Hr in Hx;
        [by destruct Hx as [[=] _]..|discriminate Hx].
    + intros Hex. unfold parse_pdf. by rewrite Hex.
  - intros Hex. pose proof (parse_pdf_existing E path Hex) as H.
    pose proof (backend_output_raises E Pdfplumber path) as Hrp.
    pose proof (backend_output_raises E PyPDF2 path) as Hrf.
    unfold available. split_and!.
    + split.
      * intros Hr b.
        destruct (PDFPLUMBER_AVAILABLE E), (PYPDF2_AVAILABLE E);
          [exfalso..|by destruct b];
          destruct H as (_ & r & Hout & _); by rewrite Hout in Hr.
      * intros Hno. rewrite (Hno Pdfplumber), (Hno PyPDF2) in H.
        destruct H as (_ & msg & ->). done.
    + intros Hno. rewrite (Hno Pdfplumber), (Hno PyPDF2) in H.
      by destruct H as (_ & H).
    + intros [b Hb].
      destruct (PDFPLUMBER_AVAILABLE E) eqn:Hp, (PYPDF2_AVAILABLE E) eqn:Hf;
        [| | |by destruct b];
        destruct H as (_ & r & Hout & Htn); exists r; (split; [done|]).
      * split.
        -- intros Hall.
           rewrite (Hrp (Hall Pdfplumber eq_refl)),
             (Hrf (Hall PyPDF2 eq_refl)) in Htn.
           cbn in Htn. by injection Htn.
        -- intros Hall. pose proof (Hall Pdfplumber eq_refl) as H1.
           pose proof (Hall PyPDF2 eq_refl) as H2. rewrite H1 in Htn.
           cbn in Htn. rewrite <- H2. rewrite <- Htn. done.
      * split.
        -- intros Hall. rewrite (Hrp (Hall Pdfplumber eq_refl)) in Htn.
           by injection Htn.
        -- intros Hall. rewrite <- (Hall Pdfplumber eq_refl).
           by rewrite <- Htn.
      * split.
        -- intros Hall. rewrite (Hrf (Hall PyPDF2 eq_refl)) in Htn.
           by injection Htn.
        -- intros Hall. rewrite <- (Hall PyPDF2 eq_refl).
           by rewrite <- Htn.
Qed.


End PdfParserFacts.

(** ** Documents that fail to parse *)

Section ContainmentFacts.
Import PinExtractor.
Context {pattern : Type} `{!RegexLib pattern}.

(** When every backend invoked for an existing document raises, the
    text source raises or returns empty text. *)
Lemma failing_text (E : fs_env) (path : string) :
  PdfParser.path_exists E path = true →
  fails_to_parse E path = true →
  match PdfParser.outcome (PdfParser.parse_pdf E path) with
  | Ok r => PdfParser.text r = ""
  | Raise _ => True
  end.
Proof.
  intros Hex. unfold fails_to_parse. rewrite Hex. cbn [negb orb].
  intros Hall.
  assert (∀ b, b ∈ PdfParser.trace (PdfParser.parse_pdf E path) →
               backend_output E b path = ("", 0%nat)) as Hout.
  { intros b Hb. apply backend_output_raises.
    rewrite forallb_forall in Hall. apply list_elem_of_In, Hall in Hb.
    by destruct (library_pages E b path). }
  pose proof (parse_pdf_existing E path Hex) as Hp. cbn zeta in Hp.
  destruct (PdfParser.PDFPLUMBER_AVAILABLE E),
    (PdfParser.PYPDF2_AVAILABLE E).
  - destruct Hp as (Htr & r & -> & Hr).
    assert (backend_output E PdfParser.Pdfplumber path = ("", 0%nat))
      as H1 by (apply Hout; rewrite Htr; apply elem_of_cons; by left).
    rewrite H1 in Hr, Htr. cbn [fst String.length Nat.ltb Nat.leb] in Hr, Htr.
    rewrite (Hout PdfParser.PyPDF2) in Hr
      by (rewrite Htr; apply elem_of_cons; right; apply elem_of_cons;
          by left).
    by injection Hr as -> _.
  - destruct Hp as (Htr & r & -> & Hr). rewrite Htr in Hout.
    rewrite (Hout PdfParser.Pdfplumber) in Hr
      by (apply elem_of_cons; by left).
    by injection Hr as -> _.
  - destruct Hp as (Htr & r & -> & Hr). rewrite Htr in Hout.
    rewrite (Hout PdfParser.PyPDF2) in Hr
      by (apply elem_of_cons; by left).
    by injection Hr as -> _.
  - by destruct Hp as (_ & msg & ->).
Qed.

Lemma failing_document (E : fs_env) (self : PINExtractor)
    (path : string) :
  fails_to_parse E path = true → extract_from_pdf E self path = Ok [].
Proof.
  intros Hf. rewrite extract_from_pdf_eq.
  destruct (PdfParser.path_exists E path) eqn:Hex; [|done].
  pose proof (failing_text E path Hex Hf) as Ht.
  destruct (PdfParser.outcome _) as [r|]; [|done].
  by rewrite Ht.
Qed.

Lemma union_of_readable_eq (E : fs_env) (self : PINExtractor)
    (paths : list string) :
  union_of_readable E self paths = union_of_parsed E self paths.
Proof.
  unfold union_of_readable, union_of_parsed.
  induction paths as [|p paths IH]; [done|]. cbn [List.filter].
  assert (fails_to_parse E p = true → document_pins E self p = ∅) as He.
  { intros Hf. unfold document_pins. by rewrite failing_document. }
  pose proof (document_pins_failed E self p) as Hp.
  destruct (fails_to_parse E p), (parses E p);
    cbn [negb List.map union_list foldr]; rewrite IH; try done.
  - by rewrite (He eq_refl), (left_id_L ∅ (∪)).
  - by rewrite (Hp eq_refl), (left_id_L ∅ (∪)).
Qed.

(** C2.  Extraction over a batch or a directory never raises.  A
    document that fails to parse, because it is missing or because
    every backend invoked for it raises (corrupt content, a parser
    exception, no backend at all), contributes the empty list, and
    the result is the sorted union of the identifiers of the
    documents that do not fail to parse. *)
Theorem extraction_contains_failures (E : fs_env) (self : PINExtractor)
    (pdf_paths : list string) (directory : string) :
  (∀ path, ∃ l, extract_from_pdf E self path = Ok l ∧
                (fails_to_parse E path = true → l = [])) ∧
  extract_batch E self pdf_paths
    = Ok (sorted (union_of_readable E self pdf_paths)) ∧
  (∃ l, extract_from_directory E self directory = Ok l) ∧
  (∀ pdf_files,
      dir_exists E directory = true →
      glob_pdf E directory = Ok pdf_files →
      extract_from_directory E self directory
        = Ok (sorted (union_of_readable E self pdf_files))).
Proof.
  split_and!.
  - intros path. destruct (extract_from_pdf_total E self path) as (l & Hl & _).
    exists l. split; [done|]. intros Hf.
    rewrite (failing_document E self path Hf) in Hl. by injection Hl.
  - unfold extract_batch. rewrite collect_eq, union_of_readable_eq. simpl.
    by rewrite (left_id_L ∅ (∪)).
  - unfold extract_from_directory.
    destruct (dir_exists E directory); cbn [negb]; [|by eexists].
    destruct (glob_pdf E directory) as [[|f fs]|];
      cbn [mbind result_bind bind try_except]; [by eexists| |by eexists].
    rewrite collect_eq. cbn [bind]. by eexists.
  - intros pdf_files Hd Hg. unfold extract_from_directory.
    rewrite Hd, Hg, union_of_readable_eq.
    cbn [negb mbind result_bind bind try_except].
    destruct pdf_files as [|f fs].
    + unfold union_of_parsed. cbn [List.filter List.map union_list foldr].
      by rewrite sorted_empty.
    + rewrite collect_eq. cbn [bind]. by rewrite (left_id_L ∅ (∪)).
Qed.

End ContainmentFacts.

Lemma extraction_contains_failures_witness :
  let dir := "data/pdfs/attachments/2025-142" in
  let self := PinExtractor.__init__ (pattern := Re.regex) None in
  fails_to_parse Sample.disk "data/pdfs/attachments/2025-142/corrupt.pdf"
  = true
  ∧ fails_to_parse Sample.disk "data/pdfs/attachments/2025-142/missing.pdf"
    = true
  ∧ PinExtractor.extract_from_pdf Sample.disk self
      "data/pdfs/attachments/2025-142/corrupt.pdf" = Ok []
  ∧ PinExtractor.extract_from_directory Sample.disk self dir
    = Ok (sorted (union_of_readable Sample.disk self Sample.on_disk))
  ∧ sorted (union_of_readable Sample.disk self Sample.on_disk)
    = ["12305310"; "12517402"; "16911107"; "17903240"; "22310197"].
Proof.
  intros dir self.
  destruct (extraction_contains_failures Sample.disk self [] dir)
    as (Hdoc & _ & _ & Hdir).
  split_and!.
  - vm_compute. reflexivity.
  - vm_compute. reflexivity.
  - destruct (Hdoc "data/pdfs/attachments/2025-142/corrupt.pdf")
      as (l & Hl & Hempty).
    rewrite Hl. f_equal. apply Hempty. vm_compute. reflexivity.
  - apply Hdir; vm_compute; reflexivity.
  - vm_compute. reflexivity.
Defined.

(** C3.  The failing input: an existing file on which both installed
    libraries raise.  The docstring of [parse_pdf] announces
    [Exception: If PDF parsing fails] and its handler re-raises what
    reaches it, but each backend function has already turned the
    library's exception into empty text, so the call returns a result
    with empty text and page count 0 and does not fail. *)
Theorem parse_pdf_all_backends_raise :
  let E := Sample.pdfs true true in
  let path := "data/pdfs/attachments/2025-142/corrupt.pdf" in
  PdfParser.path_exists E path = true ∧
  (∀ b, available E b = true ∧ raises (library_pages E b path)) ∧
  ¬ raises (PdfParser.outcome (PdfParser.parse_pdf E path)) ∧
  ∃ r, PdfParser.outcome (PdfParser.parse_pdf E path) = Ok r ∧
       PdfParser.text r = "" ∧ PdfParser.page_count r = 0.
Proof.
  intros E path. split_and!.
  - reflexivity.
  - intros []; split; [reflexivity|exact I|reflexivity|exact I].
  - vm_compute. tauto.
  - vm_compute. eexists. split_and!; reflexivity.
Qed.


(** ** ISO dates: string order is chronological order *)

Section IsoFacts.

Lemma compare_digit (c c' : ascii) :
  Re.is_digit c = true → Re.is_digit c' = true →
  (digit_value c ≤ 9)%nat ∧ (digit_value c' ≤ 9)%nat ∧
  Ascii.compare c c' = Nat.compare (digit_value c) (digit_value c').
Proof.
  unfold Re.is_digit, digit_value, Ascii.compare, nat_of_ascii.
  intros [H1 H2]%andb_true_iff [H3 H4]%andb_true_iff.
  apply Nat.leb_le in H1, H2, H3, H4.
  rewrite N2Nat.inj_compare. split_and!; [lia..|].
  destruct (Nat.compare_spec (N.to_nat (N_of_ascii c))
              (N.to_nat (N_of_ascii c'))) as [Heq|?|?]; symmetry.
  - rewrite Heq. apply Nat.compare_refl.
  - apply Nat.compare_lt_iff. lia.
  - apply Nat.compare_gt_iff. lia.
Qed.

Lemma date_leb_spec (a b : date) :
  date_leb a b = true ↔
  (year a < year b ∨
   (year a = year b ∧
    (month a < month b ∨ (month a = month b ∧ day a ≤ day b))))%nat.
Proof.
  unfold date_leb.
  rewrite !orb_true_iff, !andb_true_iff, !orb_true_iff, !andb_true_iff.
  rewrite !Nat.ltb_lt, !Nat.eqb_eq, Nat.leb_le. done.
Qed.

Ltac decide_date_leb :=
  match goal with
  | |- _ = date_leb ?a ?b =>
      let E := fresh "E" in
      destruct (date_leb a b) eqn:E; [|apply not_true_iff_false in E];
      rewrite date_leb_spec in E; cbn [year month day] in E;
      first [done | exfalso; lia]
  end.

(** On two strings of the form [dddd-dd-dd] the comparison of
    strings is the comparison of dates. *)
Lemma iso_leb (s t : string) :
  is_iso s = true → is_iso t = true →
  String.leb s t = date_leb (parse_iso s) (parse_iso t).
Proof.
  destruct s as [|a3 [|a2 [|a1 [|a0 [|p1 [|a5 [|a4 [|p2 [|a7 [|a6 [|]]]]]]]]]]];
    try done.
  destruct t as [|b3 [|b2 [|b1 [|b0 [|q1 [|b5 [|b4 [|q2 [|b7 [|b6 [|]]]]]]]]]]];
    try done.
  cbn [is_iso forallb].
  rewrite !andb_true_iff.
  intros [[(A3 & A2 & A1 & A0 & A5 & A4 & A7 & A6 & _) ->%Ascii.eqb_eq]
            ->%Ascii.eqb_eq].
  intros [[(B3 & B2 & B1 & B0 & B5 & B4 & B7 & B6 & _) ->%Ascii.eqb_eq]
            ->%Ascii.eqb_eq].
  destruct (compare_digit _ _ A3 B3) as (? & ? & E3).
  destruct (compare_digit _ _ A2 B2) as (? & ? & E2).
  destruct (compare_digit _ _ A1 B1) as (? & ? & E1).
  destruct (compare_digit _ _ A0 B0) as (? & ? & E0).
  destruct (compare_digit _ _ A5 B5) as (? & ? & E5).
  destruct (compare_digit _ _ A4 B4) as (? & ? & E4).
  destruct (compare_digit _ _ A7 B7) as (? & ? & E7).
  destruct (compare_digit _ _ A6 B6) as (? & ? & E6).
  unfold String.leb. cbn [String.compare parse_iso].
  rewrite E3, E2, E1, E0, E5, E4, E7, E6.
  change (Ascii.compare "-" "-") with Eq. cbv iota.
  destruct (Nat.compare_spec (digit_value a3) (digit_value b3));
    [|decide_date_leb..].
  destruct (Nat.compare_spec (digit_value a2) (digit_value b2));
    [|decide_date_leb..].
  destruct (Nat.compare_spec (digit_value a1) (digit_value b1));
    [|decide_date_leb..].
  destruct (Nat.compare_spec (digit_value a0) (digit_value b0));
    [|decide_date_leb..].
  destruct (Nat.compare_spec (digit_value a5) (digit_value b5));
    [|decide_date_leb..].
  destruct (Nat.compare_spec (digit_value a4) (digit_value b4));
    [|decide_date_leb..].
  destruct (Nat.compare_spec (digit_value a7) (digit_value b7));
    [|decide_date_leb..].
  destruct (Nat.compare_spec (digit_value a6) (digit_value b6));
    decide_date_leb.
Qed.

End IsoFacts.

(** ** Date-range filtering *)

Section FilterFacts.
Import Models Scraper.

Lemma filter_filter {A} (f g : A → bool) (l : list A) :
  List.filter g (List.filter f l) = List.filter (fun x => f x && g x) l.
Proof.
  induction l as [|x l IH]; simpl; [done|].
  destruct (f x); simpl; [|done]. destruct (g x); by rewrite IH.
Qed.

Lemma filter_true {A} (l : list A) : List.filter (fun _ => true) l = l.
Proof. induction l as [|x l IH]; simpl; by rewrite ?IH. Qed.

Lemma filter_by_date_strings (meetings : list Meeting)
    (start_date end_date : option string) :
  _filter_by_date meetings start_date end_date
  = List.filter (in_string_range start_date end_date) meetings.
Proof.
  unfold _filter_by_date, in_string_range, str_ge.
  destruct (truthy_opt start_date), (truthy_opt end_date).
  - by rewrite filter_filter.
  - apply filter_ext. intros m. by rewrite andb_true_r.
  - done.
  - by rewrite filter_true.
Qed.

Lemma is_iso_truthy (s : string) : is_iso s = true → truthy s = true.
Proof. by destruct s. Qed.

(** C8.  With bounds of the form [YYYY-MM-DD], each of them
    optional, the filter returns exactly the meetings whose date lies
    between the given bounds, both inclusive, in their original
    order: for the order on strings whatever the meeting dates are,
    which on meeting dates of the form [YYYY-MM-DD] is the
    chronological order; with no bound it returns the list
    unchanged. *)
Theorem filter_by_date_inclusive (meetings : list Meeting)
    (start_date end_date : option string) :
  (∀ s, start_date = Some s → is_iso s = true) →
  (∀ s, end_date = Some s → is_iso s = true) →
  _filter_by_date meetings start_date end_date
  = List.filter (in_bounds start_date end_date) meetings
  ∧ (Forall (fun m => is_iso (meeting_date m) = true) meetings →
     _filter_by_date meetings start_date end_date
     = List.filter
         (fun m =>
            within (parse_iso <$> start_date) (parse_iso <$> end_date)
              (parse_iso (meeting_date m)))
         meetings)
  ∧ (start_date = None → end_date = None →
     _filter_by_date meetings start_date end_date = meetings).
Proof.
  intros Hs He.
  assert (Hb : ∀ m, in_string_range start_date end_date m
                    = in_bounds start_date end_date m).
  { intros m. unfold in_string_range, in_bounds. f_equal.
    - destruct start_date as [s|]; [|done]. cbn.
      by rewrite (is_iso_truthy s (Hs s eq_refl)).
    - destruct end_date as [e|]; [|done]. cbn.
      by rewrite (is_iso_truthy e (He e eq_refl)). }
  rewrite filter_by_date_strings. split_and!.
  - by apply filter_ext.
  - intros Hm. apply filter_ext_in.
    intros m Hin. rewrite List.Forall_forall in Hm.
    pose proof (Hm m Hin) as Hiso.
    rewrite Hb. unfold in_bounds, within. f_equal.
    + destruct start_date as [s|]; [|done]. cbn. apply iso_leb; auto.
    + destruct end_date as [e|]; [|done]. cbn. apply iso_leb; auto.
  - intros -> ->. apply filter_true.
Qed.

End FilterFacts.

Lemma filter_by_date_inclusive_witness :
  Scraper._filter_by_date Sample.january (Some "2026-01-10")
    (Some "2026-01-20")
  = List.map Sample.meeting_on ["2026-01-10"; "2026-01-15"; "2026-01-20"]
  ∧ Scraper._filter_by_date Sample.january None (Some "2026-01-10")
    = List.map Sample.meeting_on ["2026-01-05"; "2026-01-10"]
  ∧ Scraper._filter_by_date Sample.january None None = Sample.january.
Proof.
  assert (Hm : Forall (fun m => is_iso (Models.meeting_date m) = true)
                 Sample.january)
    by (repeat constructor).
  split_and!.
  - destruct (filter_by_date_inclusive Sample.january (Some "2026-01-10")
                (Some "2026-01-20")) as (_ & Hdates & _);
      [by intros ? [= <-]|by intros ? [= <-]|].
    rewrite (Hdates Hm). vm_compute. reflexivity.
  - destruct (filter_by_date_inclusive Sample.january None
                (Some "2026-01-10")) as (Hstr & _ & _);
      [done|by intros ? [= <-]|].
    rewrite Hstr. vm_compute. reflexivity.
  - destruct (filter_by_date_inclusive Sample.january None None)
      as (_ & _ & Hnone); [done|done|].
    by apply Hnone.
Defined.

(** ** Calendar rows *)

Section RowFacts.
Import Models Scraper.
Context {datetime : Type} `{!DatetimeLib datetime}.

Lemma try_formats_first (date_str : string) (fmts : list string) :
  ∀ d, try_formats date_str fmts = Some d ↔
       ∃ fmt dt, first_format date_str fmts fmt dt ∧
                 d = strftime dt "%Y-%m-%d".
Proof.
  induction fmts as [|f fmts IH]; intros d; simpl.
  - split; [done|]. intros (fmt & dt & (b & a & Hb & _) & _).
    by destruct b.
  - destruct (strptime date_str f) as [dt|] eqn:Hf.
    + split.
      * intros [= <-]. exists f, dt. split; [|done].
        exists [], fmts. by split_and!.
      * intros (fmt & dt' & (b & a & Hb & Hnone & Hsome) & ->).
        destruct b as [|f' b]; simplify_eq/=; try congruence.
        apply Forall_cons in Hnone as [Hnone _]. congruence.
    + rewrite IH. split.
      * intros (fmt & dt & (b & a & -> & Hnone & Hsome) & ->).
        exists fmt, dt. split; [|done].
        exists (f :: b), a. split_and!; [done| |done].
        by apply Forall_cons.
      * intros (fmt & dt & (b & a & Hb & Hnone & Hsome) & ->).
        destruct b as [|f' b]; simplify_eq/=; try congruence.
        apply Forall_cons in Hnone as [_ Hnone].
        exists fmt, dt. split; [|done]. by exists b, a.
Qed.

Lemma parse_date_eq (date_str : string) :
  _parse_date date_str = Ok (try_formats date_str date_formats).
Proof. done. Qed.

Lemma parseable_iff (date_str : string) :
  parseable date_str
  ↔ truthy_opt (try_formats date_str date_formats) = true.
Proof.
  unfold parseable. split.
  - intros (fmt & dt & Hfirst & Ht).
    assert (try_formats date_str date_formats
            = Some (strftime dt "%Y-%m-%d")) as ->; [|done].
    apply try_formats_first. eauto.
  - destruct (try_formats date_str date_formats) as [d|] eqn:Hd; [|done].
    apply try_formats_first in Hd as (fmt & dt & Hfirst & ->).
    intros Ht. eauto.
Qed.

Lemma parse_calendar_row_cases (base_url : string) (cells : list cell) :
  ∃ r, _parse_calendar_row base_url cells = Ok r ∧
       (is_Some r ↔ row_accepted base_url cells).
Proof.
  unfold _parse_calendar_row, row_accepted, details_link.
  destruct (Nat.ltb_spec (length cells) 5) as [Hlt|Hge].
  { exists None. split; [done|]. split; [by intros [? [=]]|]. lia. }
  destruct cells as [|c0 [|c1 [|c2 [|c3 [|c4 rest]]]]];
    simpl in Hge; try lia.
  cbn [getitem lookup list_lookup mbind result_bind bind try_except].
  rewrite parse_date_eq. cbn [mbind result_bind bind].
  pose proof (parseable_iff (cell_text c1)) as Hp.
  destruct (truthy_opt (try_formats (cell_text c1) date_formats)) eqn:Ht;
    cbn [negb try_except].
  2:{ exists None. split; [done|]. split; [by intros [? [=]]|].
      intros (_ & (c & [= <-] & Hc) & _). apply Hp in Hc. done. }
  destruct rest as [|c5 rest].
  { exists None. split; [done|]. split; [by intros [? [=]]|].
    by intros (_ & _ & link & [=] & _). }
  cbn [length Nat.ltb Nat.leb getitem lookup list_lookup
       mbind result_bind bind].
  destruct (cell_a c5) as [link|] eqn:Hcell; cbn [try_except].
  2:{ exists None. split; [done|]. split; [by intros [? [=]]|].
      by intros (_ & _ & link & [=] & _). }
  destruct (_make_absolute_url base_url (href link)) as [url|] eqn:Hurl.
  - assert (Hacc : (5 ≤ length (c0 :: c1 :: c2 :: c3 :: c4 :: c5 :: rest))%nat
                   ∧ (∃ c, Some c1 = Some c ∧ parseable (cell_text c))
                   ∧ ∃ link', cell_a c5 = Some link'
                       ∧ is_Some (_make_absolute_url base_url (href link'))).
    { split_and!; [simpl; lia| |].
      - exists c1. split; [done|]. by apply Hp.
      - rewrite Hcell. exists link. split; [done|]. rewrite Hurl.
        by eexists. }
    rewrite Hcell in Hacc.
    destruct rest as [|c6 rest];
      cbn [length Nat.ltb Nat.leb getitem lookup list_lookup
           mbind result_bind bind new_Meeting try_except];
      (eexists (Some _); split; [reflexivity|]; split; [done|by eexists]).
  - exists None. split.
    + destruct rest as [|c6 rest];
        cbn [length Nat.ltb Nat.leb getitem lookup list_lookup
             mbind result_bind bind new_Meeting try_except]; reflexivity.
    + split; [by intros [? [=]]|].
      intros (_ & _ & link' & [= <-] & Hsome). rewrite Hurl in Hsome.
      by destruct Hsome.
Qed.

Lemma parse_rows_eq (base_url : string) (rows : list (list cell)) :
  parse_rows base_url rows = Ok (omap (row_meeting base_url) rows).
Proof.
  induction rows as [|row rows IH]; [done|].
  cbn [parse_rows omap list_omap]. rewrite IH. unfold row_meeting.
  destruct (parse_calendar_row_cases base_url row) as (r & -> & _).
  by destruct r.
Qed.

(** C9 (amended).  A calendar row yields one meeting exactly when it
    has at least five columns, its date column is parsed by one of
    the formats [%m/%d/%Y], [%Y-%m-%d], [%B %d, %Y] (the first of
    them, in that order, that parses it gives the date) and its sixth
    column holds a link whose href resolves to a URL; any other row
    is skipped without raising, and the rows of a page are parsed
    independently of one another. *)
Theorem parse_calendar_row_accepts (base_url : string)
    (cells : list cell) :
  (∃ r, _parse_calendar_row base_url cells = Ok r ∧
        (is_Some r ↔ row_accepted base_url cells)) ∧
  date_formats = ["%m/%d/%Y"; "%Y-%m-%d"; "%B %d, %Y"] ∧
  (∀ date_str,
      ∃ d, _parse_date date_str = Ok d ∧
           (∀ text, d = Some text ↔
              ∃ fmt dt, first_format date_str date_formats fmt dt ∧
                        text = strftime dt "%Y-%m-%d") ∧
           ((∀ fmt, fmt ∈ date_formats → strptime date_str fmt = None) →
            d = None)) ∧
  (∀ rows, parse_rows base_url rows
           = Ok (omap (row_meeting base_url) rows)) ∧
  (∀ rows1 row rows2,
      ¬ row_accepted base_url row →
      parse_rows base_url (rows1 ++ row :: rows2)%list
      = Ok (omap (row_meeting base_url) rows1
            ++ omap (row_meeting base_url) rows2)%list).
Proof.
  split_and!.
  - apply parse_calendar_row_cases.
  - done.
  - intros date_str. rewrite parse_date_eq. eexists. split; [done|].
    split; [apply try_formats_first|].
    intros Hnone.
    destruct (try_formats date_str date_formats) as [d|] eqn:Hd; [|done].
    apply try_formats_first in Hd
      as (fmt & dt & (b & a & Hfmts & _ & Hsome) & _).
    rewrite Hnone in Hsome; [done|]. rewrite Hfmts.
    apply elem_of_app. right. apply elem_of_cons. by left.
  - apply parse_rows_eq.
  - intros rows1 row rows2 Hrow. rewrite parse_rows_eq.
    rewrite omap_app. cbn [omap list_omap].
    unfold row_meeting at 2.
    destruct (parse_calendar_row_cases base_url row) as (r & -> & Hr).
    destruct r as [m|]; [|done]. exfalso. apply Hrow, Hr. by eexists.
Qed.

End RowFacts.

(** C9: the claim fails on a row of exactly five columns.  The row has
    five columns and a date the first format parses, and no meeting is
    produced, because the details link of the sixth column is
    missing. *)
Lemma parse_calendar_row_five_columns :
  let row := Sample.five_columns "01/20/2026" in
  length row = 5 ∧
  Scraper._parse_date (datetime := Datetime.datetime) "01/20/2026"
  = Ok (Some "2026-01-20") ∧
  Scraper._parse_calendar_row (datetime := Datetime.datetime)
    Sample.base row = Ok None.
Proof. intros row. split_and!; vm_compute; reflexivity. Qed.

Lemma parse_calendar_row_accepts_witness :
  is_Some (row_meeting (datetime := Datetime.datetime) Sample.base
             (Sample.full_row "January 20, 2026"))
  ∧ Scraper.parse_rows (datetime := Datetime.datetime) Sample.base
      [Sample.full_row "1/20/2026"; Sample.five_columns "01/27/2026";
       Sample.full_row "2026-02-03"]
    = Ok (omap (row_meeting (datetime := Datetime.datetime) Sample.base)
            [Sample.full_row "1/20/2026"]
          ++ omap (row_meeting (datetime := Datetime.datetime) Sample.base)
               [Sample.full_row "2026-02-03"])%list.
Proof.
  destruct (parse_calendar_row_accepts (datetime := Datetime.datetime)
              Sample.base (Sample.full_row "January 20, 2026"))
    as ((r & Hr & Hiff) & _ & _ & _ & Hskip).
  split.
  - unfold row_meeting. rewrite Hr. apply Hiff. split_and!.
    + vm_compute. lia.
    + eexists. split; [reflexivity|].
      exists "%B %d, %Y", {| Datetime.year := 2026; Datetime.month := 1;
                             Datetime.day := 20 |}.
      split; [|reflexivity].
      exists ["%m/%d/%Y"; "%Y-%m-%d"], []. split_and!; [reflexivity| |].
      * repeat constructor.
      * vm_compute. reflexivity.
    + eexists. split; [reflexivity|]. vm_compute. by eexists.
  - apply (Hskip [_] _ [_]).
    intros (_ & _ & link & Hlink & _). vm_compute in Hlink. discriminate.
Defined.

(** ** GIS resolution *)

Section GisFacts.
Import Models GIS.

Lemma dict_update_notin (d : gmap string json)
    (kvs : list (string * json)) (k : string) :
  k ∉ kvs.*1 → dict_update d kvs !! k = d !! k.
Proof.
  unfold dict_update. revert d.
  induction kvs as [|[k0 v0] kvs IH]; intros d Hk; [done|].
  apply not_elem_of_cons in Hk as [Hne Hk]. simpl.
  rewrite IH by done. by apply lookup_insert_ne.
Qed.

Lemma dict_update_in (d : gmap string json)
    (kvs : list (string * json)) (k : string) (v : json) :
  NoDup kvs.*1 → (k, v) ∈ kvs → dict_update d kvs !! k = Some v.
Proof.
  revert d. induction kvs as [|[k0 v0] kvs IH]; intros d Hnd Hin.
  - by apply elem_of_nil in Hin.
  - apply NoDup_cons in Hnd as [Hk0 Hnd].
    apply elem_of_cons in Hin as [[= -> ->]|Hin].
    + change (dict_update (<[k0:=v0]> d) kvs !! k0 = Some v0).
      rewrite dict_update_notin by done. apply lookup_insert_eq.
    + change (dict_update (<[k0:=v0]> d) kvs !! k = Some v). by apply IH.
Qed.

Lemma petition_metadata_keys (p : Petition) (md mt : string) :
  (petition_metadata p md mt).*1
  = ["petition_number"; "file_number"; "location"; "status";
     "current_zoning"; "proposed_zoning"; "petitioner"; "meeting_date";
     "meeting_type"].
Proof. done. Qed.

Lemma petition_metadata_NoDup (p : Petition) (md mt : string) :
  NoDup (petition_metadata p md mt).*1.
Proof.
  rewrite petition_metadata_keys.
  apply (bool_decide_unpack _). vm_compute. reflexivity.
Qed.

Lemma get_parcel_by_pid_ok (E : gis_env) (n : nat) (pid : string) :
  ∃ o, get_parcel_by_pid E n pid = Ok o.
Proof.
  unfold get_parcel_by_pid.
  destruct (gis_query E n pid) as [[|f fs]|]; simpl; try by eexists.
  destruct (properties f); simpl; by eexists.
Qed.

Lemma job_features_app (E : gis_env) (md mt : string) (n : nat)
    (js1 js2 : list (Petition * string)) :
  job_features E md mt n (js1 ++ js2)
  = (job_features E md mt n js1
     ++ job_features E md mt (n + length js1) js2)%list.
Proof.
  revert n. induction js1 as [|j js1 IH]; intros n; simpl.
  - by rewrite Nat.add_0_r.
  - rewrite IH, <- app_assoc. do 3 f_equal. lia.
Qed.

Lemma object_properties_app (E : gis_env) (n : nat)
    (js1 js2 : list (Petition * string)) :
  object_properties E n (js1 ++ js2) ↔
  object_properties E n js1 ∧ object_properties E (n + length js1) js2.
Proof.
  revert n. induction js1 as [|j js1 IH]; intros n; simpl.
  - rewrite Nat.add_0_r. tauto.
  - rewrite IH. replace (S n + length js1) with (n + S (length js1)) by lia.
    tauto.
Qed.

(** One lookup: the counters and the feature list after it. *)
Lemma fetch_pin_spec (E : gis_env) (p : Petition) (md mt : string)
    (st : fetch_state) (pin : string) :
  object_properties E (requests st) [(p, pin)] →
  ∃ st', fetch_pin E p md mt st pin = Ok st' ∧
         requests st' = S (requests st) ∧
         all_features st'
         = (all_features st
            ++ job_features E md mt (requests st) [(p, pin)])%list ∧
         total_parcels st' = S (total_parcels st) ∧
         total_found st'
         = total_found st
           + length (job_features E md mt (requests st) [(p, pin)]).
Proof.
  intros [Hobj _]. unfold fetch_pin. cbn [job_features].
  unfold job_feature. cbn [fst snd] in *.
  destruct (get_parcel_by_pid_ok E (requests st) pin) as (o & Ho).
  rewrite Ho in *. cbn [mbind result_bind bind].
  destruct o as [parcel|].
  - destruct (Hobj parcel eq_refl) as (d & Hd).
    assert (∃ f', add_petition_metadata parcel p md mt = Ok f')
      as [f' Hf'].
    { unfold add_petition_metadata. rewrite Hd. by eexists. }
    rewrite Hf'. cbn [bind to_option].
    eexists. split; [done|].
    cbn [requests all_features total_parcels total_found app length].
    split_and!; [done|done|done|lia].
  - eexists. split; [done|].
    cbn [requests all_features total_parcels total_found app length].
    split_and!; [done|by rewrite app_nil_r|done|lia].
Qed.

Lemma fetch_pins_spec (E : gis_env) (p : Petition) (md mt : string)
    (pins : list string) (st : fetch_state) :
  let js := List.map (fun pin => (p, pin)) pins in
  object_properties E (requests st) js →
  ∃ st', fetch_pins E p md mt st pins = Ok st' ∧
         requests st' = requests st + length js ∧
         all_features st'
         = (all_features st ++ job_features E md mt (requests st) js)%list ∧
         total_parcels st' = total_parcels st + length js ∧
         total_found st'
         = total_found st + length (job_features E md mt (requests st) js).
Proof.
  revert st. induction pins as [|pin pins IH]; intros st js Hobj.
  - exists st. cbn. split_and!; [done|lia|by rewrite app_nil_r|lia|lia].
  - subst js. cbn [List.map] in *.
    change ((p, pin) :: List.map (fun pin => (p, pin)) pins)
      with ([(p, pin)] ++ List.map (fun pin => (p, pin)) pins)%list
      in Hobj |- *.
    apply object_properties_app in Hobj as [H1 H2].
    destruct (fetch_pin_spec E p md mt st pin H1)
      as (st1 & Hst1 & Hr1 & Hf1 & Ht1 & Hn1).
    cbn [fetch_pins]. rewrite Hst1. cbn [mbind result_bind bind].
    cbn [length] in H2. rewrite Nat.add_1_r, <- Hr1 in H2.
    destruct (IH st1 H2) as (st2 & Hst2 & Hr2 & Hf2 & Ht2 & Hn2).
    exists st2. rewrite job_features_app. cbn [length].
    rewrite Nat.add_1_r, <- Hr1.
    split_and!; [done| | | |].
    + rewrite Hr2, Hr1, length_app. simpl. lia.
    + by rewrite Hf2, Hf1, app_assoc.
    + rewrite Ht2, Ht1, length_app. simpl. lia.
    + rewrite Hn2, Hn1, !length_app. lia.
Qed.

Lemma fetch_loop_spec (E : gis_env) (md mt : string)
    (ps : list Petition) (st : fetch_state) :
  let js :=
    flat_map (fun p => List.map (fun pin => (p, pin))
                         (default [] (pins p))) ps in
  object_properties E (requests st) js →
  ∃ st', fetch_loop E md mt st ps = Ok st' ∧
         requests st' = requests st + length js ∧
         all_features st'
         = (all_features st ++ job_features E md mt (requests st) js)%list ∧
         total_parcels st' = total_parcels st + length js ∧
         total_found st'
         = total_found st + length (job_features E md mt (requests st) js).
Proof.
  revert st. induction ps as [|p ps IH]; intros st js Hobj.
  - exists st. cbn. split_and!; [done|lia|by rewrite app_nil_r|lia|lia].
  - subst js. cbn [flat_map] in *.
    apply object_properties_app in Hobj as [H1 H2].
    destruct (fetch_pins_spec E p md mt _ st H1)
      as (st1 & Hst1 & Hr1 & Hf1 & Ht1 & Hn1).
    cbn [fetch_loop]. rewrite Hst1. cbn [mbind result_bind bind].
    rewrite <- Hr1 in H2.
    destruct (IH st1 H2) as (st2 & Hst2 & Hr2 & Hf2 & Ht2 & Hn2).
    exists st2. rewrite job_features_app, <- Hr1.
    split_and!; [done| | | |].
    + rewrite Hr2, Hr1, length_app. lia.
    + by rewrite Hf2, Hf1, app_assoc.
    + rewrite Ht2, Ht1, length_app. lia.
    + rewrite Hn2, Hn1, !length_app. lia.
Qed.

(** C7 (amended).  Provided every matched parcel carries a JSON
    object as its properties, GIS resolution makes one lookup per
    identifier of each petition that has identifiers, and each lookup
    contributes on its own: a failed request or an empty reply adds
    no feature and counts as attempted only; a match adds exactly one
    feature, with the geometry of the parcel and the GIS attributes
    updated with the petition number (the file number when the
    petition has no number), file number, location, status, current
    and proposed zoning, petitioner and the meeting date and type,
    these nine keys taking the petition's values and every other GIS
    attribute being kept. *)
Theorem fetch_parcels_independent (E : gis_env) (n0 : nat)
    (petitions : list Petition) (meeting_date meeting_type : string) :
  object_properties E n0 (jobs petitions) →
  (∃ fc st,
      fetch_parcels_for_petitions E n0 petitions meeting_date meeting_type
      = Ok (fc, st) ∧
      features fc
      = job_features E meeting_date meeting_type n0 (jobs petitions) ∧
      total_parcels st = length (jobs petitions) ∧
      total_found st = length (features fc)) ∧
  (∀ n p pin,
      raises (gis_query E n pin) ∨ gis_query E n pin = Ok [] →
      job_feature E meeting_date meeting_type n (p, pin) = None) ∧
  (∀ st p pin,
      job_feature E meeting_date meeting_type (requests st) (p, pin)
      = None →
      object_properties E (requests st) [(p, pin)] →
      fetch_pin E p meeting_date meeting_type st pin
      = Ok {| requests := S (requests st);
              all_features := all_features st;
              total_parcels := S (total_parcels st);
              total_found := total_found st |}) ∧
  (∀ n p pin parcel others d,
      gis_query E n pin = Ok (parcel :: others) →
      properties parcel = PropsObject d →
      ∃ d',
        job_feature E meeting_date meeting_type n (p, pin)
        = Some {| properties := PropsObject d';
                  geometry := geometry parcel |} ∧
        d' !! "petition_number" = Some (JStr (petition_label p)) ∧
        (∀ k v, (k, v) ∈ petition_metadata p meeting_date meeting_type →
                d' !! k = Some v) ∧
        (∀ k, k ∉ (petition_metadata p meeting_date meeting_type).*1 →
              d' !! k = d !! k)).
Proof.
  intros Hobj. split_and!.
  - unfold fetch_parcels_for_petitions, jobs in *.
    destruct (List.filter has_pins petitions) as [|p ps] eqn:Hps.
    + eexists _, _. split; [done|]. by split_and!.
    + match goal with
      | |- context [fetch_loop E _ _ ?init _] =>
          destruct (fetch_loop_spec E meeting_date meeting_type
                      (p :: ps) init Hobj)
            as (st & Hst & _ & Hf & Ht & Hn)
      end.
      rewrite Hst. cbn [mbind result_bind bind].
      cbn [requests all_features total_parcels total_found app] in *.
      eexists _, _. split; [done|]. cbn [features].
      split_and!.
      * exact Hf.
      * exact Ht.
      * rewrite Hn, Hf. reflexivity.
  - intros n p pin Hq. unfold job_feature, get_parcel_by_pid. cbn [snd].
    destruct Hq as [Hq| ->]; [|done].
    by destruct (gis_query E n pin).
  - intros st p pin Hnone [Hobj1 _]. cbn [snd] in Hobj1.
    unfold job_feature in Hnone. cbn [fst snd] in Hnone.
    unfold fetch_pin.
    destruct (get_parcel_by_pid_ok E (requests st) pin) as ([parcel|] & Ho);
      rewrite Ho in *; [|done].
    destruct (Hobj1 parcel eq_refl) as (d & Hd).
    unfold add_petition_metadata in Hnone. by rewrite Hd in Hnone.
  - intros n p pin parcel others d Hq Hd.
    exists (dict_update d (petition_metadata p meeting_date meeting_type)).
    split_and!.
    + unfold job_feature, get_parcel_by_pid, add_petition_metadata.
      cbn [fst snd]. rewrite Hq. cbn [mbind result_bind bind try_except].
      rewrite Hd. cbn [try_except]. by rewrite Hd.
    + apply dict_update_in; [apply petition_metadata_NoDup|].
      apply elem_of_cons. by left.
    + intros k v Hin. apply dict_update_in; [|done].
      apply petition_metadata_NoDup.
    + intros k Hk. by apply dict_update_notin.
Qed.

End GisFacts.

(** C7: the claim fails on a petition without a petition number, on
    a GIS attribute named like a petition field, and on a matched
    parcel whose properties are not a JSON object.  The feature's
    [petition_number] property is the file number, the petition having
    no petition number, and the GIS attribute [status] is replaced by
    the petition's status; and where the first identifier is matched
    by a parcel with [null] properties, the update raises
    [AttributeError] out of the whole call, the lookup of the second
    identifier, which has a match, never being made. *)
Lemma fetch_parcels_overrides :
  let p := Sample.petition_of None ["22310197"] in
  let q := Sample.petition_of (Some "2025-142") ["11111111"; "22310197"] in
  (∃ st d d',
    GIS.fetch_parcels_for_petitions Sample.parcels 0 [p] "2026-01-20"
      "Zoning Committee"
    = Ok ({| GIS.features :=
               [{| GIS.properties := GIS.PropsObject d';
                   GIS.geometry := GIS.geometry Sample.parcel_22310197 |}]
          |}, st) ∧
    GIS.properties Sample.parcel_22310197 = GIS.PropsObject d ∧
    Models.petition_number p = None ∧
    d' !! "petition_number" = Some (GIS.JStr "15-25343") ∧
    d !! "status" = Some (GIS.JStr "ACTIVE") ∧
    d' !! "status" = Some (GIS.JStr "Approved")) ∧
  GIS.gis_query Sample.parcels_with_null 1 "22310197"
  = Ok [Sample.parcel_22310197] ∧
  GIS.fetch_parcels_for_petitions Sample.parcels_with_null 0 [q]
    "2026-01-20" "Zoning Committee"
  = Raise AttributeError.
Proof.
  intros p q. split_and!.
  - eexists _, _, _. split_and!; [reflexivity..|done| | |];
      vm_compute; reflexivity.
  - reflexivity.
  - vm_compute. reflexivity.
Qed.

Lemma fetch_parcels_independent_witness :
  let ps := [ Sample.petition_of (Some "2025-142")
                ["22310197"; "00000000"; "99999999"];
              Sample.petition_of (Some "2025-150") [] ] in
  ∃ fc st,
    GIS.fetch_parcels_for_petitions Sample.parcels 0 ps "2026-01-20"
      "Zoning Committee" = Ok (fc, st) ∧
    length (GIS.features fc) = 1 ∧
    GIS.total_parcels st = 3 ∧
    GIS.total_found st = 1.
Proof.
  intros ps.
  destruct (fetch_parcels_independent Sample.parcels 0 ps "2026-01-20"
              "Zoning Committee") as ((fc & st & Hfc & Hf & Ht & Hn) & _).
  - cbn. split_and!; [|done..].
    intros parcel [= <-]. by eexists.
  - exists fc, st. split; [exact Hfc|]. rewrite Hn, Ht, Hf.
    split_and!; vm_compute; reflexivity.
Defined.

(** ** Storage *)

Section StorageFacts.
Import Models Storage.

(** C10.  Every load operation returns its default when the file is
    missing, without raising and without touching the files: the
    empty list of meetings, the empty list of petitions, the
    statistics record with all counts zero, the empty
    FeatureCollection. *)
Theorem load_missing_total (self : Storage) (fs : files) :
  (fs !! meetings_file self = None →
   load_meetings self fs = (fs, Ok [])) ∧
  (fs !! petitions_file self = None →
   load_petitions self fs = (fs, Ok [])) ∧
  (fs !! stats_file self = None →
   get_stats self fs
   = (fs, Ok {| total_meetings := 0; total_petitions := 0;
                zoning_meetings := 0; petitions_with_pins := 0;
                total_pins := 0; last_scrape_time := None |})) ∧
  (fs !! parcels_file self = None →
   load_parcels_geojson self fs
   = (fs, Ok (ParcelsDoc {| GIS.features := [] |}))).
Proof.
  unfold load_meetings, load_petitions, get_stats, load_parcels_geojson.
  split_and!; by intros ->.
Qed.

Lemma file_names_distinct (self : Storage) :
  NoDup [meetings_file self; petitions_file self; parcels_file self;
         stats_file self].
Proof.
  unfold meetings_file, petitions_file, parcels_file, stats_file.
  repeat (apply NoDup_cons; split);
    rewrite ?elem_of_cons, ?elem_of_nil; [| | | |apply NoDup_nil_2].
  all: intros H; repeat destruct H as [H|H]; try done;
    by apply (inj (String.app _)) in H.
Qed.

End StorageFacts.

Lemma load_missing_total_witness :
  Storage.load_meetings Sample.charlotte ∅ = (∅, Ok [])
  ∧ Storage.load_petitions Sample.charlotte ∅ = (∅, Ok [])
  ∧ Storage.get_stats Sample.charlotte ∅ = (∅, Ok Models.default_stats)
  ∧ Storage.load_parcels_geojson Sample.charlotte ∅
    = (∅, Ok (Storage.ParcelsDoc {| GIS.features := [] |})).
Proof.
  destruct (load_missing_total Sample.charlotte ∅) as (Hm & Hp & Hs & Hg).
  split_and!.
  - apply Hm. reflexivity.
  - apply Hp. reflexivity.
  - apply Hs. reflexivity.
  - apply Hg. reflexivity.
Defined.

(** ** The run orchestrator *)

Section RunFacts.
Import Models Storage Orchestrator.

Lemma write_json_ok (E : io_env) (path : string) (doc : document)
    (fs : files) :
  write_ok E path = true →
  write_json E path doc fs = (<[path := doc]> fs, Ok tt).
Proof. unfold write_json. by intros ->. Qed.

Lemma write_json_fail (E : io_env) (path : string) (doc : document)
    (fs : files) :
  write_ok E path = false →
  write_json E path doc fs
  = (after_failure E path fs, Raise (write_error E path)).
Proof. unfold write_json. by intros ->. Qed.

Lemma after_failure_other (E : io_env) (path other : string) (fs : files) :
  other ≠ path → after_failure E path fs !! other = fs !! other.
Proof.
  intros Hne. unfold after_failure.
  destruct (left_behind E path); [by apply lookup_insert_ne|done].
Qed.

Lemma written_notin (docs : list (string * document)) (fs : files)
    (path : string) :
  path ∉ docs.*1 → written docs fs !! path = fs !! path.
Proof.
  unfold written. revert fs.
  induction docs as [|[p d] docs IH]; intros fs Hp; [done|].
  apply not_elem_of_cons in Hp as [Hne Hp]. simpl.
  rewrite IH by done. by apply lookup_insert_ne.
Qed.

Lemma written_in (docs : list (string * document)) (fs : files)
    (pd : string * document) :
  NoDup docs.*1 → pd ∈ docs → written docs fs !! pd.1 = Some pd.2.
Proof.
  unfold written. revert fs.
  induction docs as [|[p d] docs IH]; intros fs Hnd Hin;
    [by apply elem_of_nil in Hin|].
  rewrite fmap_cons in Hnd. apply NoDup_cons in Hnd as [Hp Hnd].
  cbn [fold_left fst snd].
  apply elem_of_cons in Hin as [->|Hin]; [|by apply IH].
  cbn [fst snd]. rewrite (written_notin docs _ p Hp).
  by apply lookup_insert_eq.
Qed.

Lemma artifacts_files (E : io_env) (self : Storage)
    (geojson : GIS.FeatureCollection) (meetings : list Meeting) :
  (artifacts E self geojson meetings).*1
  = [meetings_file self; petitions_file self; parcels_file self;
     stats_file self].
Proof. done. Qed.

Lemma run_never_raises (E : run_env) (self : Storage) (fs : files) :
  ∃ fs' b, run E self fs = (fs', Ok b).
Proof.
  unfold run, io_try.
  match goal with
  | |- context [match ?body fs with _ => _ end] =>
      destruct (body fs) as [fs' [b|e]]
  end; by eexists _, _.
Qed.

(** The writes of [_save_data] stop at the first one that fails. *)
Lemma save_data_prefix (E : run_env) (self : Storage)
    (geojson : GIS.FeatureCollection) (meetings : list Meeting)
    (fs : files) (before after : list (string * document))
    (path : string) (doc : document) :
  artifacts (io E) self geojson meetings
  = (before ++ (path, doc) :: after)%list →
  Forall (fun pd => write_ok (io E) pd.1 = true) before →
  write_ok (io E) path = false →
  _save_data E self (Some geojson) meetings fs
  = (after_failure (io E) path (written before fs),
     Raise (write_error (io E) path)).
Proof.
  intros Hart Hok Hfail. unfold artifacts in Hart.
  unfold _save_data, io_try, io_bind, io_raise, save_meetings,
    save_petitions, save_parcels_geojson, save_stats.
  destruct before as [|b0 [|b1 [|b2 [|b3 before]]]];
    simplify_eq/=; repeat (apply Forall_cons in Hok as [? Hok]);
    simplify_eq/=.
  - by rewrite write_json_fail.
  - rewrite write_json_ok by done. by rewrite write_json_fail.
  - rewrite !write_json_ok by done. by rewrite write_json_fail.
  - rewrite !write_json_ok by done. by rewrite write_json_fail.
  - by destruct before.
Qed.

Lemma save_data_all (E : run_env) (self : Storage)
    (geojson : GIS.FeatureCollection) (meetings : list Meeting)
    (fs : files) :
  Forall (fun pd => write_ok (io E) pd.1 = true)
    (artifacts (io E) self geojson meetings) →
  _save_data E self (Some geojson) meetings fs
  = (written (artifacts (io E) self geojson meetings) fs, Ok tt).
Proof.
  intros Hok. unfold artifacts in *.
  repeat (apply Forall_cons in Hok as [? Hok]). simpl in *.
  unfold _save_data, io_try, io_bind, io_raise, save_meetings,
    save_petitions, save_parcels_geojson, save_stats.
  by rewrite !write_json_ok by done.
Qed.

Lemma first_failure {A} (f : A → bool) (l : list A) :
  (∃ x, x ∈ l ∧ f x = false) →
  ∃ before x after,
    l = (before ++ x :: after)%list ∧
    Forall (fun y => f y = true) before ∧ f x = false.
Proof.
  induction l as [|y l IH]; intros (x & Hx & Hf).
  - by apply elem_of_nil in Hx.
  - destruct (f y) eqn:Hy.
    + destruct IH as (before & z & after & -> & Hb & Hz).
      { apply elem_of_cons in Hx as [->|Hx]; [congruence|eauto]. }
      exists (y :: before), z, after. split_and!; [done| |done].
      by apply Forall_cons.
    + exists [], y, l. by split_and!.
Qed.

(** C5 (amended).  A run whose calendar fetch succeeds with zero
    meetings ends without raising, processes nothing and writes
    nothing, and reports [False]: the process then exits with
    status 1.  No run raises. *)
Theorem run_zero_meetings (E : run_env) (self : Storage) (fs : files) :
  (∃ fs' b, run E self fs = (fs', Ok b)) ∧
  (scrape_meetings E = Ok [] →
   run E self fs = (fs, Ok false) ∧ exit_status false = 1%Z).
Proof.
  split; [apply run_never_raises|].
  intros Hs. unfold run, io_try, io_bind, io_lift. by rewrite Hs.
Qed.

(** C6 (amended).  The four artifacts are written one after the
    other (meetings, petitions, geometry, statistics) and a write
    that fails prevents the writes that come after it: the artifacts
    before it are written, those after it are not and keep their
    previous content, the exception is passed on and the run reports
    [False].  When all four writes succeed the four files hold the
    new documents. *)
Theorem save_data_sequential (E : run_env) (self : Storage)
    (geojson : GIS.FeatureCollection) (meetings : list Meeting)
    (fs : files) :
  let docs := artifacts (io E) self geojson meetings in
  (Forall (fun pd => write_ok (io E) pd.1 = true) docs →
   _save_data E self (Some geojson) meetings fs
   = (written docs fs, Ok tt)) ∧
  (∀ before path doc after,
      docs = (before ++ (path, doc) :: after)%list →
      Forall (fun pd => write_ok (io E) pd.1 = true) before →
      write_ok (io E) path = false →
      let fs' := after_failure (io E) path (written before fs) in
      _save_data E self (Some geojson) meetings fs
      = (fs', Raise (write_error (io E) path)) ∧
      (∀ pd, pd ∈ before → fs' !! pd.1 = Some pd.2) ∧
      (∀ pd, pd ∈ after → fs' !! pd.1 = fs !! pd.1)) ∧
  (∀ m ms found,
      scrape_meetings E = Ok (m :: ms) →
      process_petitions E (m :: ms) = Ok found →
      (∃ pd, pd ∈ artifacts (io E) self (_fetch_parcel_geometry E found)
                    found
             ∧ write_ok (io E) pd.1 = false) →
      ∃ fs', run E self fs = (fs', Ok false)).
Proof.
  intros docs. split_and!.
  - apply save_data_all.
  - intros before path doc after Hdocs Hok Hfail fs'.
    split; [by eapply save_data_prefix|].
    pose proof (file_names_distinct self) as Hnd.
    rewrite <- (artifacts_files (io E) self geojson meetings) in Hnd.
    fold docs in Hnd. rewrite Hdocs, fmap_app, fmap_cons in Hnd.
    apply NoDup_app in Hnd as (Hndb & Hdisj & Hnda).
    split.
    + intros pd Hpd. subst fs'. rewrite after_failure_other.
      * by apply written_in.
      * intros Heq. apply (Hdisj pd.1); [by apply list_elem_of_fmap_2|].
        rewrite Heq. apply elem_of_cons. by left.
    + intros pd Hpd. subst fs'.
      assert (pd.1 ∉ before.*1) as Hnotin.
      { intros Hin. apply (Hdisj _ Hin). apply elem_of_cons. right.
        by apply list_elem_of_fmap_2. }
      rewrite after_failure_other; [by apply written_notin|].
      intros Heq. apply NoDup_cons in Hnda as [Hpath _]. apply Hpath.
      cbn [fst]. rewrite <- Heq. by apply list_elem_of_fmap_2.
  - intros m ms found Hs Hp Hfail.
    apply (first_failure (fun pd => write_ok (io E) pd.1)) in Hfail
      as (before & [path doc] & after & Hdocs & Hok & Hno).
    unfold run, io_try, io_bind, io_lift. rewrite Hs, Hp.
    rewrite (save_data_prefix E self _ found fs before after path doc)
      by done.
    by eexists.
Qed.

End RunFacts.

(** C5: the claim fails on a run that finds no meeting: the run
    reports [False], not success. *)
Lemma run_zero_meetings_reports_failure :
  Orchestrator.scrape_meetings (Sample.run_with [] []) = Ok [] ∧
  Orchestrator.run (Sample.run_with [] []) Sample.charlotte ∅
  = (∅, Ok false) ∧
  Orchestrator.exit_status false = 1%Z.
Proof. split_and!; reflexivity. Qed.

Lemma run_zero_meetings_witness :
  Orchestrator.run (Sample.run_with [] []) Sample.charlotte ∅
  = (∅, Ok false).
Proof.
  destruct (run_zero_meetings (Sample.run_with [] []) Sample.charlotte ∅)
    as (_ & Hzero).
  apply Hzero. reflexivity.
Defined.

(** C6: the claim fails when the geometry write fails.  The meetings
    and petitions files are written, the statistics file is not, and
    the run reports [False]. *)
Lemma run_geometry_write_fails :
  let E := Sample.run_with Sample.january
             [Storage.parcels_file Sample.charlotte] in
  let fs' :=
    written
      (take 2 (artifacts (Orchestrator.io E) Sample.charlotte
                 (Orchestrator._fetch_parcel_geometry E Sample.january)
                 Sample.january)) ∅ in
  Orchestrator.run E Sample.charlotte ∅ = (fs', Ok false) ∧
  fs' !! Storage.meetings_file Sample.charlotte ≠ None ∧
  fs' !! Storage.petitions_file Sample.charlotte ≠ None ∧
  fs' !! Storage.parcels_file Sample.charlotte = None ∧
  fs' !! Storage.stats_file Sample.charlotte = None.
Proof.
  intros E fs'. split_and!.
  - vm_compute. reflexivity.
  - vm_compute. discriminate.
  - vm_compute. discriminate.
  - vm_compute. reflexivity.
  - vm_compute. reflexivity.
Qed.

Lemma save_data_sequential_witness :
  let E := Sample.run_with Sample.january
             [Storage.parcels_file Sample.charlotte] in
  let geojson := {| GIS.features := [] |} in
  let docs :=
    artifacts (Orchestrator.io E) Sample.charlotte geojson Sample.january in
  Orchestrator._save_data E Sample.charlotte (Some geojson) Sample.january ∅
  = (written (take 2 docs) ∅, Raise OSError)
  ∧ written (take 2 docs) ∅ !! Storage.meetings_file Sample.charlotte
    = Some (Storage.MeetingsDoc Sample.january "2026-01-31T06:00:00" 6)
  ∧ written (take 2 docs) ∅ !! Storage.stats_file Sample.charlotte = None
  ∧ ∃ fs', Orchestrator.run E Sample.charlotte ∅ = (fs', Ok false).
Proof.
  intros E geojson docs.
  destruct (save_data_sequential E Sample.charlotte geojson Sample.january ∅)
    as (_ & Hstop & Hrun).
  destruct (Hstop (take 2 docs)
              (Storage.parcels_file Sample.charlotte)
              (Storage.ParcelsDoc geojson) (drop 3 docs))
    as (Hsave & Hbefore & Hafter).
  - reflexivity.
  - repeat constructor.
  - reflexivity.
  - split_and!.
    + exact Hsave.
    + apply (Hbefore (Storage.meetings_file Sample.charlotte,
                      Storage.MeetingsDoc Sample.january
                        "2026-01-31T06:00:00" 6)).
      apply elem_of_cons. by left.
    + apply (Hafter (Storage.stats_file Sample.charlotte,
                     Storage.StatsDoc
                       (Storage.compute_stats (Orchestrator.io E)
                          Sample.january))).
      apply elem_of_cons. by left.
    + eapply Hrun; [reflexivity|reflexivity|].
      eexists (Storage.parcels_file Sample.charlotte, _). split.
      * apply elem_of_cons; right. apply elem_of_cons; right.
        apply elem_of_cons; left. reflexivity.
      * reflexivity.
Defined.

(** The same failure on a disk that fills up: the geometry file is
    left truncated, the statistics are not written and the run
    reports [False]. *)
Example geometry_write_on_full_disk :
  let E := Sample.run_on_full_disk Sample.january in
  let fs' := (Orchestrator.run E Sample.charlotte ∅).1 in
  (Orchestrator.run E Sample.charlotte ∅).2 = Ok false ∧
  fs' !! Storage.parcels_file Sample.charlotte = Some (Storage.Garbage "{") ∧
  Storage.load_parcels_geojson Sample.charlotte fs'
  = (fs', Raise JSONDecodeError) ∧
  fs' !! Storage.stats_file Sample.charlotte = None.
Proof. intros E fs'. split_and!; vm_compute; reflexivity. Qed.

(** * Part II, continued: further properties of the pipeline *)

Import Props.

(** ** Page texts and the extracted text *)

Section PageFacts.
Import PdfParser.

Lemma append_empty (a b : string) : a ++ b = "" → a = "" ∧ b = "".
Proof. destruct a; simpl; [done|discriminate]. Qed.

Lemma join_cons_nonempty (p : string) (ps : list string) :
  p ≠ "" → join nl (p :: ps) ≠ "".
Proof.
  intros Hp. destruct ps as [|q ps]; simpl; [done|].
  intros [H _]%append_empty. done.
Qed.

Lemma text_parts_nil (n : nat) (pages : list (option string)) :
  text_parts n pages = []
  ↔ Forall (fun p => truthy_opt p = false) pages.
Proof.
  revert n. induction pages as [|p pages IH]; intros n; simpl.
  - split; [constructor|done].
  - destruct (truthy_opt p) eqn:Hp.
    + split; [done|]. intros [H _]%Forall_cons. congruence.
    + rewrite IH. split; [by constructor|]. by intros [_ H]%Forall_cons.
Qed.

Lemma text_parts_head (n : nat) (pages : list (option string)) :
  match text_parts n pages with
  | [] => True
  | h :: _ => h ≠ ""
  end.
Proof.
  revert n. induction pages as [|p pages IH]; intros n; simpl; [done|].
  destruct (truthy_opt p); [|apply IH]. unfold nl. simpl. done.
Qed.

Lemma run_backend_pages (E : env) (b : backend) (path : string)
    (pages : list (option string)) :
  library_pages E b path = Ok pages →
  run_backend E b path = Ok (join nl (text_parts 1 pages), length pages).
Proof.
  destruct b; simpl; unfold _parse_with_pdfplumber, _parse_with_pypdf2,
    extract_pages; by intros ->.
Qed.

(** X1.  A backend function on a document the library reads reports
    the number of pages of the document, pages without text included,
    and returns empty text exactly when no page has text. *)
Theorem backend_count_and_empty (E : env) (b : backend) (path : string)
    (pages : list (option string)) :
  library_pages E b path = Ok pages →
  ∃ t, run_backend E b path = Ok (t, length pages) ∧
       (t = "" ↔ Forall (fun p => truthy_opt p = false) pages).
Proof.
  intros Hp. rewrite (run_backend_pages _ _ _ _ Hp).
  eexists. split; [reflexivity|].
  rewrite <- (text_parts_nil 1).
  pose proof (text_parts_head 1 pages) as Hh.
  destruct (text_parts 1 pages) as [|h ps]; [done|].
  split; [|done]. intros Hj. by apply join_cons_nonempty in Hj.
Qed.

Lemma str_prefix_app (sub rest : string) : String.prefix sub (sub ++ rest) = true.
Proof.
  induction sub as [|c sub IH]; simpl; [by destruct rest|].
  destruct (ascii_dec c c); [done|congruence].
Qed.

Lemma str_prefix_app_r (sub s rest : string) :
  String.prefix sub s = true → String.prefix sub (s ++ rest) = true.
Proof.
  revert s. induction sub as [|c sub IH]; intros s; simpl.
  - intros _. by destruct (s ++ rest).
  - destruct s as [|d s]; simpl; [done|].
    destruct (ascii_dec c d); [apply IH|done].
Qed.

Lemma contains_app_r (sub s rest : string) :
  contains sub s = true → contains sub (s ++ rest) = true.
Proof.
  induction s as [|c s IH]; simpl.
  - rewrite orb_false_r. destruct sub; [|done]. intros _.
    destruct rest; done.
  - intros [Hp|Hc]%orb_true_iff; apply orb_true_iff.
    + left. by apply (str_prefix_app_r sub (String c s)).
    + right. by apply IH.
Qed.

Lemma contains_app_l (sub pre s : string) :
  contains sub s = true → contains sub (pre ++ s) = true.
Proof.
  intros Hs. induction pre as [|c pre IH]; simpl; [done|].
  apply orb_true_iff. by right.
Qed.

Lemma str_prefix_refl (s : string) : String.prefix s s = true.
Proof.
  induction s as [|c s IH]; simpl; [done|].
  destruct (ascii_dec c c); [done|congruence].
Qed.

Lemma contains_refl (s : string) : contains s s = true.
Proof.
  destruct s as [|c s]; [done|].
  cbn [contains]. apply orb_true_iff. left. apply str_prefix_refl.
Qed.

Lemma contains_join (sep p : string) (parts : list string) :
  p ∈ parts → contains p (join sep parts) = true.
Proof.
  induction parts as [|q parts IH]; [by intros ?%elem_of_nil|].
  intros [->|Hin]%elem_of_cons.
  - destruct parts as [|r parts]; cbn [join]; [apply contains_refl|].
    apply contains_app_r, contains_refl.
  - destruct parts as [|r parts]; [by apply elem_of_nil in Hin|].
    cbn [join].
    apply contains_app_l, contains_app_l. by apply IH.
Qed.

Lemma text_parts_elem (n : nat) (pages : list (option string)) (p : string) :
  Some p ∈ pages → truthy p = true → p ∈ text_parts n pages.
Proof.
  revert n. induction pages as [|q pages IH]; intros n;
    [by intros ?%elem_of_nil|].
  intros [<-|Hin]%elem_of_cons Hp; cbn [text_parts truthy_opt].
  - rewrite Hp. apply elem_of_cons; right. apply elem_of_cons; by left.
  - destruct (truthy_opt q).
    + apply elem_of_cons; right. apply elem_of_cons; right. by apply IH.
    + by apply IH.
Qed.

(** X2.  No page text is lost: the text a backend function returns
    contains the text of every page that has text. *)
Theorem backend_keeps_page_text (E : env) (b : backend) (path : string)
    (pages : list (option string)) (p : string) :
  library_pages E b path = Ok pages →
  Some p ∈ pages → truthy p = true →
  contains p (backend_output E b path).1 = true.
Proof.
  intros Hl Hin Hp. unfold backend_output.
  rewrite (run_backend_pages _ _ _ _ Hl). cbn [fst].
  apply contains_join. by apply text_parts_elem.
Qed.

Lemma _extract_metadata_filename (E : env) (path : string) :
  ∃ md, _extract_metadata E path = Ok md ∧
        md !! "filename" = Some (path_name E path).
Proof.
  unfold _extract_metadata.
  destruct (PYPDF2_AVAILABLE E); cbn [negb].
  2:{ eexists. split; [done|]. apply lookup_singleton_eq. }
  destruct (pypdf2_metadata E path) as [[d|]|]; simpl.
  - destruct (decide (d = ∅)).
    + eexists. split; [done|]. apply lookup_singleton_eq.
    + eexists. split; [done|].
      rewrite !lookup_insert_ne by done. apply lookup_singleton_eq.
  - eexists. split; [done|]. apply lookup_singleton_eq.
  - eexists. split; [done|]. apply lookup_singleton_eq.
Qed.

(** X3.  Metadata never blocks text retrieval: whatever the metadata
    reader does, [parse_pdf] invokes the same backends, fails or
    succeeds alike and returns the same text, page count and size; the
    metadata of a result always names the file. *)
Theorem parse_pdf_metadata_best_effort (E : env)
    (md : string → result (option (gmap string string))) (path : string) :
  trace (parse_pdf (with_metadata E md) path) = trace (parse_pdf E path) ∧
  content (outcome (parse_pdf (with_metadata E md) path))
  = content (outcome (parse_pdf E path)) ∧
  (∀ r, outcome (parse_pdf E path) = Ok r →
        metadata r !! "filename" = Some (path_name E path)).
Proof.
  unfold parse_pdf. cbn [with_metadata path_exists PDFPLUMBER_AVAILABLE
    PYPDF2_AVAILABLE].
  destruct (path_exists E path); cbn [negb]; [|done].
  destruct (_extract_metadata_filename E path) as (m1 & Hm1 & Hf1).
  destruct (_extract_metadata_filename (with_metadata E md) path)
    as (m2 & Hm2 & Hf2).
  rewrite Hm1, Hm2.
  pose proof (run_backend_ok E Pdfplumber path) as Hp.
  pose proof (run_backend_ok E PyPDF2 path) as Hf.
  cbn [run_backend] in Hp, Hf.
  change (_parse_with_pdfplumber (with_metadata E md) path)
    with (_parse_with_pdfplumber E path).
  change (_parse_with_pypdf2 (with_metadata E md) path)
    with (_parse_with_pypdf2 E path).
  rewrite Hp, Hf.
  destruct (backend_output E Pdfplumber path) as [t1 n1].
  destruct (backend_output E PyPDF2 path) as [t2 n2].
  unfold invoke, raise, ret.
  destruct (PDFPLUMBER_AVAILABLE E), (PYPDF2_AVAILABLE E); cbn [mbind];
    rewrite ?andb_true_r, ?andb_false_r;
    try destruct (String.length t1 <? 100)%nat; cbn;
    (split_and!; [done|done|try done]); by intros r [= <-].
Qed.

End PageFacts.

Lemma backend_count_and_empty_witness :
  ∃ t, run_backend (Sample.pdfs true true) PdfParser.Pdfplumber
         "data/pdfs/attachments/2025-142/staff_report.pdf" = Ok (t, 2)
       ∧ t ≠ "".
Proof.
  destruct (backend_count_and_empty (Sample.pdfs true true)
              PdfParser.Pdfplumber
              "data/pdfs/attachments/2025-142/staff_report.pdf"
              [Some Sample.staff_report_page; None] eq_refl)
    as (t & Ht & Hiff).
  exists t. split; [exact Ht|].
  intros He. apply Hiff in He. apply Forall_cons in He as [He _].
  discriminate He.
Defined.

Lemma backend_keeps_page_text_witness :
  contains Sample.scan_fallback_page
    (backend_output (Sample.pdfs true true) PdfParser.PyPDF2
       "data/pdfs/attachments/2025-142/scan.pdf").1 = true.
Proof.
  apply (backend_keeps_page_text _ _ _ [Some Sample.scan_fallback_page]).
  - reflexivity.
  - apply elem_of_cons. by left.
  - reflexivity.
Defined.

Lemma parse_pdf_metadata_best_effort_witness :
  let E := Sample.pdfs true true in
  let path := "data/pdfs/attachments/2025-142/staff_report.pdf" in
  content (PdfParser.outcome
             (PdfParser.parse_pdf
                (with_metadata E (fun _ => Raise (Exception "broken"))) path))
  = content (PdfParser.outcome (PdfParser.parse_pdf E path))
  ∧ PdfParser.metadata Sample.staff_report_result !! "filename"
    = Some path.
Proof.
  intros E path.
  destruct (parse_pdf_metadata_best_effort E
              (fun _ => Raise (Exception "broken")) path)
    as (_ & Hc & Hf).
  split; [exact Hc|].
  apply (Hf Sample.staff_report_result). vm_compute. reflexivity.
Defined.

(** ** Batches and directories *)

Section BatchFacts.
Import PinExtractor.
Context {pattern : Type} `{!RegexLib pattern}.

Lemma extract_batch_eq (E : fs_env) (self : PINExtractor)
    (pdf_paths : list string) :
  extract_batch E self pdf_paths
  = Ok (sorted (union_of_parsed E self pdf_paths)).
Proof.
  unfold extract_batch. rewrite collect_eq. cbn [mbind result_bind bind].
  by rewrite (left_id_L ∅ (∪)).
Qed.

Lemma elem_of_union_of_parsed (E : fs_env) (self : PINExtractor)
    (paths : list string) (x : string) :
  x ∈ union_of_parsed E self paths
  ↔ ∃ p, p ∈ paths ∧ parses E p = true ∧ x ∈ document_pins E self p.
Proof.
  unfold union_of_parsed. rewrite elem_of_union_list. split.
  - intros (X & HX & Hx). apply list_elem_of_In, in_map_iff in HX
      as (p & <- & Hp). apply filter_In in Hp as [Hp Hparses].
    exists p. by rewrite list_elem_of_In.
  - intros (p & Hp & Hparses & Hx). exists (document_pins E self p).
    split; [|done]. apply list_elem_of_In, in_map_iff. exists p.
    split; [done|]. apply filter_In. by rewrite <- list_elem_of_In.
Qed.

(** X4.  Scanning a directory is scanning the batch of the PDF files
    it lists. *)
Theorem directory_is_batch (E : fs_env) (self : PINExtractor)
    (directory : string) (pdf_files : list string) :
  dir_exists E directory = true →
  glob_pdf E directory = Ok pdf_files →
  extract_from_directory E self directory
  = extract_batch E self pdf_files.
Proof.
  intros Hd Hg. rewrite extract_batch_eq. unfold extract_from_directory.
  rewrite Hd, Hg. py_step. destruct pdf_files as [|f fs].
  - unfold union_of_parsed. cbn [List.filter List.map union_list foldr].
    by rewrite sorted_empty.
  - rewrite collect_eq. cbn [bind]. by rewrite (left_id_L ∅ (∪)).
Qed.

(** X5.  The result of a batch depends only on which documents are in
    it: listing them in another order, or several times, changes
    nothing. *)
Theorem extract_batch_set (E : fs_env) (self : PINExtractor)
    (paths1 paths2 : list string) :
  (∀ p, p ∈ paths1 ↔ p ∈ paths2) →
  extract_batch E self paths1 = extract_batch E self paths2.
Proof.
  intros Hsame. rewrite !extract_batch_eq. do 2 f_equal.
  apply set_eq. intros x. rewrite !elem_of_union_of_parsed.
  by setoid_rewrite Hsame.
Qed.

End BatchFacts.

Lemma directory_is_batch_witness :
  let self := PinExtractor.__init__ (pattern := Re.regex) None in
  PinExtractor.extract_from_directory Sample.disk self
    "data/pdfs/attachments/2025-142"
  = PinExtractor.extract_batch Sample.disk self Sample.on_disk.
Proof.
  intros self. apply directory_is_batch; reflexivity.
Defined.

Lemma extract_batch_set_witness :
  let self := PinExtractor.__init__ (pattern := Re.regex) None in
  PinExtractor.extract_batch Sample.disk self
    ["data/pdfs/attachments/2025-142/scan.pdf";
     "data/pdfs/attachments/2025-142/staff_report.pdf"]
  = PinExtractor.extract_batch Sample.disk self
      ["data/pdfs/attachments/2025-142/staff_report.pdf";
       "data/pdfs/attachments/2025-142/scan.pdf";
       "data/pdfs/attachments/2025-142/staff_report.pdf"].
Proof.
  intros self. apply extract_batch_set.
  intros p. rewrite !elem_of_cons, !elem_of_nil. tauto.
Defined.

(** ** URLs and date ranges *)

Section UrlFacts.
Import Models Scraper.

Lemma prefix_http_nonempty (u : string) :
  String.prefix "http" u = true → truthy u = true ∧ String.eqb u "#" = false.
Proof.
  destruct u as [|a u]; cbn [String.prefix]; [done|].
  destruct (ascii_dec "h" a) as [<-|]; [|done]. done.
Qed.

Lemma make_absolute_url_some (base_url u v : string) :
  String.prefix "http" base_url = true →
  _make_absolute_url base_url (Some u) = Some v →
  String.prefix "http" v = true.
Proof.
  intros Hb. unfold _make_absolute_url.
  destruct (negb (truthy u) || String.eqb u "#"); [done|].
  destruct (String.prefix "http" u) eqn:Hu; intros [= <-]; [done|].
  by apply str_prefix_app_r.
Qed.

(** X6.  With a base URL that starts with [http], resolving a link
    gives nothing exactly for a missing, empty or ["#"] href; any other
    href gives a URL that starts with [http], an href that already does
    being returned as it is; resolving the result again changes
    nothing. *)
Theorem make_absolute_url_resolves (base_url : string)
    (url : option string) :
  String.prefix "http" base_url = true →
  (_make_absolute_url base_url url = None
   ↔ url = None ∨ url = Some "" ∨ url = Some "#") ∧
  (∀ v, _make_absolute_url base_url url = Some v →
        String.prefix "http" v = true) ∧
  (∀ u, url = Some u → String.prefix "http" u = true →
        _make_absolute_url base_url url = Some u) ∧
  _make_absolute_url base_url (_make_absolute_url base_url url)
  = _make_absolute_url base_url url.
Proof.
  intros Hb. split_and!.
  - destruct url as [u|]; [|by split; [left|]].
    unfold _make_absolute_url.
    destruct u as [|c u]; cbn [truthy negb orb].
    { split; [by right; left|done]. }
    destruct (String.eqb (String c u) "#") eqn:He.
    + apply String.eqb_eq in He as ->. split; [by right; right|done].
    + split.
      * by destruct (String.prefix "http" (String c u)).
      * intros [?|[?|?]]; by simplify_eq/=.
  - intros v. destruct url as [u|]; [|done].
    by apply make_absolute_url_some.
  - intros u -> Hu. unfold _make_absolute_url.
    destruct (prefix_http_nonempty u Hu) as [-> ->]. cbn. by rewrite Hu.
  - destruct (_make_absolute_url base_url url) as [v|] eqn:Hv; [|done].
    destruct url as [u|]; [|done].
    pose proof (make_absolute_url_some _ _ _ Hb Hv) as Hpre.
    unfold _make_absolute_url at 1.
    destruct (prefix_http_nonempty v Hpre) as [-> ->]. cbn.
    by rewrite Hpre.
Qed.

Lemma str_leb_refl (s : string) : String.leb s s = true.
Proof.
  pose proof (reflexivity (R := String.le) s) as H.
  unfold String.le in H. by destruct (String.leb s s).
Qed.

Lemma str_leb_trans (a b c : string) :
  String.leb a b = true → String.leb b c = true → String.leb a c = true.
Proof.
  intros H1 H2.
  assert (String.le a c) as H.
  { transitivity b; unfold String.le; [by rewrite H1|by rewrite H2]. }
  unfold String.le in H. by destruct (String.leb a c).
Qed.

(** X7.  A range whose two bounds are the same non-empty date keeps
    exactly the meetings of that date. *)
Theorem filter_by_date_single_day (meetings : list Meeting) (d : string) :
  truthy d = true →
  _filter_by_date meetings (Some d) (Some d)
  = List.filter (fun m => String.eqb (meeting_date m) d) meetings.
Proof.
  intros Hd. rewrite filter_by_date_strings. apply filter_ext. intros m.
  unfold in_string_range. cbn [truthy_opt default from_option id]. rewrite Hd.
  destruct (String.eqb (meeting_date m) d) eqn:He.
  - apply String.eqb_eq in He as ->. by rewrite str_leb_refl.
  - apply andb_false_iff.
    destruct (String.leb d (meeting_date m)) eqn:H1; [|by left].
    destruct (String.leb (meeting_date m) d) eqn:H2; [|by right].
    rewrite (String.leb_antisym _ _ H1 H2) in He.
    by rewrite String.eqb_refl in He.
Qed.

(** X8.  A range whose start lies after its end keeps no meeting. *)
Theorem filter_by_date_inverted (meetings : list Meeting)
    (start_date end_date : string) :
  truthy start_date = true → truthy end_date = true →
  String.ltb end_date start_date = true →
  _filter_by_date meetings (Some start_date) (Some end_date) = [].
Proof.
  intros Hs He Hlt. rewrite filter_by_date_strings.
  induction meetings as [|m ms IH]; [done|].
  cbn [List.filter]. rewrite IH.
  unfold in_string_range. cbn [truthy_opt default from_option id]. rewrite Hs, He.
  destruct (String.leb start_date (meeting_date m)) eqn:H1; [|done].
  destruct (String.leb (meeting_date m) end_date) eqn:H2; [|done].
  pose proof (str_leb_trans _ _ _ H1 H2) as H.
  unfold String.ltb in Hlt. unfold String.leb in H.
  rewrite String.compare_antisym in H.
  by destruct (String.compare end_date start_date).
Qed.

End UrlFacts.

Lemma make_absolute_url_resolves_witness :
  Scraper._make_absolute_url Sample.base (Some "#") = None
  ∧ Scraper._make_absolute_url Sample.base
      (Scraper._make_absolute_url Sample.base (Some "/View.ashx?M=F"))
    = Scraper._make_absolute_url Sample.base (Some "/View.ashx?M=F").
Proof.
  destruct (make_absolute_url_resolves Sample.base (Some "#") eq_refl)
    as (Hnone & _).
  destruct (make_absolute_url_resolves Sample.base (Some "/View.ashx?M=F")
              eq_refl) as (_ & _ & _ & Hidem).
  split; [|exact Hidem]. apply Hnone. by right; right.
Defined.

Lemma filter_by_date_single_day_witness :
  Scraper._filter_by_date Sample.january (Some "2026-01-20")
    (Some "2026-01-20")
  = [Sample.meeting_on "2026-01-20"].
Proof.
  rewrite (filter_by_date_single_day Sample.january "2026-01-20" eq_refl).
  vm_compute. reflexivity.
Defined.

Lemma filter_by_date_inverted_witness :
  Scraper._filter_by_date Sample.january (Some "2026-01-20")
    (Some "2026-01-10") = [].
Proof. by apply filter_by_date_inverted. Defined.

(** ** Meetings read from the calendar *)

Section ParsedMeetingFacts.
Import Models Scraper.
Context {datetime : Type} `{!DatetimeLib datetime}.

Lemma parse_calendar_row_some (base_url : string) (cells : list cell)
    (m : Meeting) :
  _parse_calendar_row base_url cells = Ok (Some m) →
  ∃ c0 c1 c2 c3 c4 c5 rest link url d,
    cells = c0 :: c1 :: c2 :: c3 :: c4 :: c5 :: rest ∧
    try_formats (cell_text c1) date_formats = Some d ∧ truthy d = true ∧
    cell_a c5 = Some link ∧
    _make_absolute_url base_url (href link) = Some url ∧
    m = {| meeting_type := text_via (a_text <$> cell_a c0) c0;
           meeting_date := d;
           meeting_time := Some (text_via (cell_span c3) c3);
           meeting_location := Some (cell_text c4);
           meeting_details_url := url;
           agenda_url :=
             match rest with
             | c6 :: _ =>
                 match cell_a c6 with
                 | Some a => _make_absolute_url base_url (href a)
                 | None => None
                 end
             | [] => None
             end;
           petitions := [] |}.
Proof.
  unfold _parse_calendar_row.
  destruct (Nat.ltb_spec (length cells) 5) as [Hlt|Hge]; [done|].
  destruct cells as [|c0 [|c1 [|c2 [|c3 [|c4 rest]]]]];
    simpl in Hge; try lia.
  cbn [getitem lookup list_lookup mbind result_bind bind try_except].
  rewrite parse_date_eq. cbn [mbind result_bind bind].
  destruct (try_formats (cell_text c1) date_formats) as [d|] eqn:Hd;
    cbn [truthy_opt negb try_except]; [|done].
  destruct (truthy d) eqn:Ht; cbn [negb try_except]; [|done].
  destruct rest as [|c5 rest]; [done|].
  cbn [length Nat.ltb Nat.leb getitem lookup list_lookup
       mbind result_bind bind].
  destruct (cell_a c5) as [link|] eqn:Hcell; cbn [try_except]; [|done].
  destruct (_make_absolute_url base_url (href link)) as [url|] eqn:Hurl.
  - destruct rest as [|c6 rest];
      cbn [length Nat.ltb Nat.leb getitem lookup list_lookup
           mbind result_bind bind new_Meeting try_except];
      intros [= <-]; by eexists c0, c1, c2, c3, c4, c5, _, link, url, d.
  - destruct rest as [|c6 rest];
      cbn [length Nat.ltb Nat.leb getitem lookup list_lookup
           mbind result_bind bind new_Meeting try_except]; done.
Qed.

(** X9.  With a base URL that starts with [http], every meeting the
    calendar parser produces has no petition yet, a details URL and,
    when present, an agenda URL that start with [http], and a
    non-empty date that is the rendering, by [strftime], of the date
    the first matching format reads in the second column; the raw
    text of the date column is never stored. *)
Theorem parsed_meeting_wellformed (base_url : string) (cells : list cell)
    (m : Meeting) :
  String.prefix "http" base_url = true →
  _parse_calendar_row base_url cells = Ok (Some m) →
  petitions m = [] ∧
  String.prefix "http" (meeting_details_url m) = true ∧
  (∀ a, agenda_url m = Some a → String.prefix "http" a = true) ∧
  truthy (meeting_date m) = true ∧
  ∃ c1 fmt dt,
    cells !! 1 = Some c1 ∧
    first_format (cell_text c1) date_formats fmt dt ∧
    meeting_date m = strftime dt "%Y-%m-%d".
Proof.
  intros Hb Hrow.
  apply parse_calendar_row_some in Hrow
    as (c0 & c1 & c2 & c3 & c4 & c5 & rest & link & url & d
        & -> & Hd & Ht & Hcell & Hurl & ->).
  cbn [petitions meeting_details_url agenda_url meeting_date].
  split_and!; [done| | |done|].
  - destruct (href link) as [u|]; [|done].
    by apply (make_absolute_url_some base_url u).
  - intros a. destruct rest as [|c6 rest]; [done|].
    destruct (cell_a c6) as [l6|]; [|done].
    destruct (href l6) as [u|]; [|done].
    by apply make_absolute_url_some.
  - apply try_formats_first in Hd as (fmt & dt & Hfirst & ->).
    by exists c1, fmt, dt.
Qed.

End ParsedMeetingFacts.

Lemma parsed_meeting_wellformed_witness :
  Scraper._parse_calendar_row (datetime := Datetime.datetime) Sample.base
    (Sample.full_row "1/20/2026")
  = Ok (Some (Sample.meeting_on "2026-01-20"))
  ∧ String.prefix "http"
      (Models.meeting_details_url (Sample.meeting_on "2026-01-20")) = true.
Proof.
  assert (Hrow : Scraper._parse_calendar_row (datetime := Datetime.datetime)
                   Sample.base (Sample.full_row "1/20/2026")
                 = Ok (Some (Sample.meeting_on "2026-01-20")))
    by (vm_compute; reflexivity).
  split; [exact Hrow|].
  by destruct (parsed_meeting_wellformed (datetime := Datetime.datetime)
                 Sample.base (Sample.full_row "1/20/2026")
                 (Sample.meeting_on "2026-01-20") eq_refl Hrow)
    as (_ & Hurl & _).
Defined.

(** ** Statistics *)

Section StatsFacts.
Import Models Storage.

Lemma sum_list_lengths {A B} (f : A → list B) (l : list A) :
  sum_list (List.map (fun x => length (f x)) l) = length (flat_map f l).
Proof.
  unfold sum_list.
  induction l as [|x l IH]; simpl; [done|].
  rewrite length_app. by rewrite IH.
Qed.

Lemma filter_length_le {A} (f : A → bool) (l : list A) :
  (length (List.filter f l) ≤ length l)%nat.
Proof.
  induction l as [|x l IH]; simpl; [done|]. destruct (f x); simpl; lia.
Qed.

Lemma all_petitions_length (meetings : list Meeting) :
  length (all_petitions meetings) = length (flat_map petitions meetings).
Proof.
  unfold all_petitions.
  induction meetings as [|m ms IH]; simpl; [done|].
  rewrite !length_app, IH. by rewrite length_map.
Qed.

Lemma pins_at_least_one (ps : list Petition) :
  (length (List.filter GIS.has_pins ps)
   ≤ sum_list (List.map (fun p => length (default [] (pins p)))
                 (List.filter GIS.has_pins ps)))%nat.
Proof.
  unfold sum_list.
  induction ps as [|p ps IH]; simpl; [done|].
  destruct (GIS.has_pins p) eqn:Hp; [|done]. simpl.
  unfold GIS.has_pins in Hp. destruct (pins p) as [[|pin l]|]; try done.
  simpl. lia.
Qed.

(** X10.  The statistics of a run are consistent with its data: the
    petition count is the number of petitions saved in the petitions
    artifact, the meetings counted as zoning meetings are among the
    meetings, the petitions counted as having identifiers are among
    the petitions, and each of them contributes at least one
    identifier to the identifier count. *)
Theorem compute_stats_consistent (E : io_env) (meetings : list Meeting) :
  let stats := compute_stats E meetings in
  total_meetings stats = length meetings ∧
  total_petitions stats = length (all_petitions meetings) ∧
  (zoning_meetings stats ≤ total_meetings stats)%nat ∧
  (petitions_with_pins stats ≤ total_petitions stats)%nat ∧
  (petitions_with_pins stats ≤ total_pins stats)%nat ∧
  (total_pins stats = 0 ↔ petitions_with_pins stats = 0).
Proof.
  cbn. rewrite sum_list_lengths, all_petitions_length.
  pose proof (pins_at_least_one (flat_map petitions meetings)) as Hp.
  split_and!; [done|done|apply filter_length_le|apply filter_length_le|
               done|].
  split; [lia|].
  intros H0. apply length_zero_iff_nil in H0. by rewrite H0.
Qed.

End StatsFacts.

(** ** Saving, loading and the outcome of a run *)

Section PersistenceFacts.
Import Models Storage Orchestrator.

Lemma files_ne (self : Storage) :
  meetings_file self ≠ petitions_file self ∧
  meetings_file self ≠ parcels_file self ∧
  meetings_file self ≠ stats_file self ∧
  petitions_file self ≠ parcels_file self ∧
  petitions_file self ≠ stats_file self ∧
  parcels_file self ≠ stats_file self.
Proof.
  unfold meetings_file, petitions_file, parcels_file, stats_file.
  split_and!; intros H; by apply (inj (String.app _)) in H.
Qed.

Lemma loads_depend_on_files (self : Storage) (fs1 fs2 : files) :
  (fs1 !! meetings_file self = fs2 !! meetings_file self →
   (load_meetings self fs1).2 = (load_meetings self fs2).2) ∧
  (fs1 !! petitions_file self = fs2 !! petitions_file self →
   (load_petitions self fs1).2 = (load_petitions self fs2).2) ∧
  (fs1 !! stats_file self = fs2 !! stats_file self →
   (get_stats self fs1).2 = (get_stats self fs2).2) ∧
  (fs1 !! parcels_file self = fs2 !! parcels_file self →
   (load_parcels_geojson self fs1).2 = (load_parcels_geojson self fs2).2).
Proof.
  unfold load_meetings, load_petitions, get_stats, load_parcels_geojson.
  split_and!; intros ->;
    match goal with
    | |- context [fs2 !! ?f] => by destruct (fs2 !! f) as [[]|]
    end.
Qed.

(** X11.  Each save, when its write succeeds, is read back by the
    matching load exactly as saved, and leaves what the other three
    loads return unchanged. *)
Theorem save_then_load (E : io_env) (self : Storage)
    (meetings : list Meeting) (geojson : GIS.FeatureCollection)
    (fs : files) :
  let lm := (load_meetings self fs).2 in
  let lp := (load_petitions self fs).2 in
  let ls := (get_stats self fs).2 in
  let lg := (load_parcels_geojson self fs).2 in
  (write_ok E (meetings_file self) = true →
   loads self (save_meetings E self meetings fs).1
   = (Ok meetings, lp, ls, lg)) ∧
  (write_ok E (petitions_file self) = true →
   loads self (save_petitions E self meetings fs).1
   = (lm, Ok (all_petitions meetings), ls, lg)) ∧
  (write_ok E (stats_file self) = true →
   loads self (save_stats E self meetings fs).1
   = (lm, lp, Ok (compute_stats E meetings), lg)) ∧
  (write_ok E (parcels_file self) = true →
   loads self (save_parcels_geojson E self geojson fs).1
   = (lm, lp, ls, Ok (ParcelsDoc geojson))).
Proof.
  destruct (files_ne self) as (H1 & H2 & H3 & H4 & H5 & H6).
  intros lm lp ls lg. subst lm lp ls lg.
  unfold loads, save_meetings, save_petitions, save_stats,
    save_parcels_geojson, write_json.
  split_and!; intros ->; cbn [fst];
    match goal with
    | |- context [<[?f := ?d]> fs] =>
        destruct (loads_depend_on_files self (<[f := d]> fs) fs)
          as (Hm & Hp & Hs & Hg)
    end;
    rewrite ?Hm, ?Hp, ?Hs, ?Hg by (by apply lookup_insert_ne);
    unfold load_meetings, load_petitions, get_stats, load_parcels_geojson;
    by rewrite lookup_insert_eq.
Qed.

End PersistenceFacts.

Lemma save_then_load_witness :
  let E := Orchestrator.io (Sample.run_with Sample.january []) in
  loads Sample.charlotte
    (Storage.save_petitions E Sample.charlotte Sample.january ∅).1
  = (Ok [], Ok (Storage.all_petitions Sample.january),
     Ok Models.default_stats,
     Ok (Storage.ParcelsDoc {| GIS.features := [] |})).
Proof.
  intros E.
  destruct (save_then_load E Sample.charlotte Sample.january
              {| GIS.features := [] |} ∅) as (_ & Hp & _).
  by apply Hp.
Defined.

Section RunOutcome.
Import Models Storage Orchestrator.

Lemma written_artifacts_lookup (E : io_env) (self : Storage)
    (geojson : GIS.FeatureCollection) (meetings : list Meeting)
    (fs : files) :
  let fs' := written (artifacts E self geojson meetings) fs in
  fs' !! stats_file self = Some (StatsDoc (compute_stats E meetings)) ∧
  fs' !! petitions_file self
  = Some (PetitionsDoc (all_petitions meetings) (now E)
            (length (all_petitions meetings))).
Proof.
  destruct (files_ne self) as (H1 & H2 & H3 & H4 & H5 & H6).
  unfold written, artifacts. cbn [fold_left fst snd]. split.
  - by rewrite lookup_insert_eq.
  - by rewrite !lookup_insert_ne, lookup_insert_eq by done.
Qed.

Lemma print_summary_after_save (E : io_env) (self : Storage)
    (geojson : GIS.FeatureCollection) (meetings : list Meeting)
    (fs : files) :
  let fs' := written (artifacts E self geojson meetings) fs in
  _print_summary self fs' = (fs', Ok tt).
Proof.
  intros fs'.
  destruct (written_artifacts_lookup E self geojson meetings fs)
    as [Hs Hp].
  fold fs' in Hs, Hp.
  unfold _print_summary, io_bind, get_stats, load_petitions, io_ret.
  by rewrite Hs, Hp.
Qed.

(** X12.  A run reports [True] exactly when the scrape yields at
    least one meeting, the petition processing does not raise and all
    four artifacts can be written; the files then hold the four new
    documents.  A run that stops before the save step leaves every
    file as it was. *)
Theorem run_reports_success (E : run_env) (self : Storage) (fs : files) :
  ((run E self fs).2 = Ok true ↔
   ∃ m ms found,
     scrape_meetings E = Ok (m :: ms) ∧
     process_petitions E (m :: ms) = Ok found ∧
     Forall (fun pd => write_ok (io E) pd.1 = true)
       (artifacts (io E) self (_fetch_parcel_geometry E found) found)) ∧
  (∀ m ms found,
     scrape_meetings E = Ok (m :: ms) →
     process_petitions E (m :: ms) = Ok found →
     Forall (fun pd => write_ok (io E) pd.1 = true)
       (artifacts (io E) self (_fetch_parcel_geometry E found) found) →
     (run E self fs).1
     = written
         (artifacts (io E) self (_fetch_parcel_geometry E found) found)
         fs) ∧
  ((∀ found, scrape_meetings E = Ok found →
             raises (process_petitions E found) ∨ found = []) →
   run E self fs = (fs, Ok false)).
Proof.
  assert (Hsucc : ∀ m ms found,
     scrape_meetings E = Ok (m :: ms) →
     process_petitions E (m :: ms) = Ok found →
     Forall (fun pd => write_ok (io E) pd.1 = true)
       (artifacts (io E) self (_fetch_parcel_geometry E found) found) →
     run E self fs
     = (written
          (artifacts (io E) self (_fetch_parcel_geometry E found) found)
          fs, Ok true)).
  { intros m ms found Hs Hp Hok.
    unfold run, io_try, io_bind, io_lift. rewrite Hs, Hp.
    rewrite save_data_all by done.
    by rewrite print_summary_after_save. }
  split_and!.
  - split.
    + intros Hrun.
      destruct (scrape_meetings E) as [[|m ms]|e] eqn:Hs;
        [by unfold run, io_try, io_bind, io_lift in Hrun; rewrite Hs in Hrun
        | |by unfold run, io_try, io_bind, io_lift in Hrun; rewrite Hs in Hrun].
      destruct (process_petitions E (m :: ms)) as [found|e] eqn:Hp;
        [|by unfold run, io_try, io_bind, io_lift in Hrun;
             rewrite Hs, Hp in Hrun].
      exists m, ms, found. split_and!; [done..|].
      destruct (decide (Forall (fun pd => write_ok (io E) pd.1 = true)
        (artifacts (io E) self (_fetch_parcel_geometry E found) found)))
        as [|Hno]; [done|].
      apply not_Forall_Exists in Hno; [|intros ?; apply _].
      apply Exists_exists in Hno as (pd & Hpd & Hw).
      apply not_true_is_false in Hw.
      destruct (first_failure (fun pd => write_ok (io E) pd.1)
                  (artifacts (io E) self (_fetch_parcel_geometry E found)
                     found))
        as (before & [path doc] & after & Hdocs & Hok & Hfail);
        [by exists pd|].
      unfold run, io_try, io_bind, io_lift in Hrun.
      rewrite Hs, Hp in Hrun.
      by rewrite (save_data_prefix E self _ found fs before after path doc)
        in Hrun by done.
    + intros (m & ms & found & Hs & Hp & Hok).
      by rewrite (Hsucc m ms found).
  - intros m ms found Hs Hp Hok. by rewrite (Hsucc m ms found).
  - intros Hearly. unfold run, io_try, io_bind, io_lift.
    destruct (scrape_meetings E) as [[|m ms]|e] eqn:Hs; [done| |done].
    destruct (Hearly _ eq_refl) as [Hr|]; [|done].
    by destruct (process_petitions E (m :: ms)).
Qed.

End RunOutcome.

Lemma run_reports_success_witness :
  let E := Sample.run_with Sample.january [] in
  (Orchestrator.run E Sample.charlotte ∅).1
  = written
      (artifacts (Orchestrator.io E) Sample.charlotte
         (Orchestrator._fetch_parcel_geometry E Sample.january)
         Sample.january) ∅.
Proof.
  intros E.
  destruct (run_reports_success E Sample.charlotte ∅) as (_ & Hfiles & _).
  apply (Hfiles (Sample.meeting_on "2026-01-05")
           (tail Sample.january) Sample.january); [reflexivity..|].
  repeat constructor.
Defined.

Section SummaryFacts.
Import Models Storage Orchestrator Summary.

Lemma sum_list_app (l k : list nat) :
  sum_list (l ++ k)%list = (sum_list l + sum_list k)%nat.
Proof.
  unfold sum_list. induction l as [|x l IH]; simpl; [done|].
  rewrite IH. lia.
Qed.

Lemma no_pins_length (p : Petition) :
  GIS.has_pins p = false → length (default [] (pins p)) = 0%nat.
Proof. unfold GIS.has_pins. by destruct (pins p) as [[|]|]. Qed.

Lemma summary_counts (meetings : list Meeting) :
  petitions_with_pins_of (all_petitions meetings)
  = length (List.filter GIS.has_pins (flat_map petitions meetings)) ∧
  total_pins_of (all_petitions meetings)
  = sum_list
      (List.map (fun p => length (default [] (pins p)))
         (List.filter GIS.has_pins (flat_map petitions meetings))).
Proof.
  unfold petitions_with_pins_of, total_pins_of, all_petitions.
  induction meetings as [|m meetings [IH1 IH2]]; [done|].
  cbn [flat_map].
  rewrite !List.filter_app, !List.map_app, !List.length_app, !sum_list_app,
    IH1, IH2.
  split; f_equal.
  - generalize (petitions m) as l.
    induction l as [|p l IH]; [done|]. cbn [List.map List.filter petition].
    destruct (GIS.has_pins p); cbn [length]; by rewrite IH.
  - generalize (petitions m) as l.
    induction l as [|p l IH]; [done|].
    cbn [List.map List.filter petition].
    destruct (GIS.has_pins p) eqn:Hp; cbn [List.map];
      unfold sum_list in *; cbn [fold_right]; rewrite IH; [done|].
    by rewrite no_pins_length.
Qed.

(** X13.  After a save that did not raise, the summary reads back the
    statistics of the saved meetings, and the two counts it derives
    from the stored petitions (petitions with identifiers, identifiers
    in total) equal the corresponding fields of those statistics. *)
Theorem summary_agrees_with_stats (E : run_env) (self : Storage)
    (_parcel_geojson : option GIS.FeatureCollection)
    (meetings : list Meeting) (fs fs' : files) :
  _save_data E self _parcel_geojson meetings fs = (fs', Ok tt) →
  let stats := compute_stats (io E) meetings in
  summary self fs'
  = (fs', Ok (stats, petitions_with_pins stats, total_pins stats)).
Proof.
  destruct (files_ne self) as (H1 & H2 & H3 & H4 & H5 & H6).
  destruct (summary_counts meetings) as [Hc1 Hc2].
  intros Hsave stats.
  unfold _save_data, io_try, io_bind, io_raise, io_ret, save_meetings,
    save_petitions, save_parcels_geojson, save_stats, write_json in Hsave.
  assert (fs' !! stats_file self = Some (StatsDoc stats) ∧
          fs' !! petitions_file self
          = Some (PetitionsDoc (all_petitions meetings) (now (io E))
                    (length (all_petitions meetings)))) as [Hs Hp].
  { destruct (write_ok (io E) (meetings_file self)); [|done].
    destruct (write_ok (io E) (petitions_file self)); [|done].
    destruct _parcel_geojson as [geojson|].
    - destruct (write_ok (io E) (parcels_file self)); [|done].
      destruct (write_ok (io E) (stats_file self)); [|done].
      simplify_eq. split.
      + by rewrite lookup_insert_eq.
      + by rewrite !lookup_insert_ne, lookup_insert_eq by done.
    - unfold io_ret in Hsave.
      destruct (write_ok (io E) (stats_file self)); [|done].
      simplify_eq. split.
      + by rewrite lookup_insert_eq.
      + by rewrite !lookup_insert_ne, lookup_insert_eq by done. }
  unfold summary, io_bind, io_ret, get_stats, load_petitions.
  rewrite Hs, Hp, Hc1, Hc2. done.
Qed.

End SummaryFacts.

Lemma summary_agrees_with_stats_witness :
  let E := Sample.run_with Sample.january [] in
  let fs' := written
      (artifacts (Orchestrator.io E) Sample.charlotte
         {| GIS.features := [] |} Sample.january) ∅ in
  Summary.summary Sample.charlotte fs'
  = (fs', Ok (Storage.compute_stats (Orchestrator.io E) Sample.january,
              0%nat, 0%nat)).
Proof.
  intros E fs'.
  apply (summary_agrees_with_stats E Sample.charlotte
           (Some {| GIS.features := [] |}) Sample.january ∅ fs').
  reflexivity.
Defined.

Section AllMeetingsFacts.
Import Models GIS GisClient.

(** What one lookup does to the loop state, whatever the service
    answers. *)
Lemma fetch_pin_cases (E : gis_env) (p : Petition) (md mt : string)
    (st : fetch_state) (pin : string) :
  (∃ new,
      fetch_pin E p md mt st pin
      = Ok {| requests := S (requests st);
              all_features := (all_features st ++ new)%list;
              total_parcels := S (total_parcels st);
              total_found := total_found st + length new |} ∧
      (length new ≤ 1)%nat ∧
      Forall (fun f => ∃ d, properties f = PropsObject d ∧
                ∀ k v, (k, v) ∈ petition_metadata p md mt →
                       d !! k = Some v) new) ∨
  (fetch_pin E p md mt st pin = Raise AttributeError ∧
   ∃ parcel rest v,
     gis_query E (requests st) pin = Ok (parcel :: rest) ∧
     properties parcel = PropsValue v).
Proof.
  unfold fetch_pin, get_parcel_by_pid.
  destruct (gis_query E (requests st) pin) as [[|parcel rest]|e] eqn:Hq;
    cbn [mbind result_bind bind try_except].
  - left. exists []. rewrite app_nil_r, Nat.add_0_r.
    split_and!; [done|simpl; lia|constructor].
  - unfold add_petition_metadata.
    destruct (properties parcel) as [|v|d] eqn:Hd;
      cbn [mbind result_bind bind try_except].
    + left. exists []. rewrite app_nil_r, Nat.add_0_r.
      split_and!; [done|simpl; lia|constructor].
    + rewrite Hd. right. split; [done|]. by exists parcel, rest, v.
    + rewrite Hd. left. eexists [_]. cbn [bind length].
      rewrite Nat.add_1_r. split_and!; [done|lia|].
      apply Forall_singleton. eexists. split; [done|].
      intros k v Hin. apply dict_update_in; [|done].
      apply petition_metadata_NoDup.
  - left. exists []. rewrite app_nil_r, Nat.add_0_r.
    split_and!; [done|simpl; lia|constructor].
Qed.

Lemma fetch_pins_cases (E : gis_env) (p : Petition) (md mt : string)
    (pins : list string) (st : fetch_state) :
  (∃ st' new,
      fetch_pins E p md mt st pins = Ok st' ∧
      all_features st' = (all_features st ++ new)%list ∧
      (length new ≤ length pins)%nat ∧
      Forall (fun f => ∃ d, properties f = PropsObject d ∧
                ∀ k v, (k, v) ∈ petition_metadata p md mt →
                       d !! k = Some v) new) ∨
  (fetch_pins E p md mt st pins = Raise AttributeError ∧ bad_reply E).
Proof.
  revert st. induction pins as [|pin pins IH]; intros st.
  - left. exists st, []. rewrite app_nil_r. by split_and!.
  - cbn [fetch_pins].
    destruct (fetch_pin_cases E p md mt st pin)
      as [(new & -> & Hlen & Hnew)|(-> & parcel & rest & v & Hq & Hv)].
    + cbn [mbind result_bind bind].
      match goal with
      | |- context [fetch_pins E p md mt ?st1 pins] =>
          destruct (IH st1)
            as [(st' & new' & -> & Hf & Hlen' & Hnew')|(-> & Hbad)]
      end.
      * left. exists st', (new ++ new')%list.
        cbn [all_features] in Hf.
        split_and!; [done|by rewrite Hf, app_assoc| |by apply Forall_app].
        rewrite length_app. simpl. lia.
      * by right.
    + right. split; [done|]. by exists (requests st), pin, parcel, rest, v.
Qed.

Lemma fetch_loop_cases (E : gis_env) (md mt : string) (ps : list Petition)
    (st : fetch_state) :
  (∃ st' new,
      fetch_loop E md mt st ps = Ok st' ∧
      all_features st' = (all_features st ++ new)%list ∧
      (length new
       ≤ length (flat_map (fun p => List.map (fun pin => (p, pin))
                                       (default [] (pins p))) ps))%nat ∧
      Forall (fun f => ∃ p d, p ∈ ps ∧ properties f = PropsObject d ∧
                ∀ k v, (k, v) ∈ petition_metadata p md mt →
                       d !! k = Some v) new) ∨
  (fetch_loop E md mt st ps = Raise AttributeError ∧ bad_reply E).
Proof.
  revert st. induction ps as [|p ps IH]; intros st.
  - left. exists st, []. rewrite app_nil_r. by split_and!.
  - cbn [fetch_loop flat_map].
    destruct (fetch_pins_cases E p md mt (default [] (pins p)) st)
      as [(st1 & new & -> & Hf & Hlen & Hnew)|(-> & Hbad)]; [|by right].
    cbn [mbind result_bind bind].
    destruct (IH st1)
      as [(st' & new' & -> & Hf' & Hlen' & Hnew')|(-> & Hbad)];
      [|by right].
    left. exists st', (new ++ new')%list.
    split_and!; [done|by rewrite Hf', Hf, app_assoc| |].
    + rewrite !length_app, length_map in *. lia.
    + apply Forall_app. split.
      * eapply Forall_impl; [exact Hnew|].
        intros f (d & Hd & Hk). exists p, d.
        split_and!; [apply elem_of_cons; by left|done|done].
      * eapply Forall_impl; [exact Hnew'|].
        intros f (q & d & Hq & Hd & Hk). exists q, d.
        split_and!; [apply elem_of_cons; by right|done|done].
Qed.

Lemma fetch_parcels_for_petitions_cases (E : gis_env) (n0 : nat)
    (meeting : Meeting) :
  (∃ fc st,
      fetch_parcels_for_petitions E n0 (petitions meeting)
        (meeting_date meeting) (meeting_type meeting) = Ok (fc, st) ∧
      (length (features fc) ≤ length (jobs (petitions meeting)))%nat ∧
      Forall (fun f => ∃ p, p ∈ petitions meeting ∧ has_pins p = true ∧
                            tagged meeting p f) (features fc)) ∨
  (fetch_parcels_for_petitions E n0 (petitions meeting)
     (meeting_date meeting) (meeting_type meeting) = Raise AttributeError
   ∧ bad_reply E).
Proof.
  unfold fetch_parcels_for_petitions, jobs.
  destruct (List.filter has_pins (petitions meeting)) as [|p ps] eqn:Hps.
  - left. eexists _, _. split; [done|]. split; [done|constructor].
  - match goal with
    | |- context [fetch_loop E _ _ ?init _] =>
        destruct (fetch_loop_cases E (meeting_date meeting)
                    (meeting_type meeting) (p :: ps) init)
          as [(st & new & -> & Hf & Hlen & Hnew)|(-> & Hbad)]; [|by right]
    end.
    left. cbn [mbind result_bind bind]. eexists _, _. split; [done|].
    cbn [features all_features app] in *. rewrite Hf. split; [done|].
    eapply Forall_impl; [exact Hnew|].
    intros f (q & d & Hq & Hd & Hk). exists q.
    rewrite <- Hps in Hq. apply list_elem_of_In, filter_In in Hq as [Hq Hh].
    split_and!; [by apply list_elem_of_In|done|by exists d].
Qed.

Lemma fetch_meetings_cases (E : gis_env) (meetings : list Meeting)
    (n0 : nat) (acc : list feature) :
  (∃ new,
      fetch_meetings E n0 meetings acc = Ok (acc ++ new)%list ∧
      (length new ≤ length (identifiers meetings))%nat ∧
      Forall (fun f => ∃ m p, m ∈ meetings ∧ p ∈ petitions m ∧
                              has_pins p = true ∧ tagged m p f) new) ∨
  (fetch_meetings E n0 meetings acc = Raise AttributeError ∧ bad_reply E).
Proof.
  revert n0 acc. induction meetings as [|m meetings IH]; intros n0 acc.
  - left. exists []. rewrite app_nil_r. by split_and!.
  - cbn [fetch_meetings]. unfold identifiers. cbn [flat_map].
    destruct (fetch_parcels_for_petitions_cases E n0 m)
      as [(fc & st & -> & Hlen & Hnew)|(-> & Hbad)]; [|by right].
    cbn [mbind result_bind bind fst snd].
    destruct (IH (requests st) (acc ++ features fc)%list)
      as [(new' & -> & Hlen' & Hnew')|(-> & Hbad)]; [|by right].
    left. exists (features fc ++ new')%list.
    split_and!; [by rewrite app_assoc| |].
    + rewrite !length_app. unfold identifiers in Hlen'. lia.
    + apply Forall_app. split.
      * eapply Forall_impl; [exact Hnew|].
        intros f (p & Hp & Hh & Ht). exists m, p.
        split_and!; [apply elem_of_cons; by left|done..].
      * eapply Forall_impl; [exact Hnew'|].
        intros f (m' & p & Hm & Hp & Hh & Ht). exists m', p.
        split_and!; [apply elem_of_cons; by right|done..].
Qed.

(** X14.  When the geometry fetch over all meetings returns, there
    are at most as many features as identifiers on the petitions, and
    every feature carries the nine metadata entries of a petition with
    identifiers of one of the meetings, with the date and type of
    that meeting. *)
Theorem fetch_all_meetings_features (E : gis_env) (meetings : list Meeting)
    (fc : FeatureCollection) :
  fetch_parcels_for_all_meetings E meetings = Ok fc →
  (length (features fc) ≤ length (identifiers meetings))%nat ∧
  Forall (fun f => ∃ m p, m ∈ meetings ∧ p ∈ petitions m ∧
                          has_pins p = true ∧ tagged m p f)
    (features fc).
Proof.
  unfold fetch_parcels_for_all_meetings.
  destruct (fetch_meetings_cases E meetings 0 [])
    as [(new & -> & Hlen & Hnew)|(-> & _)]; [|done].
  cbn [mbind result_bind bind app]. intros [= <-]. by cbn [features].
Qed.

(** X15.  The only exception the geometry fetch over all meetings
    lets through is [AttributeError], and only when some reply leads
    with a parcel whose properties are not a JSON object: failed
    requests and empty replies never abort it.  The run then keeps
    none of the parcels, not even those fetched before. *)
Theorem fetch_all_meetings_raises (E : Orchestrator.run_env)
    (meetings : list Meeting) (e : exn) :
  fetch_parcels_for_all_meetings (Orchestrator.gis E) meetings = Raise e →
  e = AttributeError ∧ bad_reply (Orchestrator.gis E) ∧
  Orchestrator._fetch_parcel_geometry E meetings = {| features := [] |}.
Proof.
  unfold Orchestrator._fetch_parcel_geometry. intros Hr. rewrite Hr.
  unfold fetch_parcels_for_all_meetings in Hr.
  destruct (fetch_meetings_cases (Orchestrator.gis E) meetings 0 [])
    as [(new & Hn & _)|(Hn & Hbad)]; rewrite Hn in Hr; [done|].
  cbn [mbind result_bind bind] in Hr. by simplify_eq.
Qed.



End AllMeetingsFacts.

Lemma fetch_all_meetings_features_witness :
  let fc := {| GIS.features :=
                 [ {| GIS.properties :=
                        GIS.PropsObject
                          (GIS.dict_update
                             (<["PID" := GIS.JStr "22310197"]>
                              (<["NC_PIN" := GIS.JStr "4447181490"]>
                               (<["status" := GIS.JStr "ACTIVE"]> ∅)))
                             (GIS.petition_metadata
                                (Sample.petition_of (Some "2025-142")
                                   ["22310197"; "00000000"])
                                "2026-01-20" "Zoning Committee"));
                      GIS.geometry := GIS.geometry Sample.parcel_22310197
                   |} ] |} in
  (length (GIS.features fc) ≤ length (identifiers [Fixtures.hearing]))%nat.
Proof.
  intros fc.
  apply (fetch_all_meetings_features Sample.parcels [Fixtures.hearing] fc).
  reflexivity.
Defined.

Lemma fetch_all_meetings_raises_witness :
  Orchestrator._fetch_parcel_geometry
    {| Orchestrator.scrape_meetings := Ok [Fixtures.hearing];
       Orchestrator.process_petitions := fun ms => Ok ms;
       Orchestrator.gis := Fixtures.null_properties;
       Orchestrator.io := Orchestrator.io (Sample.run_with [] []) |}
    [Fixtures.hearing]
  = {| GIS.features := [] |}.
Proof.
  eapply (fetch_all_meetings_raises _ [Fixtures.hearing] AttributeError).
  reflexivity.
Defined.

Ltac set_elem :=
  try apply set_eq; intros ?;
  rewrite ?elem_of_union, ?elem_of_list_to_set, ?elem_of_sorted,
    ?elem_of_nil, ?elem_of_empty; tauto.

Section ScraperPinsFacts.
Import PinExtractor ScraperPins.
Context {pattern : Type} `{!RegexLib pattern}.
Variable joinpath : string → string → string.

Lemma update_pins_mono (ps : list pattern) (text : string)
    (pins : gset string) :
  pins ⊆ (update_pins ps text pins).1.
Proof.
  revert pins. induction ps as [|pat ps IH]; intros pins; [done|].
  cbn [update_pins].
  destruct (re_findall pat text) as [[|m ms]|e]; [apply IH| |done].
  destruct (mapM normalize (m :: ms)) as [normalized|e]; [|done].
  etrans; [|apply IH]. apply union_subseteq_l.
Qed.

(** The pattern loop of the scraper and the one of the extractor add
    the same identifiers when no pattern raises. *)
Lemma update_pins_scan (ps : list pattern) (text : string)
    (pins found : gset string) :
  scan_patterns ps text pins = Ok found →
  update_pins ps text pins = (found, Ok tt).
Proof.
  revert pins. induction ps as [|pat ps IH]; intros pins.
  - by intros [= <-].
  - cbn [scan_patterns update_pins].
    destruct (re_findall pat text) as [[|m ms]|e];
      cbn [mbind result_bind bind]; [apply IH| |done].
    destruct (mapM normalize (m :: ms)) as [normalized|e];
      cbn [bind]; [apply IH|done].
Qed.

Lemma scan_patterns_from (ps : list pattern) (text : string)
    (pins found : gset string) :
  scan_patterns ps text ∅ = Ok found →
  scan_patterns ps text pins = Ok (pins ∪ found).
Proof.
  intros Hs.
  assert (∀ acc, scan_patterns ps text acc
                 = (s ← scan_patterns ps text ∅; Ok (acc ∪ s))) as Hgen.
  { clear. induction ps as [|pat ps IH]; intros acc.
    - simpl. by rewrite (right_id_L ∅ (∪)).
    - rewrite !scan_patterns_cons.
      destruct (pattern_pins pat text) as [s|]; py_step; [|done].
      rewrite (IH (acc ∪ s)), (IH (∅ ∪ s)).
      destruct (scan_patterns ps text ∅) as [s'|]; py_step; [|done].
      f_equal. by rewrite (left_id_L ∅ (∪)), (assoc_L (∪)). }
  rewrite Hgen, Hs. done.
Qed.

Lemma scan_pdf_contains (E : fs_env) (pins : gset string) (f : string) :
  pins ∪ document_pins E (__init__ None) f ⊆ scan_pdf E pins f.
Proof.
  unfold document_pins, scan_pdf. rewrite extract_from_pdf_eq.
  destruct (PdfParser.path_exists E f) eqn:Hex.
  - destruct (PdfParser.outcome _) as [r|]; [|set_elem].
    destruct (truthy (PdfParser.text r)); cbn [negb]; [|set_elem].
    cbn [__init__ patterns].
    destruct (scan_patterns DEFAULT_PATTERNS (PdfParser.text r) ∅)
      as [found|] eqn:Hs.
    + rewrite (update_pins_scan _ _ _ _
                 (scan_patterns_from _ _ pins _ Hs)). cbn [fst].
      intros x. rewrite !elem_of_union, elem_of_list_to_set, elem_of_sorted.
      tauto.
    + etrans; [|apply update_pins_mono]. set_elem.
  - destruct (PdfParser.outcome _) as [r|]; [|set_elem].
    destruct (truthy (PdfParser.text r)); cbn [negb]; [|set_elem].
    etrans; [|apply update_pins_mono]. set_elem.
Qed.

Lemma scan_pdf_agrees (E : fs_env) (pins : gset string) (f : string) :
  (∀ pat text, pat ∈ DEFAULT_PATTERNS →
               ∃ l, re_findall pat text = Ok (MStr <$> l)) →
  scan_pdf E pins f = pins ∪ document_pins E (__init__ None) f.
Proof.
  intros Hre.
  assert (∀ ps text, ps ⊆ DEFAULT_PATTERNS →
                     ∃ found, scan_patterns ps text ∅ = Ok found) as Hok.
  { intros ps text. induction ps as [|pat ps IH]; intros Hps.
    - by eexists.
    - rewrite scan_patterns_cons. unfold pattern_pins.
      destruct (Hre pat text) as (l & ->);
        [apply Hps, elem_of_cons; by left|].
      cbn [mbind result_bind bind].
      assert (mapM normalize (MStr <$> l)
              = Ok (replace "-" "" <$> l)) as ->.
      { clear. induction l as [|x l IHl]; [done|].
        cbn [fmap list_fmap mapM normalize]. cbn [fmap list_fmap] in IHl.
        by rewrite IHl. }
      destruct IH as (found & Hf);
        [intros y Hy; apply Hps, elem_of_cons; by right|]. py_step.
      rewrite (scan_patterns_from _ _ _ _ Hf). by eexists. }
  unfold document_pins, scan_pdf. rewrite extract_from_pdf_eq.
  destruct (PdfParser.path_exists E f) eqn:Hex.
  - destruct (PdfParser.outcome _) as [r|]; [|set_elem].
    destruct (truthy (PdfParser.text r)); cbn [negb]; [|set_elem].
    cbn [__init__ patterns].
    destruct (Hok DEFAULT_PATTERNS (PdfParser.text r)) as (found & Hs);
      [done|].
    rewrite Hs, (update_pins_scan _ _ _ _
                   (scan_patterns_from _ _ pins _ Hs)). cbn [fst].
    apply set_eq. intros x.
    rewrite !elem_of_union, elem_of_list_to_set, elem_of_sorted. tauto.
  - unfold PdfParser.parse_pdf. rewrite Hex. cbn. set_elem.
Qed.

Lemma union_of_parsed_all (E : fs_env) (self : PINExtractor)
    (files : list string) :
  union_of_parsed E self files = ⋃ (List.map (document_pins E self) files).
Proof.
  unfold union_of_parsed. induction files as [|f files IH]; [done|].
  cbn [List.filter List.map union_list foldr].
  destruct (parses E f) eqn:Hp; cbn [List.map union_list foldr].
  - by rewrite IH.
  - by rewrite IH, (document_pins_failed E self f Hp), (left_id_L ∅ (∪)).
Qed.

Lemma fold_scan_pdf_contains (E : fs_env) (files : list string)
    (acc : gset string) :
  acc ∪ ⋃ (List.map (document_pins E (__init__ None)) files)
  ⊆ fold_left (scan_pdf E) files acc.
Proof.
  revert acc. induction files as [|f files IH]; intros acc.
  - cbn. by rewrite (right_id_L ∅ (∪)).
  - cbn [List.map union_list foldr fold_left].
    etrans; [|apply IH]. rewrite (assoc_L (∪)).
    apply union_mono_r, scan_pdf_contains.
Qed.

Lemma fold_scan_pdf_agrees (E : fs_env) (files : list string)
    (acc : gset string) :
  (∀ pat text, pat ∈ DEFAULT_PATTERNS →
               ∃ l, re_findall pat text = Ok (MStr <$> l)) →
  fold_left (scan_pdf E) files acc
  = acc ∪ ⋃ (List.map (document_pins E (__init__ None)) files).
Proof.
  intros Hre. revert acc. induction files as [|f files IH]; intros acc.
  - cbn. by rewrite (right_id_L ∅ (∪)).
  - cbn [List.map union_list foldr fold_left].
    by rewrite IH, scan_pdf_agrees, (assoc_L (∪)).
Qed.

(** X17.  The scraper's own identifier extraction and the extractor
    with the default patterns, run on the petition's directory: the
    extractor's identifiers are always among the scraper's, and the
    two lists are equal when no default pattern raises or yields
    tuples. *)
Theorem extract_pins_from_pdfs_agrees (E : fs_env)
    (petition_number download_dir : string) :
  let by_extractor :=
    extract_from_directory E (__init__ None)
      (joinpath download_dir petition_number) in
  let by_scraper :=
    extract_pins_from_pdfs joinpath E petition_number download_dir in
  (∃ l, by_extractor = Ok l ∧ l ⊆ by_scraper) ∧
  ((∀ pat text, pat ∈ DEFAULT_PATTERNS →
                ∃ l, re_findall pat text = Ok (MStr <$> l)) →
   by_extractor = Ok by_scraper).
Proof.
  intros by_extractor by_scraper. subst by_extractor by_scraper.
  unfold extract_from_directory, extract_pins_from_pdfs.
  destruct (dir_exists E (joinpath download_dir petition_number));
    cbn [negb]; [|split; [by eexists|done]].
  destruct (glob_pdf E (joinpath download_dir petition_number))
    as [[|f files]|e]; py_step; [split; [by eexists|done]|
                                |split; [by eexists|done]].
  rewrite collect_eq, union_of_parsed_all, (left_id_L ∅ (∪)). py_step.
  split.
  - eexists. split; [done|]. intros x.
    rewrite !elem_of_sorted. intros Hx.
    apply (fold_scan_pdf_contains E (f :: files) ∅).
    by rewrite (left_id_L ∅ (∪)).
  - intros Hre.
    by rewrite (fold_scan_pdf_agrees E (f :: files) ∅ Hre),
      (left_id_L ∅ (∪)).
Qed.

End ScraperPinsFacts.

Section ReFacts.
Import PinExtractor Re.

Lemma findall_single_group (r : regex) (text : string) :
  (groups r ≤ 1)%nat → ∃ l, findall r text = MStr <$> l.
Proof.
  intros Hg. unfold findall.
  generalize (S (String.length text)) as fuel. intros fuel.
  revert text. induction fuel as [|fuel IH]; intros text.
  - by exists [].
  - cbn [findall_from].
    assert (∃ l, match text with
                 | EmptyString => []
                 | String _ s' => findall_from fuel r s'
                 end = MStr <$> l) as (l0 & Hl0).
    { destruct text as [|c s']; [by exists []|apply IH]. }
    destruct (matcher r text [] _) as [[rest caps]|]; [|by exists l0].
    assert (∃ s, item r text rest caps = MStr s) as (s & ->).
    { unfold item. destruct (groups r) as [|[|n]]; [by eexists..|lia]. }
    destruct (String.length rest <? String.length text)%nat.
    + destruct (IH rest) as (l & ->). by exists (s :: l).
    + rewrite Hl0. by exists (s :: l0).
Qed.

End ReFacts.

Lemma extract_pins_from_pdfs_agrees_witness :
  PinExtractor.extract_from_directory Sample.disk
    (PinExtractor.__init__ (pattern := Re.regex) None)
    ("data/pdfs/attachments" ++ "/" ++ "2025-142")
  = Ok (ScraperPins.extract_pins_from_pdfs (pattern := Re.regex)
          (fun a b => a ++ "/" ++ b) Sample.disk
          "2025-142" "data/pdfs/attachments").
Proof.
  apply (extract_pins_from_pdfs_agrees (pattern := Re.regex)
           (fun a b => a ++ "/" ++ b) Sample.disk
           "2025-142" "data/pdfs/attachments").
  intros pat text Hpat. cbn [PinExtractor.re_findall Re.python_re].
  destruct (findall_single_group pat text) as (l & ->); [|by exists l].
  cbn [PinExtractor.DEFAULT_PATTERNS Re.python_re] in Hpat.
  unfold Re.DEFAULT_PATTERNS in Hpat.
  repeat (apply elem_of_cons in Hpat as [->|Hpat]; [vm_compute; lia|]).
  by apply elem_of_nil in Hpat.
Defined.

Section MatcherFacts.
Import PinExtractor Re ReShape.

Lemma str_length_app (w s : string) :
  String.length (w ++ s) = (String.length w + String.length s)%nat.
Proof. induction w as [|c w IH]; simpl; [done|by rewrite IH]. Qed.

Lemma take_app_length (w s : string) :
  take (String.length (w ++ s) - String.length s) (w ++ s) = w.
Proof.
  rewrite str_length_app.
  replace (String.length w + String.length s - String.length s)%nat
    with (String.length w) by lia.
  induction w as [|c w IH]; simpl; [by destruct s|by rewrite IH].
Qed.

Lemma str_app_assoc (a b c : string) : (a ++ b) ++ c = a ++ (b ++ c).
Proof.
  induction a as [|x a IH]; [reflexivity|].
  change (String x ((a ++ b) ++ c) = String x (a ++ (b ++ c))).
  by rewrite IH.
Qed.

Variable Q : string → Prop.
Variable i0 : nat.

(** Whatever the matcher hands to its continuation: a split of the
    input, and captures that extend the ones it was given. *)
Lemma matcher_sound (r : regex) :
  group_words Q i0 r →
  ∀ {R} (s : string) (caps : captures)
    (k : string → captures → option R) (x : R),
    matcher r s caps k = Some x →
    ∃ w s' new,
      s = w ++ s' ∧ shape r w ∧ k s' (new ++ caps)%list = Some x ∧
      Forall (fun ic => ic.1 = i0 → Q ic.2) new ∧
      (must i0 r = true → ∃ v, (i0, v) ∈ new).
Proof.
  induction r as [|c|f|r1 IH1 r2 IH2|r1 IH1 r2 IH2|r' IH|i r' IH];
    intros Hwf R s caps k x Hm.
  - exists "", s, []. by split_and!.
  - cbn [matcher] in Hm. destruct s as [|d s']; [done|].
    destruct (Ascii.eqb (lower_char d) (lower_char c)) eqn:Hd; [|done].
    apply Ascii.eqb_eq in Hd.
    exists (String d ""), s', []. split_and!; try done. by exists d.
  - cbn [matcher] in Hm. destruct s as [|d s']; [done|].
    destruct (f d) eqn:Hd; [|done].
    exists (String d ""), s', []. split_and!; try done. by exists d.
  - cbn [matcher] in Hm. destruct Hwf as [Hwf1 Hwf2].
    apply (IH1 Hwf1) in Hm as (w1 & s1 & new1 & -> & Hs1 & Hm & Hq1 & Hm1).
    apply (IH2 Hwf2) in Hm as (w2 & s2 & new2 & -> & Hs2 & Hm & Hq2 & Hm2).
    exists (w1 ++ w2), s2, (new2 ++ new1)%list.
    split_and!.
    + by rewrite str_app_assoc.
    + by exists w1, w2.
    + by rewrite <- app_assoc.
    + by apply Forall_app.
    + cbn [must]. intros [H|H]%orb_true_iff.
      * destruct (Hm1 H) as (v & Hv). exists v.
        apply elem_of_app. by right.
      * destruct (Hm2 H) as (v & Hv). exists v.
        apply elem_of_app. by left.
  - cbn [matcher] in Hm. destruct Hwf as [Hwf1 Hwf2].
    destruct (matcher r1 s caps k) as [x0|] eqn:H1.
    + injection Hm as ->.
      apply (IH1 Hwf1) in H1 as (w & s' & new & -> & Hs & Hk & Hq & Hmust).
      exists w, s', new. split_and!; try done; [by left|].
      cbn [must]. intros [H _]%andb_true_iff. auto.
    + apply (IH2 Hwf2) in Hm as (w & s' & new & -> & Hs & Hk & Hq & Hmust).
      exists w, s', new. split_and!; try done; [by right|].
      cbn [must]. intros [_ H]%andb_true_iff. auto.
  - cbn [group_words] in Hwf.
    change (star_loop (fun s caps k => matcher r' s caps k) k
              (S (String.length s)) s caps = Some x) in Hm.
    revert Hm. generalize (S (String.length s)) as n. intros n.
    revert s caps. induction n as [|n IHn]; intros s caps Hm.
    + exists "", s, []. by split_and!.
    + change (match matcher r' s caps
                      (fun s' caps' =>
                         if (String.length s' <? String.length s)%nat
                         then star_loop
                                (fun s caps k => matcher r' s caps k) k
                                n s' caps'
                         else None) with
              | Some x => Some x
              | None => k s caps
              end = Some x) in Hm.
      match type of Hm with
      | match ?m with _ => _ end = _ => destruct m as [x0|] eqn:H1
      end.
      * injection Hm as ->.
        apply (IH Hwf) in H1 as (w1 & s1 & new1 & -> & _ & Hk & Hq1 & _).
        destruct (String.length s1 <? String.length (w1 ++ s1))%nat;
          [|done].
        apply IHn in Hk as (w2 & s2 & new2 & -> & _ & Hk & Hq2 & _).
        exists (w1 ++ w2), s2, (new2 ++ new1)%list.
        split_and!; [by rewrite str_app_assoc|done
                    |by rewrite <- app_assoc|by apply Forall_app|done].
      * exists "", s, []. by split_and!.
  - cbn [matcher] in Hm. destruct Hwf as [Hi Hwf].
    apply (IH Hwf) in Hm as (w & s' & new & -> & Hs & Hk & Hq & Hmust).
    rewrite take_app_length in Hk.
    exists w, s', ((i, w) :: new). split_and!; try done.
    + apply Forall_cons. split; [|done]. cbn [fst snd]. intros ->. auto.
    + cbn [must]. intros [H|H]%orb_true_iff.
      * apply Nat.eqb_eq in H as ->. exists w. apply elem_of_cons. by left.
      * destruct (Hmust H) as (v & Hv). exists v.
        apply elem_of_cons. by right.
Qed.

(** Every item [findall] returns for an expression with one group,
    numbered [i0], that takes part in every match. *)
Lemma findall_items (r : regex) (text : string) :
  group_words Q i0 r → must i0 r = true → groups r = 1%nat → i0 = 1%nat →
  Forall (fun m => ∃ v, m = MStr v ∧ Q v) (findall r text).
Proof.
  intros Hwf Hmust Hg Hi. unfold findall.
  generalize (S (String.length text)) as fuel. intros fuel.
  revert text. induction fuel as [|fuel IH]; intros text; [constructor|].
  cbn [findall_from].
  assert (Forall (fun m => ∃ v, m = MStr v ∧ Q v)
            match text with
            | EmptyString => []
            | String _ s' => findall_from fuel r s'
            end) as Hskip.
  { destruct text as [|c s']; [constructor|apply IH]. }
  destruct (matcher r text [] _) as [[rest caps]|] eqn:Hm; [|done].
  apply (matcher_sound r Hwf) in Hm
    as (w & s' & new & -> & _ & [= <- <-] & Hq & Hv).
  destruct (Hv Hmust) as (v & Hin).
  apply Forall_cons. split.
  - unfold item, capture. rewrite Hg, app_nil_r.
    destruct (List.find (fun ic => (ic.1 =? 1)%nat) new) as [ic|] eqn:Hf.
    + apply find_some in Hf as [Hic H1]. apply Nat.eqb_eq in H1.
      exists ic.2. split; [done|].
      rewrite Forall_forall in Hq. apply Hq; [|congruence].
      by apply list_elem_of_In.
    + rewrite Hi in Hin. apply list_elem_of_In in Hin.
      by apply (find_none _ _ Hf) in Hin.
  - destruct (String.length s' <? String.length (w ++ s'))%nat;
      [apply IH|done].
Qed.

End MatcherFacts.

Section DefaultPatternFacts.
Import PinExtractor Re ReShape.

Lemma digit_not_hyphen (d : ascii) :
  is_digit d = true → Ascii.eqb d "-" = false.
Proof.
  destruct d as [[] [] [] [] [] [] [] []]; vm_compute; congruence.
Qed.

Lemma replace_app (a b : string) :
  replace "-" "" (a ++ b) = replace "-" "" a ++ replace "-" "" b.
Proof.
  induction a as [|c a IH]; [reflexivity|].
  change (replace "-" "" (String c (a ++ b))
          = replace "-" "" (String c a) ++ replace "-" "" b).
  cbn [replace]. destruct (Ascii.eqb c "-"); rewrite IH; reflexivity.
Qed.

Lemma all_digits_replace (w : string) :
  all_digits w = true → replace "-" "" w = w.
Proof.
  induction w as [|c w IH]; [done|]. cbn [all_digits replace].
  intros [Hc Hw]%andb_true_iff.
  by rewrite (digit_not_hyphen c Hc), IH.
Qed.

Lemma all_digits_app (a b : string) :
  all_digits (a ++ b) = all_digits a && all_digits b.
Proof.
  induction a as [|c a IH]; [reflexivity|].
  change (all_digits (String c (a ++ b))
          = all_digits (String c a) && all_digits b).
  cbn [all_digits]. by rewrite IH, andb_assoc.
Qed.

Lemma shape_rep_digit (n : nat) (w : string) :
  shape (rep n digit) w → String.length w = n ∧ all_digits w = true.
Proof.
  revert w. induction n as [|n IH]; intros w.
  - cbn. by intros ->.
  - destruct n as [|n].
    + cbn. intros (d & -> & Hd). cbn. by rewrite Hd.
    + change (rep (S (S n)) digit) with (Seq digit (rep (S n) digit)).
      cbn [shape]. intros (w1 & w2 & -> & (d & -> & Hd) & H2).
      apply IH in H2 as [Hlen Hall].
      change (String d "" ++ w2) with (String d w2).
      cbn [String.length all_digits]. by rewrite Hlen, Hd, Hall.
Qed.

Lemma shape_hyphen (w : string) : shape (Chr "-") w → w = "-".
Proof.
  intros (d & -> & Hd). f_equal. revert Hd.
  destruct d as [[] [] [] [] [] [] [] []]; vm_compute; congruence.
Qed.

Lemma shape_eight_digits (w : string) :
  shape (rep 8 digit) w → captured_form w.
Proof.
  intros [Hlen Hall]%shape_rep_digit. unfold captured_form, parcel_number.
  by rewrite (all_digits_replace w Hall), Hlen, Hall.
Qed.

Lemma shape_dashed (w : string) :
  shape (cat [rep 3 digit; Chr "-"; rep 3 digit; Chr "-"; rep 2 digit]) w →
  captured_form w.
Proof.
  cbn [cat shape].
  intros (a & ? & -> & [Ha Hda]%shape_rep_digit
            & h1 & ? & -> & ->%shape_hyphen
            & b & ? & -> & [Hb Hdb]%shape_rep_digit
            & h2 & c & -> & ->%shape_hyphen & [Hc Hdc]%shape_rep_digit).
  unfold captured_form, parcel_number.
  rewrite !replace_app, !(all_digits_replace _ Hda),
    !(all_digits_replace _ Hdb), !(all_digits_replace _ Hdc).
  change (replace "-" "" "-") with "".
  change ("" ++ ?x) with x.
  rewrite !all_digits_app, !str_length_app, Ha, Hb, Hc, Hda, Hdb, Hdc.
  done.
Qed.

Lemma default_patterns_groups :
  Forall (fun r => group_words captured_form 1 r ∧ must 1 r = true ∧
                   groups r = 1%nat) DEFAULT_PATTERNS.
Proof.
  unfold DEFAULT_PATTERNS.
  repeat (apply Forall_cons; split); [..|constructor];
    (split; [|split; vm_compute; reflexivity]);
    cbn [cat lit plus opt one_of group_words]; split_and!; try done;
    intros _ w; first [apply shape_eight_digits|apply shape_dashed].
Qed.

End DefaultPatternFacts.

Section ParcelNumberFacts.
Import PinExtractor Re ReShape.

Lemma default_scan (text : string) :
  ∃ found,
    scan_patterns (pattern := regex) DEFAULT_PATTERNS text ∅ = Ok found ∧
    ∀ x, x ∈ found → parcel_number x = true.
Proof.
  assert (∀ ps, ps ⊆ DEFAULT_PATTERNS →
                ∃ found, scan_patterns (pattern := regex) ps text ∅
                         = Ok found) as Hok.
  { induction ps as [|pat ps IH]; intros Hps; [by eexists|].
    rewrite scan_patterns_cons. unfold pattern_pins.
    cbn [re_findall python_re]. py_step.
    destruct (findall_single_group pat text) as (l & ->).
    { pose proof default_patterns_groups as Hg.
      rewrite Forall_forall in Hg.
      destruct (Hg pat) as (_ & _ & ->); [|lia].
      apply Hps, elem_of_cons. by left. }
    assert (mapM normalize (MStr <$> l)
            = Ok (replace "-" "" <$> l)) as ->.
    { clear. induction l as [|x l IHl]; [done|].
      cbn [fmap list_fmap mapM normalize]. cbn [fmap list_fmap] in IHl.
      by rewrite IHl. }
    destruct IH as (found & Hf);
      [intros y Hy; apply Hps, elem_of_cons; by right|]. py_step.
    rewrite (scan_patterns_from _ _ _ _ Hf). by eexists. }
  destruct (Hok DEFAULT_PATTERNS) as (found & Hfound); [done|].
  exists found. split; [done|]. intros x Hx.
  apply (scan_patterns_elem _ _ _ _ Hfound) in Hx
    as [Hx|(pat & matches & s & Hpat & Hm & Hs & ->)];
    [by apply elem_of_empty in Hx|].
  cbn [re_findall python_re] in Hm. injection Hm as <-.
  pose proof default_patterns_groups as Hg. rewrite Forall_forall in Hg.
  destruct (Hg pat Hpat) as (Hwf & Hmust & Hgroups).
  pose proof (findall_items captured_form 1 pat text Hwf Hmust Hgroups
                eq_refl) as Hitems.
  rewrite Forall_forall in Hitems.
  destruct (Hitems _ Hs) as (v & [= <-] & Hv). exact Hv.
Qed.

Lemma default_extraction_parcel_numbers (E : fs_env)
    (text path directory : string) :
  let self := __init__ (pattern := regex) None in
  (∃ pins, extract_from_text self text = Ok pins ∧
           Forall (fun pin => parcel_number pin = true) pins) ∧
  (∃ pins, extract_from_pdf E self path = Ok pins ∧
           Forall (fun pin => parcel_number pin = true) pins) ∧
  (∃ pins, extract_from_directory E self directory = Ok pins ∧
           Forall (fun pin => parcel_number pin = true) pins).
Proof.
  intros self.
  assert (Hpdf : ∀ p, ∃ pins,
             extract_from_pdf E self p = Ok pins ∧
             Forall (fun pin => parcel_number pin = true) pins).
  { intros p. rewrite extract_from_pdf_eq. eexists. split; [done|].
    destruct (PdfParser.path_exists E p); [|constructor].
    destruct (PdfParser.outcome _) as [r|]; [|constructor].
    destruct (truthy (PdfParser.text r)); [|constructor].
    cbn [self __init__ patterns].
    destruct (default_scan (PdfParser.text r)) as (found & Hf & Hall).
    cbn [PinExtractor.DEFAULT_PATTERNS python_re]. rewrite Hf.
    apply Forall_forall. intros x Hx%elem_of_sorted. auto. }
  split_and!.
  - unfold extract_from_text. cbn [self __init__ patterns].
    destruct (default_scan text) as (found & Hf & Hall).
    cbn [PinExtractor.DEFAULT_PATTERNS python_re]. rewrite Hf. py_step.
    eexists. split; [done|].
    apply Forall_forall. intros x Hx%elem_of_sorted. auto.
  - apply Hpdf.
  - unfold extract_from_directory.
    destruct (dir_exists E directory); py_step;
      [|eexists; split; [done|constructor]].
    destruct (glob_pdf E directory) as [[|f files]|]; py_step;
      [eexists; split; [done|constructor]|
      |eexists; split; [done|constructor]].
    rewrite collect_eq. py_step. eexists. split; [done|].
    apply Forall_forall. intros x Hx%elem_of_sorted.
    rewrite (left_id_L ∅ (∪)) in Hx.
    apply elem_of_union_of_parsed in Hx as (p & _ & _ & Hx).
    unfold document_pins in Hx.
    destruct (Hpdf p) as (pins & Hp & Hall). rewrite Hp in Hx.
    apply elem_of_list_to_set in Hx.
    rewrite Forall_forall in Hall. auto.
Qed.

(** X18.  With the default patterns, extraction from a text, from a
    document and from a directory never raises, and every identifier
    it returns consists of exactly eight digits. *)
Theorem default_patterns_parcel_numbers (E : fs_env)
    (text path directory : string) :
  let self := __init__ (pattern := regex) None in
  (∃ pins, extract_from_text self text = Ok pins ∧
           Forall (fun pin => parcel_number pin = true) pins) ∧
  (∃ pins, extract_from_pdf E self path = Ok pins ∧
           Forall (fun pin => parcel_number pin = true) pins) ∧
  (∃ pins, extract_from_directory E self directory = Ok pins ∧
           Forall (fun pin => parcel_number pin = true) pins).
Proof. apply default_extraction_parcel_numbers. Qed.

End ParcelNumberFacts.

Section CrawlFacts.
Import Models Scraper Crawl CrawlProps.
Context {datetime : Type} `{!DatetimeLib datetime} `{!SearchLib}.
Variable E : web.
Variable base_url : string.

Lemma fetch_petition_details_keeps (p : Petition) :
  let p' := _fetch_petition_details E p in
  file_number p' = file_number p ∧
  petition_number p' = petition_number p ∧
  petitioner p' = petitioner p ∧
  action p' = action p ∧
  legislation_url p' = legislation_url p ∧
  address p' = address p ∧
  vote_result p' = vote_result p ∧
  pins p' = pins p.
Proof.
  unfold _fetch_petition_details.
  destruct (legislation_url p) as [url|] eqn:Hu; [|by rewrite Hu].
  destruct (get_legislation_text E url); cbn; by rewrite ?Hu.
Qed.

Lemma parse_agenda_item_cases (cells : list cell) :
  (∃ o, _parse_agenda_item E base_url cells = Ok o) ∧
  ∀ p, _parse_agenda_item E base_url cells = Ok (Some p) →
       (6 ≤ length cells)%nat ∧
       ∃ c0 link c5,
         cells !! 0%nat = Some c0 ∧ cell_a c0 = Some link ∧
         cells !! 5%nat = Some c5 ∧
         any_keyword ["rezoning"; "petition"] (cell_text c5) = true ∧
         file_number p = a_text link ∧
         legislation_url p = _make_absolute_url base_url (href link) ∧
         action p = cell_text <$> cells !! 6%nat ∧
         pins p = None ∧ address p = None ∧ vote_result p = None.
Proof.
  unfold _parse_agenda_item.
  destruct (length cells <? 6)%nat eqn:Hlen; [by split; [eexists|]|].
  apply Nat.ltb_ge in Hlen.
  destruct cells as [|c0 [|c1 [|c2 [|c3 [|c4 [|c5 rest]]]]]];
    try (simpl in Hlen; lia).
  cbn [getitem lookup list_lookup length]. py_step.
  destruct (cell_a c0) as [link|] eqn:Ha; py_step; [|by split; [eexists|]].
  change (5 <? S (S (S (S (S (S (length rest)))))))%nat with true.
  py_step. cbn [truthy_opt default from_option id].
  destruct (truthy (cell_text c5)) eqn:Ht; cbn [negb orb];
    [|by split; [eexists|]].
  destruct (any_keyword _ (cell_text c5)) eqn:Hk; cbn [negb];
    [|by split; [eexists|]].
  assert (∃ a, (if (6 <? S (S (S (S (S (S (length rest)))))))%nat
                then getitem (c0 :: c1 :: c2 :: c3 :: c4 :: c5 :: rest) 6
                     ≫= λ c6 : cell, Ok (Some (cell_text c6))
                else Ok None) = Ok a
               ∧ a = cell_text <$> rest !! 0%nat) as (a & -> & ->).
  { destruct rest; eexists; split; reflexivity. }
  py_step. split; [by eexists|]. intros p [= <-].
  match goal with
  | |- context [_fetch_petition_details E ?q] =>
      destruct (fetch_petition_details_keeps q)
        as (H1 & _ & _ & H4 & H5 & H6 & H7 & H8)
  end.
  split; [done|]. exists c0, link, c5.
  by rewrite H1, H4, H5, H6, H7, H8.
Qed.

(** X19.  Parsing an agenda row never raises.  It yields a petition
    only for a row of at least six cells whose first cell holds a
    link and whose sixth cell mentions [rezoning] or [petition] in
    any case; the petition then has the link text as file number, the
    resolved link target as legislation URL, the text of the seventh
    cell, when there is one, as action, and no identifiers, address
    or vote yet, whatever the legislation page holds. *)
Theorem parse_agenda_item_gate (cells : list cell) :
  (∃ o, _parse_agenda_item E base_url cells = Ok o) ∧
  ∀ p, _parse_agenda_item E base_url cells = Ok (Some p) →
       (6 ≤ length cells)%nat ∧
       ∃ c0 link c5,
         cells !! 0%nat = Some c0 ∧ cell_a c0 = Some link ∧
         cells !! 5%nat = Some c5 ∧
         any_keyword ["rezoning"; "petition"] (cell_text c5) = true ∧
         file_number p = a_text link ∧
         legislation_url p = _make_absolute_url base_url (href link) ∧
         action p = cell_text <$> cells !! 6%nat ∧
         pins p = None ∧ address p = None ∧ vote_result p = None.
Proof. apply parse_agenda_item_cases. Qed.

Lemma parse_agenda_item_ok (cells : list cell) :
  ∃ o, _parse_agenda_item E base_url cells = Ok o.
Proof.
  unfold _parse_agenda_item, try_except.
  destruct (length cells <? 6)%nat; [by eexists|].
  match goal with
  | |- ∃ o, match ?body with _ => _ end = _ => destruct body
  end; by eexists.
Qed.

Lemma parse_items_ok (rows : list (list cell)) :
  ∃ petitions, parse_items E base_url rows = Ok petitions.
Proof.
  induction rows as [|row rows (l & IH)]; [by eexists|].
  cbn [parse_items].
  destruct (parse_agenda_item_ok row) as (o & ->).
  rewrite IH. py_step. by eexists.
Qed.

Lemma fetch_meeting_details_cases (m : Meeting) :
  (details_ok E m = false ∧ raises (fetch_meeting_details E base_url m)) ∨
  (details_ok E m = true ∧
   ∃ d, fetch_meeting_details E base_url m = Ok d ∧ same_meeting m d).
Proof.
  unfold details_ok, fetch_meeting_details.
  destruct (get_meeting_details E (meeting_details_url m))
    as [[rows|]|e]; py_step.
  - right. split; [done|].
    destruct (parse_items_ok rows) as (l & ->). py_step.
    eexists. split; [done|]. by repeat split.
  - right. split; [done|]. exists m. by repeat split.
  - by left.
Qed.

Lemma fetch_details_kept (meetings : list Meeting) :
  Forall2 (fun m d => fetch_meeting_details E base_url m = Ok d ∧
                      same_meeting m d)
    (List.filter (details_ok E) meetings)
    (fetch_details E base_url meetings).
Proof.
  induction meetings as [|m meetings IH]; [constructor|].
  cbn [List.filter fetch_details].
  destruct (fetch_meeting_details_cases m)
    as [[-> Hr]|(-> & d & Hd & Hsame)].
  - by destruct (fetch_meeting_details E base_url m).
  - rewrite Hd. by constructor.
Qed.

Lemma str_prefix_split (sub s : string) :
  String.prefix sub s = true → ∃ post, s = sub ++ post.
Proof.
  revert s. induction sub as [|c sub IH]; intros s; [by exists s|].
  destruct s as [|d s]; [done|]. cbn [String.prefix].
  destruct (ascii_dec c d) as [->|]; [|done].
  intros (post & ->)%IH. by exists post.
Qed.

Lemma contains_split (sub s : string) :
  contains sub s = true ↔ ∃ pre post, s = pre ++ sub ++ post.
Proof.
  split.
  - induction s as [|c s IH]; cbn [contains].
    + rewrite orb_false_r. intros (post & ->)%str_prefix_split.
      by exists "", post.
    + intros [(post & ->)%str_prefix_split|Hs]%orb_true_iff.
      * by exists "", post.
      * destruct (IH Hs) as (pre & post & ->).
        by exists (String c pre), post.
  - intros (pre & post & ->). apply contains_app_l.
    apply contains_app_r, contains_refl.
Qed.

Lemma contains_longer (a b s : string) :
  contains (a ++ b) s = true → contains b s = true.
Proof.
  intros (pre & post & ->)%contains_split. apply contains_split.
  exists (pre ++ a), post.
  by rewrite <- !str_app_assoc.
Qed.

Lemma any_zoning_keyword (meeting_type : string) :
  any_keyword zoning_keywords meeting_type
  = contains "zoning" (lower meeting_type)
    || contains "planning" (lower meeting_type).
Proof.
  unfold any_keyword, zoning_keywords. cbn [existsb].
  rewrite orb_false_r.
  destruct (contains "zoning" (lower meeting_type)) eqn:Hz; [done|].
  destruct (contains "rezoning" (lower meeting_type)) eqn:Hr; [|done].
  apply (contains_longer "re" "zoning") in Hr. congruence.
Qed.

(** X21.  Of the three keywords of the zoning filter, [rezoning] is
    redundant: a meeting passes exactly when its type, lower-cased,
    contains [zoning] or [planning], so the filter with the keyword
    left out keeps the same meetings. *)
Theorem zoning_filter_keywords (meetings : list Meeting) :
  List.filter (fun m => any_keyword zoning_keywords (meeting_type m))
    meetings
  = List.filter
      (fun m => any_keyword ["zoning"; "planning"] (meeting_type m))
      meetings ∧
  ∀ m, any_keyword zoning_keywords (meeting_type m)
       = contains "zoning" (lower (meeting_type m))
         || contains "planning" (lower (meeting_type m)).
Proof.
  split; [|intros m; apply any_zoning_keyword].
  apply filter_ext. intros m. rewrite any_zoning_keyword.
  unfold any_keyword. cbn [existsb]. by rewrite orb_false_r.
Qed.

Lemma fetch_calendar_eq (start_date end_date : option string) :
  fetch_calendar E base_url start_date end_date
  = (rows ← get_calendar E;
     Ok (List.filter (in_string_range start_date end_date)
           (omap (row_meeting base_url) rows))).
Proof.
  unfold fetch_calendar.
  destruct (get_calendar E) as [rows|]; py_step; [|done].
  rewrite parse_rows_eq. py_step. f_equal.
  rewrite filter_by_date_strings. unfold in_string_range.
  destruct (truthy_opt start_date), (truthy_opt end_date); cbn [orb];
    try done.
  cbn [andb]. by rewrite filter_true.
Qed.

(** X22.  Fetching the calendar with bounds is fetching it without
    and filtering afterwards; it raises only when the calendar
    request does, and bounds [None] and the empty string both mean no
    bound. *)
Theorem fetch_calendar_filters (start_date end_date : option string) :
  fetch_calendar E base_url start_date end_date
  = (meetings ← fetch_calendar E base_url None None;
     Ok (_filter_by_date meetings start_date end_date)) ∧
  (raises (fetch_calendar E base_url start_date end_date)
   ↔ raises (get_calendar E)) ∧
  fetch_calendar E base_url (Some "") (Some "")
  = fetch_calendar E base_url None None.
Proof.
  rewrite !fetch_calendar_eq.
  destruct (get_calendar E) as [rows|]; py_step; [|done].
  split_and!; [|done|done].
  f_equal. rewrite filter_by_date_strings.
  unfold in_string_range at 2. cbn [truthy_opt andb].
  by rewrite filter_true.
Qed.

(** X20.  A full scrape raises only when the calendar request does,
    with the same exception.  Otherwise it returns, in calendar
    order, one meeting for each parsed calendar row that lies within
    the date bounds, passes the zoning filter when it is on and whose
    details request goes through: a failing details request drops
    that meeting only.  Each returned meeting is the calendar meeting
    with its petitions filled in. *)
Theorem scrape_all_outcome (filter_zoning : bool)
    (start_date end_date : option string) :
  (∀ e, get_calendar E = Raise e →
        scrape_all E base_url filter_zoning start_date end_date = Raise e) ∧
  (∀ rows, get_calendar E = Ok rows →
     ∃ calendar detailed,
       parse_rows base_url rows = Ok calendar ∧
       scrape_all E base_url filter_zoning start_date end_date
       = Ok detailed ∧
       Forall2 (fun m d => fetch_meeting_details E base_url m = Ok d ∧
                           same_meeting m d)
         (List.filter (kept E filter_zoning start_date end_date) calendar)
         detailed).
Proof.
  unfold scrape_all. rewrite fetch_calendar_eq. split.
  - by intros e ->.
  - intros rows ->. py_step. rewrite parse_rows_eq.
    eexists _, _. split; [done|]. split; [done|].
    match goal with
    | |- Forall2 _ _ (fetch_details _ _ ?ms) =>
        pose proof (fetch_details_kept ms) as Hk
    end.
    replace (List.filter (kept E filter_zoning start_date end_date)
               (omap (row_meeting base_url) rows))
      with (List.filter (details_ok E)
              (if filter_zoning
               then List.filter
                      (fun m => any_keyword zoning_keywords (meeting_type m))
                      (List.filter (in_string_range start_date end_date)
                         (omap (row_meeting base_url) rows))
               else List.filter (in_string_range start_date end_date)
                      (omap (row_meeting base_url) rows))); [done|].
    unfold kept. destruct filter_zoning; rewrite !filter_filter;
      apply filter_ext; intros m; cbn [negb orb].
    + rewrite any_zoning_keyword.
      by destruct (in_string_range _ _ m), (details_ok E m),
        (contains "zoning" _), (contains "planning" _).
    + by destruct (in_string_range _ _ m), (details_ok E m).
Qed.

End CrawlFacts.

Lemma parse_agenda_item_gate_witness :
  Crawl._parse_agenda_item (H := Fixtures.sample_search) Fixtures.site
    Sample.base Fixtures.agenda_row
  = Ok (Some Fixtures.agenda_petition) ∧
  Models.action Fixtures.agenda_petition
  = Scraper.cell_text <$> Fixtures.agenda_row !! 6%nat.
Proof.
  assert (Crawl._parse_agenda_item (H := Fixtures.sample_search)
            Fixtures.site Sample.base Fixtures.agenda_row
          = Ok (Some Fixtures.agenda_petition)) as Hrow
    by (vm_compute; reflexivity).
  split; [exact Hrow|].
  destruct (parse_agenda_item_gate (H := Fixtures.sample_search)
              Fixtures.site Sample.base Fixtures.agenda_row) as [_ Hgate].
  destruct (Hgate _ Hrow)
    as (_ & c0 & link & c5 & _ & _ & _ & _ & _ & _ & Haction & _).
  exact Haction.
Defined.

Lemma scrape_all_outcome_witness :
  ∃ calendar detailed,
    Scraper.parse_rows (datetime := Datetime.datetime) Sample.base
      [Sample.full_row "1/20/2026"] = Ok calendar ∧
    Crawl.scrape_all (datetime := Datetime.datetime)
      (H := Fixtures.sample_search) Fixtures.site Sample.base true
      (Some "2026-01-01") None = Ok detailed ∧
    Forall2
      (fun m d =>
         Crawl.fetch_meeting_details (H := Fixtures.sample_search)
           Fixtures.site Sample.base m = Ok d ∧
         CrawlProps.same_meeting m d)
      (List.filter
         (CrawlProps.kept Fixtures.site true (Some "2026-01-01") None)
         calendar)
      detailed.
Proof.
  apply (scrape_all_outcome (datetime := Datetime.datetime)
           (H := Fixtures.sample_search) Fixtures.site Sample.base).
  reflexivity.
Defined.

Section FilenameFacts.
Import Scraper Attachments.

Lemma safe_char_idem (c : ascii) : safe_char (safe_char c) = safe_char c.
Proof.
  unfold safe_char.
  destruct (is_word c || Ascii.eqb c "-" || Ascii.eqb c ".") eqn:Hc;
    [by rewrite Hc|reflexivity].
Qed.

Lemma sub_unsafe_chars (name : string) (c : ascii) :
  contains_char c (sub_unsafe name) = true → safe_char c = c.
Proof.
  induction name as [|d name IH]; [done|]. cbn [sub_unsafe contains_char].
  intros [<-%Ascii.eqb_eq|H]%orb_true_iff; [apply safe_char_idem|auto].
Qed.

Lemma sub_unsafe_idem (s : string) :
  (∀ c, contains_char c s = true → safe_char c = c) → sub_unsafe s = s.
Proof.
  induction s as [|d s IH]; [done|]. intros Hs. cbn [sub_unsafe].
  rewrite IH, (Hs d); [done| |].
  - cbn [contains_char]. by rewrite Ascii.eqb_refl.
  - intros c Hc. apply Hs. cbn [contains_char]. by rewrite Hc, orb_true_r.
Qed.

Lemma contains_char_app (c : ascii) (a b : string) :
  contains_char c (a ++ b) = contains_char c a || contains_char c b.
Proof.
  induction a as [|d a IH]; [reflexivity|].
  change (contains_char c (String d (a ++ b))
          = contains_char c (String d a) || contains_char c b).
  cbn [contains_char]. by rewrite IH, orb_assoc.
Qed.

Lemma lower_app (a b : string) : lower (a ++ b) = lower a ++ lower b.
Proof.
  induction a as [|d a IH]; [reflexivity|].
  change (lower (String d (a ++ b)) = lower (String d a) ++ lower b).
  cbn [lower]. by rewrite IH.
Qed.

Lemma endswith_app (suffix a : string) : endswith suffix (a ++ suffix) = true.
Proof.
  induction a as [|d a IH].
  - change ("" ++ suffix) with suffix.
    destruct suffix; cbn [endswith]; by rewrite String.eqb_refl.
  - change (endswith suffix (String d (a ++ suffix)) = true).
    cbn [endswith]. by rewrite IH, orb_true_r.
Qed.

Lemma sub_unsafe_length (name : string) :
  String.length (sub_unsafe name) = String.length name.
Proof.
  induction name as [|d n IH]; [done|].
  cbn [sub_unsafe String.length]. by rewrite IH.
Qed.

Lemma safe_filename_chars (name : string) (c : ascii) :
  contains_char c (safe_filename name) = true → safe_char c = c.
Proof.
  unfold safe_filename.
  destruct (endswith ".pdf" (lower (sub_unsafe name))); cbn [negb].
  - apply sub_unsafe_chars.
  - rewrite contains_char_app.
    intros [H|H]%orb_true_iff; [by apply (sub_unsafe_chars name)|].
    cbn [contains_char] in H. rewrite orb_false_r in H.
    repeat (apply orb_true_iff in H as [<-%Ascii.eqb_eq|H];
            [reflexivity|]).
    by apply Ascii.eqb_eq in H as <-.
Qed.

(** X23.  The file name an attachment is saved under consists of
    word characters, hyphens and dots only, so it holds no path
    separator; it ends in [.pdf] in some case, is at most four
    characters longer than the attachment name, and sanitising it
    again changes nothing. *)
Theorem safe_filename_component (name : string) :
  (∀ c, contains_char c (safe_filename name) = true → safe_char c = c) ∧
  contains_char "/" (safe_filename name) = false ∧
  endswith ".pdf" (lower (safe_filename name)) = true ∧
  safe_filename (safe_filename name) = safe_filename name ∧
  (String.length name ≤ String.length (safe_filename name)
   ≤ String.length name + 4)%nat.
Proof.
  assert (Hends : endswith ".pdf" (lower (safe_filename name)) = true).
  { unfold safe_filename.
    destruct (endswith ".pdf" (lower (sub_unsafe name))) eqn:He;
      cbn [negb]; [done|].
    rewrite lower_app. apply endswith_app. }
  split_and!.
  - apply safe_filename_chars.
  - destruct (contains_char "/" (safe_filename name)) eqn:Hc; [|done].
    apply safe_filename_chars in Hc. by vm_compute in Hc.
  - exact Hends.
  - unfold safe_filename at 1.
    rewrite (sub_unsafe_idem (safe_filename name))
      by apply safe_filename_chars.
    by rewrite Hends.
  - unfold safe_filename.
    destruct (endswith ".pdf" (lower (sub_unsafe name))); cbn [negb];
      rewrite ?str_length_app, sub_unsafe_length; cbn; lia.
  - unfold safe_filename.
    destruct (endswith ".pdf" (lower (sub_unsafe name))); cbn [negb];
      rewrite ?str_length_app, sub_unsafe_length; cbn; lia.
Qed.

End FilenameFacts.

Lemma safe_filename_component_witness :
  Attachments.safe_char "_" = "_"%char ∧
  Attachments.safe_filename "Site plan/rev 2" = "Site_plan_rev_2.pdf" ∧
  Attachments.safe_filename "STAFF REPORT.PDF" = "STAFF_REPORT.PDF".
Proof.
  split_and!; [|reflexivity..].
  apply (safe_filename_component "Site plan/rev 2"). reflexivity.
Defined.

Section DownloadFacts.
Import Scraper Attachments.
Variable E : downloads.
Variable base_url : string.
Variable joinpath : string → string → string.

Lemma lstrip_contains (sub s : string) :
  String.prefix "/" sub = false → sub ≠ "" →
  contains sub s = true → contains sub (lstrip "/" s) = true.
Proof.
  intros Hsub Hne. induction s as [|c s IH]; [done|].
  cbn [lstrip]. destruct (Ascii.eqb c "/") eqn:Hc; [|done].
  apply Ascii.eqb_eq in Hc as ->. cbn [contains].
  intros [Hp|Hs]%orb_true_iff; [|auto].
  destruct sub as [|d sub]; [done|]. cbn [String.prefix] in Hp, Hsub.
  destruct (ascii_dec d "/") as [->|]; [|done].
  destruct sub; cbn in Hsub; done.
Qed.

Lemma omap_length_le {A B} (f : A → option B) (l : list A) :
  (length (omap f l) ≤ length l)%nat.
Proof.
  induction l as [|x l IH]; [done|]. cbn [omap list_omap length].
  destruct (f x); cbn [length]; lia.
Qed.

Lemma make_absolute_url_contains (sub href u : string) :
  String.prefix "/" sub = false → sub ≠ "" →
  contains sub href = true →
  _make_absolute_url base_url (Some href) = Some u →
  contains sub u = true.
Proof.
  intros Hsub Hne Hc. unfold _make_absolute_url.
  destruct (negb (truthy href) || String.eqb href "#"); [done|].
  destruct (String.prefix "http" href); intros [= <-]; [done|].
  do 2 apply contains_app_l. by apply lstrip_contains.
Qed.

(** What [_extract_attachments] keeps of a table. *)
Lemma extract_attachments_elem (table : list (string * string))
    (a : attachment) :
  a ∈ _extract_attachments base_url (Some table) →
  ∃ href, (name a, href) ∈ table ∧ contains "View.ashx" href = true ∧
          _make_absolute_url base_url (Some href) = Some (url a).
Proof.
  cbn [_extract_attachments]. rewrite list_elem_of_omap.
  intros ([n href] & Hin & Hsome).
  destruct (contains "View.ashx" href) eqn:Hc; [|done].
  destruct (_make_absolute_url base_url (Some href)) as [u|] eqn:Hu;
    [|done].
  injection Hsome as <-. by exists href.
Qed.

Lemma download_each_elem (petition_dir : string)
    (attachments : list attachment) (i : nat) (path : string) :
  path ∈ download_each E joinpath petition_dir i attachments →
  ∃ a j, a ∈ attachments ∧
         path = joinpath petition_dir (safe_filename (name a)) ∧
         save E j (url a) path = Ok tt.
Proof.
  revert i. induction attachments as [|a rest IH]; intros i;
    cbn [download_each]; [by intros ?%elem_of_nil|].
  destruct (save E i (url a) _) as [[]|] eqn:Hs.
  - intros [->|Hin]%elem_of_cons.
    + exists a, i. split_and!; [apply elem_of_cons; by left|done|done].
    + destruct (IH _ Hin) as (b & j & Hb & Hp & Hsave).
      exists b, j. split_and!; [apply elem_of_cons; by right|done|done].
  - intros Hin. destruct (IH _ Hin) as (b & j & Hb & Hp & Hsave).
    exists b, j. split_and!; [apply elem_of_cons; by right|done|done].
Qed.

Lemma download_each_length (petition_dir : string)
    (attachments : list attachment) (i : nat) :
  (length (download_each E joinpath petition_dir i attachments)
   ≤ length attachments)%nat.
Proof.
  revert i. induction attachments as [|a rest IH]; intros i;
    cbn [download_each length]; [lia|].
  destruct (save E i (url a) _); cbn [length]; specialize (IH (S i)); lia.
Qed.

(** X24.  Every file the attachment download reports was saved by a
    download that went through, under the petition's directory and
    under the sanitised name of a link of the attachments table
    whose target, also once resolved, mentions [View.ashx]; there
    are at most as many files as links.  When the page request or the creation of the
    directory fails, or the page has no attachments table, no file
    is reported. *)
Theorem download_petition_attachments_contained
    (petition_number legislation_url download_dir : string) :
  let files :=
    download_petition_attachments E base_url joinpath petition_number
      legislation_url download_dir in
  let petition_dir := joinpath download_dir petition_number in
  (∀ path, path ∈ files →
     ∃ table name href full_url i,
       get_attachment_links E legislation_url = Ok (Some table) ∧
       (name, href) ∈ table ∧ contains "View.ashx" href = true ∧
       _make_absolute_url base_url (Some href) = Some full_url ∧
       contains "View.ashx" full_url = true ∧
       path = joinpath petition_dir (safe_filename name) ∧
       save E i full_url path = Ok tt) ∧
  (∀ table, get_attachment_links E legislation_url = Ok (Some table) →
            (length files ≤ length table)%nat) ∧
  (raises (get_attachment_links E legislation_url) ∨
   get_attachment_links E legislation_url = Ok None ∨
   raises (mkdir E petition_dir) → files = []).
Proof.
  intros files petition_dir. subst files petition_dir.
  unfold download_petition_attachments.
  destruct (get_attachment_links E legislation_url) as [[table|]|e];
    [|split_and!; [by intros ? ?%elem_of_nil|done|done]..].
  destruct (_extract_attachments base_url (Some table)) as [|a0 rest] eqn:Ha;
    [split_and!; [by intros ? ?%elem_of_nil|intros ? _; cbn; lia|done]|].
  destruct (mkdir E (joinpath download_dir petition_number)) as [[]|e];
    [|split_and!; [by intros ? ?%elem_of_nil|intros ? _; cbn; lia|done]].
  split_and!.
  - intros path (a & j & Hin & -> & Hsave)%download_each_elem.
    rewrite <- Ha in Hin.
    apply extract_attachments_elem in Hin as (href & Hin & Hc & Hu).
    exists table, (name a), href, (url a), j.
    split_and!; try done.
    by apply (make_absolute_url_contains "View.ashx" href).
  - intros ? [= <-]. etrans; [apply download_each_length|].
    rewrite <- Ha. cbn [_extract_attachments]. apply omap_length_le.
  - intros [[]|[[=]|[]]].
Qed.

End DownloadFacts.

Lemma download_petition_attachments_contained_witness :
  Attachments.download_petition_attachments Fixtures.attachment_site
    Sample.base (fun a b => a ++ "/" ++ b) "2025-142"
    "https://charlottenc.legistar.com/LegislationDetail.aspx?ID=7"
    "data/pdfs/attachments"
  = ["data/pdfs/attachments/2025-142/Staff_Analysis.pdf"] ∧
  (length ["data/pdfs/attachments/2025-142/Staff_Analysis.pdf"]
   ≤ length Fixtures.attachment_links)%nat.
Proof.
  split; [vm_compute; reflexivity|].
  destruct (download_petition_attachments_contained
              Fixtures.attachment_site Sample.base
              (fun a b => a ++ "/" ++ b) "2025-142"
              "https://charlottenc.legistar.com/LegislationDetail.aspx?ID=7"
              "data/pdfs/attachments") as (_ & Hlen & _).
  exact (Hlen Fixtures.attachment_links eq_refl).
Defined.

Section ProcessingFacts.
Import Models PinExtractor Attachments Pipeline CrawlProps.
Context {pattern : Type} `{!RegexLib pattern}.
Variable E : downloads.
Variable disk_at : nat → fs_env.
Variable base_url : string.
Variable joinpath : string → string → string.

Lemma extract_from_directory_sorted (D : fs_env) (self : PINExtractor)
    (directory : string) :
  ∃ found, extract_from_directory D self directory = Ok (sorted found).
Proof.
  unfold extract_from_directory.
  destruct (dir_exists D directory); py_step;
    [|exists ∅; by rewrite sorted_empty].
  destruct (glob_pdf D directory) as [[|f files]|]; py_step;
    [exists ∅; by rewrite sorted_empty| |exists ∅; by rewrite sorted_empty].
  rewrite collect_eq. py_step. by eexists.
Qed.

(** What processing does to one petition. *)
Lemma process_petition_cases (i : nat) (p : Petition) :
  let p' := process_petition E disk_at base_url joinpath i p in
  same_petition p p' ∧
  (pins p' = pins p ∨
   ∃ l, pins p' = Some l ∧ l ≠ [] ∧
        truthy_opt (petition_number p) = true ∧
        truthy_opt (legislation_url p) = true ∧
        download_petition_attachments E base_url joinpath
          (default "" (petition_number p))
          (default "" (legislation_url p)) "data/pdfs/attachments" ≠ [] ∧
        extract_from_directory (disk_at i) (__init__ None)
          (joinpath "data/pdfs/attachments"
             (default "" (petition_number p))) = Ok l).
Proof.
  unfold process_petition.
  destruct (truthy_opt (petition_number p)) eqn:Hn; cbn [negb orb];
    [|split; [by repeat split|by left]].
  destruct (truthy_opt (legislation_url p)) eqn:Hu; cbn [negb];
    [|split; [by repeat split|by left]].
  destruct (download_petition_attachments _ _ _ _ _ _) as [|f files] eqn:Hd;
    [split; [by repeat split|by left]|].
  destruct (extract_from_directory _ _ _) as [[|pin l]|e] eqn:Hx;
    [split; [by repeat split|by left]|
    |split; [by repeat split|by left]].
  split; [by repeat split|]. right. exists (pin :: l).
  by split_and!.
Qed.

Lemma process_each_cases (i : nat) (petitions : list Petition) :
  Forall2
    (fun p p' =>
       same_petition p p' ∧
       (pins p' = pins p ∨
        ∃ j l, pins p' = Some l ∧ l ≠ [] ∧
          truthy_opt (petition_number p) = true ∧
          truthy_opt (legislation_url p) = true ∧
          download_petition_attachments E base_url joinpath
            (default "" (petition_number p))
            (default "" (legislation_url p)) "data/pdfs/attachments"
          ≠ [] ∧
          extract_from_directory (disk_at j) (__init__ None)
            (joinpath "data/pdfs/attachments"
               (default "" (petition_number p))) = Ok l))
    petitions (process_each E disk_at base_url joinpath i petitions).
Proof.
  revert i. induction petitions as [|p rest IH]; intros i; [constructor|].
  cbn [process_each]. constructor; [|apply IH].
  destruct (process_petition_cases (S i) p)
    as [Hsame [Hp|(l & Hl & Hne & Hn & Hu & Hd & Hx)]].
  - split; [done|by left].
  - split; [done|]. right. by exists (S i), l.
Qed.

Lemma process_meetings_cases (i : nat) (meetings : list Meeting) :
  Forall2
    (fun m m' =>
       same_meeting m m' ∧
       Forall2
         (fun p p' =>
            same_petition p p' ∧
            (pins p' = pins p ∨
             ∃ j l, pins p' = Some l ∧ l ≠ [] ∧
               truthy_opt (petition_number p) = true ∧
               truthy_opt (legislation_url p) = true ∧
               download_petition_attachments E base_url joinpath
                 (default "" (petition_number p))
                 (default "" (legislation_url p)) "data/pdfs/attachments"
               ≠ [] ∧
               extract_from_directory (disk_at j) (__init__ None)
                 (joinpath "data/pdfs/attachments"
                    (default "" (petition_number p))) = Ok l))
         (petitions m) (petitions m'))
    meetings (process_meetings E disk_at base_url joinpath i meetings).
Proof.
  revert i. induction meetings as [|m rest IH]; intros i; [constructor|].
  cbn [process_meetings]. constructor; [|apply IH].
  split; [by repeat split|]. apply process_each_cases.
Qed.

(** X25.  Petition processing returns the same meetings with the
    same petitions, in the same order, and changes nothing of a
    petition but its identifiers.  The identifiers are set only for a
    petition with a number and a legislation URL, and then to the
    list the extractor returned for the petition's directory, which
    is not empty, sorted and free of duplicates; every other
    petition, in particular one for which no file was downloaded,
    keeps the identifiers it had. *)
Theorem process_petitions_structure (meetings : list Meeting) :
  ∃ processed,
    _process_petitions E disk_at base_url joinpath meetings = Ok processed ∧
    Forall2
      (fun m m' =>
         same_meeting m m' ∧
         Forall2
           (fun p p' =>
              same_petition p p' ∧
              (pins p' = pins p ∨
               ∃ j l, pins p' = Some l ∧ l ≠ [] ∧
                 truthy_opt (petition_number p) = true ∧
                 truthy_opt (legislation_url p) = true ∧
                 download_petition_attachments E base_url joinpath
                   (default "" (petition_number p))
                   (default "" (legislation_url p)) "data/pdfs/attachments"
                 ≠ [] ∧
                 extract_from_directory (disk_at j) (__init__ None)
                   (joinpath "data/pdfs/attachments"
                      (default "" (petition_number p))) = Ok l ∧
                 StronglySorted String.le l ∧ NoDup l))
           (petitions m) (petitions m'))
      meetings processed.
Proof.
  eexists. split; [reflexivity|].
  eapply Forall2_impl; [apply process_meetings_cases|].
  intros m m' [Hsame Hps]. split; [done|].
  eapply Forall2_impl; [exact Hps|].
  intros p p' [Hp [Hpins|(j & l & Hl & Hne & Hn & Hu & Hd & Hx)]];
    (split; [done|]); [by left|right].
  exists j, l. split_and!; try done.
  - destruct (extract_from_directory_sorted (disk_at j) (__init__ None)
                (joinpath "data/pdfs/attachments"
                   (default "" (petition_number p)))) as (found & Hf).
    rewrite Hf in Hx. injection Hx as <-. apply sorted_StronglySorted.
  - destruct (extract_from_directory_sorted (disk_at j) (__init__ None)
                (joinpath "data/pdfs/attachments"
                   (default "" (petition_number p)))) as (found & Hf).
    rewrite Hf in Hx. injection Hx as <-. apply sorted_NoDup.
Qed.

End ProcessingFacts.

Section NoPinsFacts.
Import Models Scraper Crawl CrawlProps.
Context {datetime : Type} `{!DatetimeLib datetime} `{!SearchLib}.
Variable E : web.
Variable base_url : string.

Lemma Forall_list_filter {A} (P : A → Prop) (f : A → bool) (l : list A) :
  Forall P l → Forall P (List.filter f l).
Proof.
  induction 1 as [|x l Hx Hl IH]; [constructor|]. cbn [List.filter].
  destruct (f x); [by constructor|done].
Qed.

Lemma parse_items_pins (rows : list (list cell)) (l : list Petition) :
  parse_items E base_url rows = Ok l → Forall (fun p => pins p = None) l.
Proof.
  revert l. induction rows as [|row rows IH]; intros l.
  - intros [= <-]. constructor.
  - cbn [parse_items].
    destruct (parse_agenda_item_cases E base_url row) as ((o & Ho) & Hsome).
    rewrite Ho. py_step.
    destruct (parse_items E base_url rows) as [l'|]; py_step; [|done].
    intros [= <-]. specialize (IH l' eq_refl).
    destruct o as [p|]; [|done]. constructor; [|done].
    destruct (Hsome p Ho) as (_ & ? & ? & ? & H'). tauto.
Qed.

Lemma fetch_meeting_details_pins (m d : Meeting) :
  without_pins m → fetch_meeting_details E base_url m = Ok d →
  without_pins d.
Proof.
  intros Hm. unfold fetch_meeting_details.
  destruct (get_meeting_details E (meeting_details_url m))
    as [[rows|]|]; py_step; [|by intros [= <-]|done].
  destruct (parse_items E base_url rows) as [l|] eqn:Hl; py_step; [|done].
  intros [= <-]. by apply (parse_items_pins rows).
Qed.

Lemma calendar_without_pins (rows : list (list cell)) :
  Forall without_pins (omap (row_meeting base_url) rows).
Proof.
  apply Forall_forall. intros m (row & _ & Hrow)%list_elem_of_omap.
  unfold row_meeting in Hrow.
  destruct (_parse_calendar_row base_url row) as [o|] eqn:Hp; [|done].
  subst o. apply parse_calendar_row_some in Hp
    as (? & ? & ? & ? & ? & ? & ? & ? & ? & ? & _ & _ & _ & _ & _ & ->).
  constructor.
Qed.

Lemma fetch_details_pins (meetings : list Meeting) :
  Forall without_pins meetings →
  Forall without_pins (fetch_details E base_url meetings).
Proof.
  induction 1 as [|m rest Hm Hrest IH]; [constructor|].
  cbn [fetch_details].
  destruct (fetch_meeting_details E base_url m) as [d|] eqn:Hd; [|done].
  constructor; [|done]. by apply (fetch_meeting_details_pins m).
Qed.

Lemma scrape_all_without_pins (filter_zoning : bool)
    (start_date end_date : option string) (found : list Meeting) :
  scrape_all E base_url filter_zoning start_date end_date = Ok found →
  Forall without_pins found.
Proof.
  unfold scrape_all. rewrite fetch_calendar_eq.
  destruct (get_calendar E) as [rows|]; py_step; [|done].
  intros [= <-]. apply fetch_details_pins.
  destruct filter_zoning; repeat apply Forall_list_filter;
    apply calendar_without_pins.
Qed.

Lemma without_pins_identifiers (meetings : list Meeting) :
  Forall without_pins meetings → identifiers meetings = [].
Proof.
  unfold identifiers, jobs.
  induction 1 as [|m rest Hm Hrest IH]; [done|].
  cbn [flat_map]. rewrite IH, app_nil_r.
  replace (List.filter GIS.has_pins (petitions m)) with (@nil Petition);
    [done|].
  unfold without_pins in Hm. induction Hm as [|p ps Hp Hps IHp]; [done|].
  cbn [List.filter]. unfold GIS.has_pins at 1. by rewrite Hp.
Qed.

End NoPinsFacts.

Section LookupFacts.
Import Models PinExtractor Attachments Pipeline CrawlProps.
Variable E : downloads.
Variable disk_at : nat → fs_env.
Variable base_url : string.
Variable joinpath : string → string → string.

Lemma jobs_parcel_numbers (ps : list Petition) :
  Forall (fun job : Petition * string => parcel_number job.2 = true) (jobs ps)
  ↔ Forall (fun p => Forall (fun pin => parcel_number pin = true)
                       (default [] (pins p))) ps.
Proof.
  unfold jobs. induction ps as [|p ps IH]; [done|].
  rewrite Forall_cons, <- IH. cbn [List.filter].
  unfold GIS.has_pins at 1.
  destruct (pins p) as [[|pin l]|] eqn:Hp; cbn [default from_option id];
    cbn beta iota.
  - split; [by split|tauto].
  - cbn [flat_map]. change (?a ++ ?b)%list with (app a b).
    rewrite Forall_app, Forall_map, Hp. cbn [snd default from_option id].
    tauto.
  - split; [by split|tauto].
Qed.

Lemma identifiers_parcel_numbers (meetings : list Meeting) :
  Forall (fun job : Petition * string => parcel_number job.2 = true)
    (identifiers meetings)
  ↔ Forall (fun m =>
              Forall (fun p => Forall (fun pin => parcel_number pin = true)
                                 (default [] (pins p))) (petitions m))
      meetings.
Proof.
  unfold identifiers. induction meetings as [|m rest IH]; [done|].
  cbn [flat_map]. change (?a ++ ?b)%list with (app a b).
  by rewrite Forall_app, Forall_cons, IH, jobs_parcel_numbers.
Qed.

Lemma processed_parcel_numbers (i : nat) (meetings : list Meeting) :
  Forall (fun job : Petition * string => parcel_number job.2 = true)
    (identifiers meetings) →
  Forall (fun job : Petition * string => parcel_number job.2 = true)
    (identifiers
       (process_meetings (pattern := Re.regex) E disk_at base_url joinpath
          i meetings)).
Proof.
  rewrite !identifiers_parcel_numbers. intros Hm.
  pose proof (process_meetings_cases (pattern := Re.regex) E disk_at
                base_url joinpath i meetings) as Hc.
  induction Hc as [|m m' ms ms' [_ Hps] _ IH]; [constructor|].
  apply Forall_cons in Hm as [Hm Hms]. constructor; [|auto].
  clear IH Hms. induction Hps as [|p p' ps ps' [_ Hp] _ IH]; [constructor|].
  apply Forall_cons in Hm as [Hgood Hm]. constructor; [|auto].
  destruct Hp as [->|(j & l & -> & _ & _ & _ & _ & Hx)]; [done|].
  destruct (default_extraction_parcel_numbers (disk_at j) "" ""
              (joinpath "data/pdfs/attachments"
                 (default "" (petition_number p))))
    as (_ & _ & pins & Hpins & Hall).
  rewrite Hx in Hpins. by injection Hpins as ->.
Qed.

End LookupFacts.

Section EndToEnd.
Import Models Scraper Crawl PinExtractor Attachments Pipeline CrawlProps.
Context {datetime : Type} `{!DatetimeLib datetime} `{!SearchLib}.

(** X26.  In a run whose meetings come from the scrape and whose
    identifiers come from the extractor with the default patterns,
    the scraped petitions carry no identifier, and after petition
    processing every parcel lookup is made for an identifier of
    exactly eight digits [0-9], the document texts being over
    characters below 256. *)
Theorem lookups_are_parcel_numbers (site : web) (E : downloads)
    (disk_at : nat → fs_env) (base_url : string)
    (joinpath : string → string → string) (filter_zoning : bool)
    (start_date end_date : option string) (found processed : list Meeting) :
  scrape_all site base_url filter_zoning start_date end_date = Ok found →
  _process_petitions (pattern := Re.regex) E disk_at base_url joinpath found
  = Ok processed →
  identifiers found = [] ∧
  Forall (fun job : Petition * string => parcel_number job.2 = true)
    (identifiers processed).
Proof.
  intros Hs [= <-].
  apply scrape_all_without_pins, without_pins_identifiers in Hs.
  split; [done|]. apply processed_parcel_numbers. rewrite Hs. constructor.
Qed.

End EndToEnd.

Lemma lookups_are_parcel_numbers_witness :
  Forall (fun job : Models.Petition * string => parcel_number job.2 = true)
    (identifiers [Fixtures.processed_hearing]).
Proof.
  apply (lookups_are_parcel_numbers (datetime := Datetime.datetime)
           (H := Fixtures.sample_search) Fixtures.site
           Fixtures.attachment_site (fun _ => Sample.disk) Sample.base
           (fun a b => a ++ "/" ++ b) true None None
           [Fixtures.scraped_hearing] [Fixtures.processed_hearing]).
  - vm_compute. reflexivity.
  - vm_compute. reflexivity.
Defined.

Section MainFacts.
Import Config MainProps.
Variable E : Main.main_env.

(** X27.  The [--stats] mode never prints the statistics: unless
    [--list] is given as well, it ends with exit status 1 without
    running anything, whatever the county and the stored data. *)
Theorem stats_mode_exits_1 (a : Main.args) :
  Main.stats a = true → Main.list a = false →
  Main.main E a = ([], Main.Exit 1).
Proof.
  intros Hs Hl. unfold Main.main. rewrite Hs, Hl.
  destruct (truthy_opt (Main.date a));
    [destruct (truthy_opt (Main.start_date a) || truthy_opt (Main.end_date a));
     [done|]|].
  all: repeat match goal with
       | |- context [if ?c then _ else _] => destruct c
       end; try done.
  all: by destruct (Main.construct E _) as [[]|[]].
Qed.

Lemma run_county_eq (county_id : string) (s e : option string) :
  Main.run_county E county_id s e
  = (if succeeds E (county_id, s, e) then [(county_id, s, e)]
     else match Main.construct E county_id with
          | Ok _ => [(county_id, s, e)]
          | Raise _ => []
          end,
     succeeds E (county_id, s, e)).
Proof.
  unfold Main.run_county, succeeds. cbn [fst].
  destruct (Main.construct E county_id); [|done].
  by destruct (Main.orchestrator_run E _).
Qed.

Lemma run_all_counties_eq :
  Main.run_all_counties E
  = ((Main.run_county E "charlotte_nc" None None).1
     ++ (Main.run_county E "durham_nc" None None).1,
     Ok [("charlotte_nc", (Main.run_county E "charlotte_nc" None None).2);
         ("durham_nc", (Main.run_county E "durham_nc" None None).2)])%list.
Proof.
  unfold Main.run_all_counties.
  change get_enabled_counties with [charlotte_nc; durham_nc].
  cbn [Main.run_each].
  assert (List.filter (fun kv => bool_decide (kv.2 = charlotte_nc)) COUNTIES
          = [("charlotte_nc", charlotte_nc)]) as ->
    by (vm_compute; reflexivity).
  assert (List.filter (fun kv => bool_decide (kv.2 = durham_nc)) COUNTIES
          = [("durham_nc", durham_nc)]) as ->
    by (vm_compute; reflexivity).
  cbn [fst].
  destruct (Main.run_county E "charlotte_nc" None None) as [c1 b1].
  destruct (Main.run_county E "durham_nc" None None) as [c2 b2].
  cbn [Main.run_each Main.dict_set fst snd].
  change (String.eqb "charlotte_nc" "durham_nc") with false.
  cbn [Main.dict_set]. by rewrite app_nil_r.
Qed.

(** X28.  In scraping mode (neither [--list] nor [--stats]), [main]
    exits with status 1 without running anything when the date
    arguments are rejected.  Otherwise it runs the county given, with
    the accepted bounds, or, when none is given, the two configured
    counties in order and without bounds, whatever bounds were given;
    a county whose orchestrator cannot be constructed is not run, and
    the exit status is 0 exactly when every one of them can be
    constructed and reports success, 1 otherwise. *)
Theorem main_scrapes (a : Main.args) :
  Main.list a = false → Main.stats a = false →
  match bounds a with
  | None => Main.main E a = ([], Main.Exit 1)
  | Some (s, e) =>
      Main.main E a
      = (List.filter (constructible E) (targets a s e),
         Main.Exit (if forallb (succeeds E) (targets a s e)
                    then 0 else 1))
  end.
Proof.
  intros Hl Hs. unfold Main.main, bounds, targets. rewrite Hl, Hs.
  destruct (if truthy_opt (Main.date a) then _ else _) as [[s e]|];
    [|done].
  destruct (truthy_opt s); cbn [negb andb orb].
  - destruct (Main.date_pattern_matches (default "" s)); cbn [negb andb];
      [|done].
    destruct (truthy_opt e); cbn [negb andb orb];
      [destruct (Main.date_pattern_matches (default "" e));
       cbn [negb andb]; [|done]|].
    all: destruct (truthy_opt (Main.county a));
      [rewrite run_county_eq|rewrite run_all_counties_eq, !run_county_eq];
      unfold succeeds, constructible;
      cbn [fst snd List.filter forallb];
      repeat match goal with
             | |- context [Main.construct E ?c] =>
                 destruct (Main.construct E c) as [[]|]
             end;
      repeat match goal with
             | |- context [Main.orchestrator_run E ?c] =>
                 destruct (Main.orchestrator_run E c)
             end; reflexivity.
  - destruct (truthy_opt e); cbn [negb andb orb];
      [destruct (Main.date_pattern_matches (default "" e));
       cbn [negb andb]; [|done]|].
    all: destruct (truthy_opt (Main.county a));
      [rewrite run_county_eq|rewrite run_all_counties_eq, !run_county_eq];
      unfold succeeds, constructible;
      cbn [fst snd List.filter forallb];
      repeat match goal with
             | |- context [Main.construct E ?c] =>
                 destruct (Main.construct E c) as [[]|]
             end;
      repeat match goal with
             | |- context [Main.orchestrator_run E ?c] =>
                 destruct (Main.orchestrator_run E c)
             end; reflexivity.
Qed.

Lemma date_pattern_shape (d : string) :
  Main.date_pattern_matches d = true
  ↔ ∃ d', is_iso d' = true ∧ (d = d' ∨ d = d' ++ PdfParser.nl).
Proof.
  split.
  - intros H. exists (substring 0 10 d).
    do 10 (destruct d as [|? d]; [done|]).
    cbn [Main.date_pattern_matches] in H.
    apply andb_true_iff in H as [H Hrest]. cbn [substring is_iso].
    assert (substring 0 0 d = "") as -> by (by destruct d).
    split; [exact H|].
    apply orb_true_iff in Hrest as [->%String.eqb_eq| ->%String.eqb_eq];
      [by left|by right].
  - intros (d' & Hiso & Hd).
    do 10 (destruct d' as [|? d']; [done|]).
    destruct d'; [|done]. cbn [is_iso] in Hiso.
    destruct Hd as [->| ->]; cbv [String.append];
      cbn [Main.date_pattern_matches]; by rewrite Hiso.
Qed.

(** X29.  The bounds [main] accepts, for arguments over characters
    below 256: [--date] stands for both bounds and excludes the other
    two options; a bound that is given and not empty consists of a
    date of the form [dddd-dd-dd], each [d] one of the digits [0-9],
    possibly followed by one newline, and any string of that form is
    accepted as [--date], a real calendar date or not. *)
Theorem accepted_bounds (a : Main.args) (s e : option string) :
  (bounds a = Some (s, e) →
   (truthy_opt (Main.date a) = true →
    s = Main.date a ∧ e = Main.date a ∧
    truthy_opt (Main.start_date a) = false ∧
    truthy_opt (Main.end_date a) = false) ∧
   (truthy_opt (Main.date a) = false →
    s = Main.start_date a ∧ e = Main.end_date a) ∧
   (∀ d, (s = Some d ∨ e = Some d) → d ≠ "" →
         ∃ d', is_iso d' = true ∧ (d = d' ∨ d = d' ++ PdfParser.nl))) ∧
  (∀ d d', is_iso d' = true → d = d' ∨ d = d' ++ PdfParser.nl →
           bounds {| Main.county := Main.county a;
                     Main.list := Main.list a;
                     Main.stats := Main.stats a;
                     Main.date := Some d;
                     Main.start_date := None;
                     Main.end_date := None |}
           = Some (Some d, Some d)).
Proof.
  split.
  - unfold bounds.
    destruct (truthy_opt (Main.date a)) eqn:Hd.
    + destruct (truthy_opt (Main.start_date a)) eqn:Hs;
        [done|cbn [orb]].
      destruct (truthy_opt (Main.end_date a)) eqn:He; [done|].
      destruct (_ && _) eqn:Hok; [|done]. intros [= <- <-].
      split_and!; [done|done|].
      intros d [Heq|Heq] Hne; apply date_pattern_shape;
        apply andb_true_iff in Hok as [H1 _];
        rewrite Heq in H1; cbn in H1; by destruct d.
    + destruct (_ && _) eqn:Hok; [|done]. intros [= <- <-].
      split_and!; [done|done|].
      apply andb_true_iff in Hok as [H1 H2].
      intros d [Heq|Heq] Hne; apply date_pattern_shape.
      * rewrite Heq in H1. cbn in H1. by destruct d.
      * rewrite Heq in H2. cbn in H2. by destruct d.
  - intros d d' Hiso Hd.
    assert (Main.date_pattern_matches d = true) as Hm
      by (apply date_pattern_shape; by exists d').
    unfold bounds.
    cbn [Main.date Main.start_date Main.end_date truthy_opt orb
         default from_option id].
    assert (truthy d = true) as -> by (by destruct d).
    change (default "" (Some d)) with d. by rewrite Hm, orb_true_r.
Qed.

End MainFacts.

Lemma stats_mode_exits_1_witness :
  Main.main
    {| Main.storage_mkdir := fun _ => Ok tt;
       Main.orchestrator_run := fun _ => true |}
    {| Main.county := Some "charlotte_nc"; Main.list := false;
       Main.stats := true; Main.date := None;
       Main.start_date := None; Main.end_date := None |}
  = ([], Main.Exit 1).
Proof. by apply stats_mode_exits_1. Defined.

Lemma main_scrapes_witness :
  Main.main
    {| Main.storage_mkdir := fun _ => Ok tt;
       Main.orchestrator_run :=
         fun c => String.eqb c.1.1 "charlotte_nc" |}
    {| Main.county := None; Main.list := false;
       Main.stats := false; Main.date := Some "2026-01-20";
       Main.start_date := None; Main.end_date := None |}
  = ([("charlotte_nc", None, None); ("durham_nc", None, None)],
     Main.Exit 1).
Proof.
  exact (main_scrapes
    {| Main.storage_mkdir := fun _ => Ok tt;
       Main.orchestrator_run :=
         fun c => String.eqb c.1.1 "charlotte_nc" |}
    {| Main.county := None; Main.list := false;
       Main.stats := false; Main.date := Some "2026-01-20";
       Main.start_date := None; Main.end_date := None |}
    eq_refl eq_refl).
Defined.

Lemma accepted_bounds_witness :
  ∃ d', is_iso d' = true ∧
        ("2026-13-99" = d' ∨ "2026-13-99" = d' ++ PdfParser.nl).
Proof.
  destruct (accepted_bounds
    {| Main.county := Some "charlotte_nc"; Main.list := false;
       Main.stats := false; Main.date := Some "2026-13-99";
       Main.start_date := None; Main.end_date := None |}
    (Some "2026-13-99") (Some "2026-13-99")) as [Hacc _].
  destruct (Hacc eq_refl) as (_ & _ & Hshape).
  apply Hshape; [by left|done].
Defined.
